(** * LinkID resolver: registry lifecycle, resolver decision rule, TTL caches
      and the client's transport retry loop.

    A shallow embedding of
      - resolver/python/services/registry_service.py
      - resolver/python/services/resolver_service.py
      - resolver/python/services/cache_service.py
      - resolver/python/models.py (RegistrationRequest)
      - resolver/python/services/auth_service.py
      - resolver/python/main.py (the resolve, register, update and withdraw
        handlers)
      - sdk/python/client.py (TTLCache, LinkIDClient._send_request and the
        public methods with their helpers)

    Conventions.
      - Python dictionaries keyed by strings are [gmap string _]; the client
        cache, whose eviction depends on insertion order, is an association
        list kept in insertion order.
      - [time.time()] is an input of every operation that reads the clock.
        Timestamps are rationals ([Q]); binary64 rounding is abstracted.
      - [uuid.uuid4()] is an input of [create].
      - Exceptions are the [Err] side of a result type.
      - A record holds its metadata dictionary by value.  The code keeps the
        dictionary of the payload by reference ([create]) and merges into it
        in place ([update]), so records created from one payload dictionary
        share it.  The properties of [update] are therefore stated on the
        record the call is addressed to, and those on other records leave
        their metadata out.
      - The handlers of main.py are modelled by their bodies.  The checks
        FastAPI makes on path and query parameters before it enters a
        handler are predicates ([linkid_ok], [format_ok], [lang_ok],
        [version_ok]) that the properties of the handlers assume. *)

From Stdlib Require Import ZArith QArith Qround String Ascii DecimalString List.
From Stdlib Require DecimalPos DecimalZ.
From stdpp Require Import base option gmap strings list fin_maps sorting.

Local Open Scope Z_scope.
Local Open Scope string_scope.

(** ** Python values *)

(** The values a JSON-like [Dict[str, Any]] holds. *)
#[warnings="-register-all"]
Inductive pyval : Type :=
  | PNone
  | PBool (b : bool)
  | PInt (z : Z)
  | PFloat (q : Q)
  | PStr (s : string)
  | PDict (d : gmap string pyval).

(** Python truthiness ([bool(v)]). *)
Definition truthy (v : pyval) : bool :=
  match v with
  | PNone => false
  | PBool b => b
  | PInt z => negb (Z.eqb z 0)
  | PFloat q => negb (Qeq_bool q 0)
  | PStr s => negb (String.eqb s "")
  | PDict d => negb (bool_decide (size d = 0%nat))
  end.

(** [a or b]. *)
Definition py_or (a b : pyval) : pyval := if truthy a then a else b.

(** [d.get(k)]: [None] when the key is absent. *)
Definition dict_get (d : gmap string pyval) (k : string) : pyval :=
  default PNone (d !! k).

(** [k in d]. *)
Definition dict_has (d : gmap string pyval) (k : string) : bool :=
  bool_decide (is_Some (d !! k)).

(** [v != s] for a string [s]: a value equals a string only when it is that
    string. *)
Definition py_ne_str (v : pyval) (s : string) : bool :=
  match v with
  | PStr t => negb (String.eqb t s)
  | _ => true
  end.

(** [a < b] on timestamps, as a boolean. *)
Definition Qltb (a b : Q) : bool := negb (Qle_bool b a).

(** ** The registry (services/registry_service.py) *)

Module Registry.

(** [class Tombstone]. *)
Record Tombstone : Type := mkTombstone {
  reason : pyval;
  at_ : Q
}.

(** [Tombstone.__init__]: [self.at = at or time.time()]. *)
Definition Tombstone_init (reason : pyval) (at_arg : option Q) (now : Q)
  : Tombstone :=
  {| reason := reason;
     at_ := match at_arg with
            | Some a => if Qeq_bool a 0 then now else a
            | None => now
            end |}.

(** [class RegistryRecord]. *)
Record RegistryRecord : Type := mkRecord {
  id : string;
  target_uri : pyval;
  media_type : pyval;
  language : pyval;
  metadata : gmap string pyval;
  created : Q;
  updated : Q;
  version : Z;
  withdrawn : option Tombstone
}.

(** [RegistryRecord.__init__]; [metadata] has already been checked to be a
    dictionary by the caller (see [create]). *)
Definition RegistryRecord_init (link_id : string)
    (target_uri media_type language : pyval) (metadata : gmap string pyval)
    (now : Q) : RegistryRecord :=
  {| id := link_id;
     target_uri := target_uri;
     media_type := media_type;
     language := language;
     metadata := metadata;
     created := now;
     updated := now;
     version := 1;
     withdrawn := None |}.

(** The exceptions the registry raises.  [LinkIdWithdrawnError] copies the
    tombstone into a dictionary [{"reason": ..., "at": ...}];
    [AttributeError] is what [record.metadata.setdefault] raises on a payload
    whose metadata is a truthy non-dictionary. *)
Inductive error : Type :=
  | LinkIdNotFoundError (link_id : string)
  | LinkIdWithdrawnError (link_id : string) (tombstone : gmap string pyval)
  | UnauthorizedError
  | AttributeError.

Definition tombstone_dict (t : Tombstone) : gmap string pyval :=
  <["reason" := reason t]> (<["at" := PFloat (at_ t)]> ∅).

Inductive result (A : Type) : Type :=
  | Ok (a : A)
  | Err (e : error).
Arguments Ok {A} a.
Arguments Err {A} e.

(** [RegistryService._store]. *)
Abbreviation Store := (gmap string RegistryRecord).

(** Computations of the service: they read and write the store and either
    return or raise; the store after a raise is whatever had been written
    before it. *)
Definition M (A : Type) : Type := Store -> result A * Store.

Definition ret {A} (a : A) : M A := fun s => (Ok a, s).
Definition raise {A} (e : error) : M A := fun s => (Err e, s).
Definition bind {A B} (m : M A) (k : A -> M B) : M B :=
  fun s => match m s with
           | (Ok a, s') => k a s'
           | (Err e, s') => (Err e, s')
           end.

Declare Scope reg_scope.
Delimit Scope reg_scope with reg.
Notation "'let*' x := m 'in' k" := (bind m (fun x => k))
  (at level 10, x name, m at level 100, k at level 200) : reg_scope.
Notation "m >> k" := (bind m (fun _ => k))
  (at level 60, right associativity) : reg_scope.

(** [self._store.get(link_id)]. *)
Definition store_get (link_id : string) : M (option RegistryRecord) :=
  fun s => (Ok (s !! link_id), s).

(** [self._store[link_id] = record]. *)
Definition store_set (link_id : string) (r : RegistryRecord) : M unit :=
  fun s => (Ok tt, <[link_id := r]> s).

(** An attribute assignment on the record object stored under [link_id]. *)
Definition assign (link_id : string) (f : RegistryRecord -> RegistryRecord)
  : M unit :=
  fun s => (Ok tt, alter f link_id s).

Definition set_target_uri (v : pyval) (r : RegistryRecord) : RegistryRecord :=
  mkRecord (id r) v (media_type r) (language r) (metadata r)
           (created r) (updated r) (version r) (withdrawn r).
Definition set_media_type (v : pyval) (r : RegistryRecord) : RegistryRecord :=
  mkRecord (id r) (target_uri r) v (language r) (metadata r)
           (created r) (updated r) (version r) (withdrawn r).
Definition set_language (v : pyval) (r : RegistryRecord) : RegistryRecord :=
  mkRecord (id r) (target_uri r) (media_type r) v (metadata r)
           (created r) (updated r) (version r) (withdrawn r).
Definition set_metadata (d : gmap string pyval) (r : RegistryRecord)
  : RegistryRecord :=
  mkRecord (id r) (target_uri r) (media_type r) (language r) d
           (created r) (updated r) (version r) (withdrawn r).
Definition set_version (z : Z) (r : RegistryRecord) : RegistryRecord :=
  mkRecord (id r) (target_uri r) (media_type r) (language r) (metadata r)
           (created r) (updated r) z (withdrawn r).
Definition set_updated (q : Q) (r : RegistryRecord) : RegistryRecord :=
  mkRecord (id r) (target_uri r) (media_type r) (language r) (metadata r)
           (created r) q (version r) (withdrawn r).
Definition set_withdrawn (t : option Tombstone) (r : RegistryRecord)
  : RegistryRecord :=
  mkRecord (id r) (target_uri r) (media_type r) (language r) (metadata r)
           (created r) (updated r) (version r) t.

Local Open Scope reg_scope.

(** [RegistryService.create].  [link_id] is the value [_generate_link_id]
    returned and [now] the clock read by [RegistryRecord.__init__]; [issuer]
    is annotated [str] but stored as given, so it is any value here.
    [metadata.setdefault("issuer", issuer)] keeps an [issuer] key the payload
    already carries.  The record gets the entries of the payload's metadata
    dictionary; that the code stores the dictionary object itself is not
    modelled. *)
Definition create (payload : gmap string pyval) (issuer : pyval)
    (link_id : string) (now : Q) : M RegistryRecord :=
  match py_or (dict_get payload "metadata") (PDict ∅) with
  | PDict md =>
      let record :=
        RegistryRecord_init link_id
          (py_or (dict_get payload "target_uri") (dict_get payload "targetUri"))
          (py_or (dict_get payload "media_type") (dict_get payload "mediaType"))
          (dict_get payload "language")
          (match md !! "issuer" with
           | Some _ => md
           | None => <["issuer" := issuer]> md
           end)
          now in
      store_set link_id record >> ret record
  | _ => raise AttributeError
  end.

(** [RegistryService.get]. *)
Definition get (link_id : string) : M RegistryRecord :=
  let* record := store_get link_id in
  match record with
  | None => raise (LinkIdNotFoundError link_id)
  | Some record =>
      match withdrawn record with
      | Some t => raise (LinkIdWithdrawnError link_id (tombstone_dict t))
      | None => ret record
      end
  end.

(** [RegistryService.get_any]. *)
Definition get_any (link_id : string) : M RegistryRecord :=
  let* record := store_get link_id in
  match record with
  | None => raise (LinkIdNotFoundError link_id)
  | Some record => ret record
  end.

(** The ownership test [issuer and issuer != user_sub] shared by [update]
    and [withdraw]. *)
Definition not_owner (record : RegistryRecord) (user_sub : string) : bool :=
  let issuer := dict_get (metadata record) "issuer" in
  truthy issuer && py_ne_str issuer user_sub.

(** One [if cond: record.field = ...; changed = True] block of [update]. *)
Definition apply_if (cond : bool) (link_id : string)
    (f : RegistryRecord -> RegistryRecord) (changed : bool) : M bool :=
  if cond then assign link_id f >> ret true else ret changed.

(** [isinstance(updates["metadata"], dict)], with the dictionary. *)
Definition metadata_update (updates : gmap string pyval)
  : option (gmap string pyval) :=
  match updates !! "metadata" with
  | Some (PDict d) => Some d
  | _ => None
  end.

(** [RegistryService.update].  [record.metadata.update(...)] is the merge
    into the metadata of the record under [link_id]; that it is done in
    place, on a dictionary other records may share, is not modelled. *)
Definition update (link_id : string) (updates : gmap string pyval)
    (user_sub : string) (now : Q) : M unit :=
  let* record := get_any link_id in
  if not_owner record user_sub then raise UnauthorizedError else
  let changed := false in
  let* changed :=
    apply_if (dict_has updates "target_uri" || dict_has updates "targetUri")
      link_id
      (set_target_uri
         (py_or (dict_get updates "target_uri") (dict_get updates "targetUri")))
      changed in
  let* changed :=
    apply_if (dict_has updates "media_type" || dict_has updates "mediaType")
      link_id
      (set_media_type
         (py_or (dict_get updates "media_type") (dict_get updates "mediaType")))
      changed in
  let* changed :=
    apply_if (dict_has updates "language") link_id
      (set_language (dict_get updates "language")) changed in
  let* changed :=
    match metadata_update updates with
    | Some d =>
        assign link_id (fun r => set_metadata (d ∪ metadata r) r) >> ret true
    | None => ret changed
    end in
  if changed then
    assign link_id (fun r => set_version (version r + 1) r) >>
    assign link_id (set_updated now)
  else ret tt.

(** [data or {}]. *)
Definition or_empty (data : option (gmap string pyval)) : gmap string pyval :=
  match data with
  | Some d => if bool_decide (size d = 0%nat) then ∅ else d
  | None => ∅
  end.

(** [RegistryService.withdraw]. *)
Definition withdraw (link_id : string) (data : option (gmap string pyval))
    (user_sub : string) (now : Q) : M unit :=
  let* record := get_any link_id in
  if not_owner record user_sub then raise UnauthorizedError else
  assign link_id
    (set_withdrawn
       (Some (Tombstone_init (dict_get (or_empty data) "reason") None now))).

(** [RegistryService.resolve]. *)
Definition resolve (link_id : string) : M (pyval * RegistryRecord) :=
  let* record := get link_id in
  ret (target_uri record, record).

(** *** Summaries used to state properties of [update] *)

(** Whether [updates] carries a key [update] acts on: one of the four [if]
    conditions of [update] holds. *)
Definition supplies_field (updates : gmap string pyval) : bool :=
  (dict_has updates "target_uri" || dict_has updates "targetUri")
  || (dict_has updates "media_type" || dict_has updates "mediaType")
  || dict_has updates "language"
  || bool_decide (is_Some (metadata_update updates)).

(** The four field assignments of [update] as one function on the record,
    before any version bump. *)
Definition apply_fields (updates : gmap string pyval) (r : RegistryRecord)
  : RegistryRecord :=
  let r1 :=
    if dict_has updates "target_uri" || dict_has updates "targetUri"
    then set_target_uri
           (py_or (dict_get updates "target_uri") (dict_get updates "targetUri"))
           r
    else r in
  let r2 :=
    if dict_has updates "media_type" || dict_has updates "mediaType"
    then set_media_type
           (py_or (dict_get updates "media_type") (dict_get updates "mediaType"))
           r1
    else r1 in
  let r3 :=
    if dict_has updates "language"
    then set_language (dict_get updates "language") r2 else r2 in
  match metadata_update updates with
  | Some d => set_metadata (d ∪ metadata r3) r3
  | None => r3
  end.

(** The attributes [update] may assign, apart from [version] and
    [updated]. *)
Definition fields (r : RegistryRecord)
  : pyval * pyval * pyval * gmap string pyval :=
  (target_uri r, media_type r, language r, metadata r).

(** [record.version += 1; record.updated = time.time()]. *)
Definition bump (now : Q) (r : RegistryRecord) : RegistryRecord :=
  set_updated now (set_version (version r + 1) r).

(** The tombstone [withdraw] writes. *)
Definition new_tombstone (data : option (gmap string pyval)) (now : Q)
  : Tombstone :=
  Tombstone_init (dict_get (or_empty data) "reason") None now.

(** A call on the service, with the values it draws from its environment
    (generated identifier, clock). *)
Inductive op : Type :=
  | OpCreate (payload : gmap string pyval) (issuer : pyval)
             (link_id : string) (now : Q)
  | OpGet (link_id : string)
  | OpGetAny (link_id : string)
  | OpUpdate (link_id : string) (updates : gmap string pyval)
             (user_sub : string) (now : Q)
  | OpWithdraw (link_id : string) (data : option (gmap string pyval))
               (user_sub : string) (now : Q)
  | OpResolve (link_id : string).

(** The store a call leaves behind, whether it returned or raised. *)
Definition exec (o : op) (s : Store) : Store :=
  match o with
  | OpCreate payload issuer link_id now =>
      snd (create payload issuer link_id now s)
  | OpGet link_id => snd (get link_id s)
  | OpGetAny link_id => snd (get_any link_id s)
  | OpUpdate link_id updates user_sub now =>
      snd (update link_id updates user_sub now s)
  | OpWithdraw link_id data user_sub now =>
      snd (withdraw link_id data user_sub now s)
  | OpResolve link_id => snd (resolve link_id s)
  end.

Definition exec_all (ops : list op) (s : Store) : Store :=
  fold_left (fun st o => exec o st) ops s.

(** [uuid4] does not return an identifier the store already holds: every
    [create] of the sequence draws an identifier that is free when drawn. *)
Fixpoint fresh_ids (ops : list op) (s : Store) : Prop :=
  match ops with
  | [] => True
  | o :: rest =>
      match o with
      | OpCreate _ _ link_id _ => s !! link_id = None
      | _ => True
      end /\ fresh_ids rest (exec o s)
  end.

(** Whether a call is a [withdraw] of [link_id]. *)
Definition is_withdraw_of (link_id : string) (o : op) : bool :=
  match o with
  | OpWithdraw l _ _ _ => String.eqb l link_id
  | _ => false
  end.

(** [n] consecutive calls of a read operation: the results in order and the
    final store. *)
Fixpoint repeat_call {A} (n : nat) (m : M A) (s : Store)
  : list (result A) * Store :=
  match n with
  | O => ([], s)
  | S n' => let (r, s') := m s in
            let (rs, s'') := repeat_call n' m s' in
            (r :: rs, s'')
  end.

End Registry.

(** ** Request models and authentication (models.py, auth_service.py) *)

(** [class ResolutionRequest]. *)
Record ResolutionRequest : Type := mkResolutionRequest {
  req_format : option string;
  req_language : option string;
  req_version : option Z;
  req_timestamp : option string;
  accept_header : option string;
  accept_language : option string;
  prefer_redirect : bool
}.

(** [class RegistrationRequest]: [target_uri] is the only required field, a
    [str]; nothing constrains its content. *)
Record RegistrationRequest : Type := mkRegistrationRequest {
  reg_target_uri : string;
  reg_media_type : option string;
  reg_language : option string;
  reg_metadata : option (gmap string pyval)
}.

(** [class User]. *)
Record User : Type := mkUser {
  sub : string;
  scopes : list string
}.

(** [AuthService.has_scope]. *)
Definition has_scope (user : User) (scope : string) : bool :=
  existsb (String.eqb scope) (scopes user).

Definition opt_str (o : option string) : pyval :=
  match o with Some s => PStr s | None => PNone end.

(** ** The resolver (services/resolver_service.py) *)

Module Resolver.
Import Registry.
Local Open Scope reg_scope.

(** [class ResolutionResult], a dataclass with defaults. *)
Record ResolutionResult : Type := mkResult {
  type : string;
  uri : pyval;
  permanent : bool;
  cache_ttl : option Z;
  quality : option Q;
  data : option (gmap string pyval);
  etag : option string
}.

(** [int(x)] on a float: truncation toward zero. *)
Definition py_int (q : Q) : Z := Z.quot (Qnum q) (Zpos (Qden q)).

(** [str(z)] on an integer. *)
Definition str_of_Z (z : Z) : string := NilZero.string_of_int (Z.to_int z).

Definition dquote : string := String "034"%char EmptyString.

(** [f'W/"{record.version}-{int(record.updated)}"']. *)
Definition make_etag (record : RegistryRecord) : string :=
  "W/" ++ dquote ++ str_of_Z (version record) ++ "-"
       ++ str_of_Z (py_int (updated record)) ++ dquote.

(** The dictionary literal of the metadata response. *)
Definition metadata_data (record : RegistryRecord) : gmap string pyval :=
  <["id" := PStr (id record)]>
  (<["target" := target_uri record]>
  (<["mediaType" := media_type record]>
  (<["language" := language record]>
  (<["created" := PFloat (created record)]>
  (<["updated" := PFloat (updated record)]>
  (<["version" := PInt (version record)]>
  (<["metadata" := PDict (metadata record)]> ∅))))))).

(** [ResolverService.resolve]; the [except] clauses re-raise unchanged. *)
Definition resolve (linkid : string) (params : ResolutionRequest)
  : M ResolutionResult :=
  let* tr := Registry.resolve linkid in
  let target_uri := fst tr in
  let record := snd tr in
  if prefer_redirect params then
    ret {| type := "redirect"; uri := target_uri; permanent := false;
           cache_ttl := Some 300; quality := Some 1%Q;
           data := None; etag := None |}
  else
    ret {| type := "metadata"; uri := PNone; permanent := false;
           cache_ttl := Some 120; quality := None;
           data := Some (metadata_data record);
           etag := Some (make_etag record) |}.

(** [ResolverService.register]. *)
Definition register (payload : gmap string pyval) (link_id : string) (now : Q)
  : M (string * Q) :=
  let issuer := py_or (dict_get payload "issuer") (PStr "unknown") in
  let* record := create payload issuer link_id now in
  ret (id record, created record).

(** [ResolverService.update] and [ResolverService.withdraw]. *)
Definition update (linkid : string) (updates : option (gmap string pyval))
    (user_sub : string) (now : Q) : M unit :=
  Registry.update linkid (default ∅ updates) user_sub now.

Definition withdraw (linkid : string) (data : option (gmap string pyval))
    (user_sub : string) (now : Q) : M unit :=
  Registry.withdraw linkid (Some (default ∅ data)) user_sub now.

(** What the [POST /register] handler of main.py answers. *)
Inductive http_response : Type :=
  | HTTPException (status_code : Z) (detail : string)
  | Created (link_id : string) (link_uri : string) (created_at : Q).

(** [register_linkid] of main.py, on a request body that passed the
    [RegistrationRequest] model. *)
Definition register_linkid (registration : RegistrationRequest)
    (user : option User) (link_id : string) (now : Q)
  : Store -> http_response * Store :=
  fun s =>
  match user with
  | None => (HTTPException 401 "Authentication required", s)
  | Some user =>
      if negb (has_scope user "write") then
        (HTTPException 403 "Write permission required", s)
      else
        let payload : gmap string pyval :=
          <["target_uri" := PStr (reg_target_uri registration)]>
          (<["media_type" := opt_str (reg_media_type registration)]>
          (<["language" := opt_str (reg_language registration)]>
          (<["metadata" := match reg_metadata registration with
                           | Some d => PDict d
                           | None => PNone
                           end]>
          (<["issuer" := PStr (sub user)]> ∅)))) in
        match register payload link_id now s with
        | (Ok (i, c), s') =>
            (Created i ("https://w3id.org/linkid/" ++ i) c, s')
        | (Err _, s') => (HTTPException 500 "Registration failed", s')
        end
  end.

End Resolver.

(** ** The server cache (services/cache_service.py) *)

Module CacheService.
Section Cache.
Context {V : Type}.

(** [CacheService._store]: key to (value, expires_at). *)
Local Abbreviation Store := (gmap string (V * Q)).

(** [CacheService.get] at clock [now]: the result and the store left. *)
Definition get (key : string) (now : Q) (s : Store) : option V * Store :=
  match s !! key with
  | None => (None, s)
  | Some (value, expires_at) =>
      if Qltb expires_at now then (None, delete key s)
      else (Some value, s)
  end.

(** [CacheService.set]; [ttl] defaults to 300. *)
Definition set (key : string) (value : V) (ttl : option Z) (now : Q)
    (s : Store) : Store :=
  let ttl : Z := default 300 ttl in
  <[key := (value, (now + inject_Z ttl)%Q)]> s.

(** [CacheService.clear]. *)
Definition clear (s : Store) : Store := ∅.
End Cache.
End CacheService.

(** ** The client (sdk/python/client.py) *)

Module Client.

(** *** TTLCache *)
Section TTLCache.
Context {V : Type}.

(** A Python [dict] in insertion order. *)
Definition odict : Type := list (string * (V * Q)).

(** [d.get(key)]. *)
Fixpoint odict_get (key : string) (d : odict) : option (V * Q) :=
  match d with
  | [] => None
  | (k, e) :: rest => if String.eqb k key then Some e else odict_get key rest
  end.

(** [d.pop(key, None)]. *)
Fixpoint odict_pop (key : string) (d : odict) : odict :=
  match d with
  | [] => []
  | (k, e) :: rest =>
      if String.eqb k key then rest else (k, e) :: odict_pop key rest
  end.

(** [d[key] = e]: an existing key keeps its position, a new one goes
    last. *)
Fixpoint odict_set (key : string) (e : V * Q) (d : odict) : odict :=
  match d with
  | [] => [(key, e)]
  | (k, e') :: rest =>
      if String.eqb k key then (k, e) :: rest
      else (k, e') :: odict_set key e rest
  end.

(** [class TTLCache]. *)
Record TTLCache : Type := mkTTLCache {
  max_size : Z;
  default_ttl : Z;
  _store : odict
}.

(** [TTLCache.__init__]. *)
Definition TTLCache_init (max_size default_ttl : option Z) : TTLCache :=
  {| max_size := default 1024 max_size;
     default_ttl := default 3600 default_ttl;
     _store := [] |}.

Definition with_store (c : TTLCache) (d : odict) : TTLCache :=
  {| max_size := max_size c; default_ttl := default_ttl c; _store := d |}.

(** [TTLCache.get] at clock [now]. *)
Definition get (key : string) (now : Q) (c : TTLCache)
  : option V * TTLCache :=
  match odict_get key (_store c) with
  | None => (None, c)
  | Some (value, expires_at) =>
      if Qltb expires_at now
      then (None, with_store c (odict_pop key (_store c)))
      else (Some value, c)
  end.

(** [TTLCache.set] at clock [now].  At capacity the first key in
    insertion order is dropped; [next(iter({}))] on an empty store raises
    [StopIteration], which is the [None] result here (the cache is then
    left as it was). *)
Definition set (key : string) (value : V) (ttl : option Z) (now : Q)
    (c : TTLCache) : option TTLCache :=
  let evicted :=
    if Z.geb (Z.of_nat (length (_store c))) (max_size c) then
      match _store c with
      | [] => None
      | (k, _) :: _ => Some (odict_pop k (_store c))
      end
    else Some (_store c) in
  match evicted with
  | None => None
  | Some d =>
      let ttl : Z := default (default_ttl c) ttl in
      let expiry := (now + inject_Z ttl)%Q in
      Some (with_store c (odict_set key (value, expiry) d))
  end.

(** [TTLCache.clear]. *)
Definition clear (c : TTLCache) : TTLCache := with_store c [].
End TTLCache.

(** *** Registration precheck *)

(** [LinkIDClient._looks_like_url]: [re.match(r"^https?://", value)]. *)
Definition _looks_like_url (value : string) : bool :=
  String.prefix "http://" value || String.prefix "https://" value.

(** *** Transport retry *)

(** [requests.Response], as far as the client reads it. *)
Record Response : Type := mkResponse {
  status_code : Z;
  headers : gmap string string;
  text : string
}.

(** What one [session.request] call does: it returns a response, raises
    [Timeout], raises another [RequestException], or raises something that
    is not a [RequestException].  Exceptions carry their message. *)
Inductive transport : Type :=
  | Returns (response : Response)
  | RaisesTimeout (exc : string)
  | RaisesRequestException (exc : string)
  | RaisesOther (exc : string).

(** How [_send_request] ends. *)
Inductive sent : Type :=
  | SentOk (response : Response)
  | NetworkError (message : string)
  | Propagated (exc : string).

(** What [_send_request] does to the outside world, in order. *)
Inductive event : Type :=
  | Request (attempt : Z)
  | Sleep (seconds : Z).

(** The part of [class LinkIDClient] the retry loop reads. *)
Record LinkIDClient : Type := mkClient {
  resolver_url : string;
  api_key : option string;
  retries : Z;
  caching : bool
}.

(** [s.rstrip("/")]: [s] without the slashes it ends with. *)
Fixpoint rstrip_slash (s : string) : string :=
  match s with
  | EmptyString => EmptyString
  | String c rest =>
      match rstrip_slash rest with
      | EmptyString => if Ascii.eqb c "/" then EmptyString
                       else String c EmptyString
      | stripped => String c stripped
      end
  end.

(** [LinkIDClient.__init__]: [self.resolver_url = resolver_url.rstrip("/")]
    and [self.retries = max(1, retries)]; [retries] defaults to 3 and
    [caching] to true. *)
Definition LinkIDClient_init (resolver_url : string) (api_key : option string)
    (retries : option Z) (caching : option bool) : LinkIDClient :=
  {| resolver_url := rstrip_slash resolver_url;
     api_key := api_key;
     retries := Z.max 1 (default 3 retries);
     caching := default true caching |}.

(** [str(last_error)]. *)
Definition str_of_error (last_error : option string) : string :=
  default "None" last_error.

(** [range(1, n + 1)]. *)
Definition range1 (n : Z) : list Z :=
  map Z.of_nat (seq 1 (Z.to_nat n)).

(** The [for attempt in ...] loop of [_send_request] over the attempts that
    remain; [session attempt] is what the transport does on that attempt. *)
Fixpoint send_loop (self : LinkIDClient) (session : Z -> transport)
    (url : string) (attempts : list Z) (last_error : option string)
  : list event * sent :=
  match attempts with
  | [] =>
      ([], NetworkError
             ("Request to " ++ url ++ " failed: " ++ str_of_error last_error))
  | attempt :: rest =>
      let retry exc :=
        let (tr, res) := send_loop self session url rest (Some exc) in
        (Request attempt ::
           (if Z.ltb attempt (retries self)
            then [Sleep (2 ^ (attempt - 1))] else []) ++ tr,
         res) in
      match session attempt with
      | Returns response => ([Request attempt], SentOk response)
      | RaisesTimeout exc => retry exc
      | RaisesRequestException exc => retry exc
      | RaisesOther exc => ([Request attempt], Propagated exc)
      end
  end.

(** [LinkIDClient._send_request]. *)
Definition _send_request (self : LinkIDClient) (session : Z -> transport)
    (url : string) : list event * sent :=
  send_loop self session url (range1 (retries self)) None.

(** *** Vocabulary for the retry properties *)

(** The message of a failure the loop catches, if the outcome is one. *)
Definition failure (t : transport) : option string :=
  match t with
  | RaisesTimeout exc | RaisesRequestException exc => Some exc
  | _ => None
  end.

(** Some of the exception classes of the [requests] library, all of them
    subclasses of [RequestException]: a refused or broken connection, a
    timeout, a URL that cannot be parsed (raised before any connection is
    attempted), and a redirect chain that is too long. *)
Inductive request_exception : Type :=
  | ConnectionError
  | Timeout
  | InvalidURL
  | TooManyRedirects.

(** Whether the class is a connection or timeout failure. *)
Definition connection_or_timeout (k : request_exception) : bool :=
  match k with
  | ConnectionError | Timeout => true
  | InvalidURL | TooManyRedirects => false
  end.

(** What the loop of [_send_request] sees when the transport raises an
    exception of class [k] with message [exc]: [except Timeout] takes a
    timeout and [except RequestException] every other class. *)
Definition raises (k : request_exception) (exc : string) : transport :=
  match k with
  | Timeout => RaisesTimeout exc
  | ConnectionError | InvalidURL | TooManyRedirects =>
      RaisesRequestException exc
  end.

(** [cnt] failed attempts starting at attempt [a], each followed by its
    back-off sleep. *)
Definition backoff_from (a cnt : nat) : list event :=
  flat_map (fun j => [Request j; Sleep (2 ^ (j - 1))])
           (map Z.of_nat (seq a cnt)).

(** What the world sees when the loop ends at attempt [k]: attempts 1 to
    [k], with a sleep of [2 ^ (j - 1)] after each attempt [j] before [k]. *)
Definition backoff_trace (k : Z) : list event :=
  backoff_from 1 (Z.to_nat k - 1) ++ [Request k].

(** The number of transport calls in a trace. *)
Fixpoint requests (tr : list event) : nat :=
  match tr with
  | [] => O
  | Request _ :: rest => S (requests rest)
  | Sleep _ :: rest => requests rest
  end.

End Client.

(** ** Sample data *)

Module Sample.
Import Registry.

Definition X : string := "0123456789ABCDEF0123456789ABCDEF".

(** A record as [create] makes it for
    [{"targetUri": "https://example.org/resource", "language": "en"}]
    registered by [alice] at time 1. *)
Definition rec0 : RegistryRecord :=
  RegistryRecord_init X (PStr "https://example.org/resource") PNone
    (PStr "en") (<["issuer" := PStr "alice"]> ∅) 1.

Definition store0 : gmap string RegistryRecord := <[X := rec0]> ∅.

(** [rec0] withdrawn by its owner at time 3. *)
Definition withdrawal : option (gmap string pyval) :=
  Some (<["reason" := PStr "owner request"]> ∅).

Definition store1 : gmap string RegistryRecord :=
  <[X := set_withdrawn (Some (new_tombstone withdrawal 3)) rec0]> ∅.

(** A registration whose metadata already names an issuer. *)
Definition payload_with_issuer (who : string) : gmap string pyval :=
  <["targetUri" := PStr "https://example.org/resource"]>
  (<["metadata" := PDict (<["issuer" := PStr who]> ∅)]> ∅).

(** A caller as [AuthService.authenticate] returns it for a token with
    read and write scopes. *)
Definition demo_user : User :=
  {| sub := "demo-user"; scopes := ["read"; "write"] |}.

(** A request asking for the metadata form. *)
Definition metadata_request : ResolutionRequest :=
  mkResolutionRequest None None None None (Some "*/*") None false.

(** A response and two transports: one that fails twice and then answers,
    one that always times out. *)
Definition found : Client.Response :=
  Client.mkResponse 302
    (<["Location" := "https://example.org/resource"]> ∅) "".

Definition flaky (j : Z) : Client.transport :=
  if Z.leb j 2 then Client.RaisesRequestException "connection refused"
  else Client.Returns found.

Definition down (j : Z) : Client.transport :=
  Client.RaisesTimeout "timed out".

(** A transport that rejects the URL on every attempt. *)
Definition bad_url (j : Z) : Client.transport :=
  Client.raises Client.InvalidURL
    "Invalid URL 'https:/resolve/x': No host supplied".

Definition client3 : Client.LinkIDClient :=
  Client.LinkIDClient_init "https://resolver.linkid.org" None (Some 3) None.

(** An entry cached at time 0 for 10 seconds, in each tier. *)
Definition server_cache : gmap string (string * Q) :=
  CacheService.set "k" "v" (Some 10) 0 ∅.


End Sample.

(** ** Further vocabulary for the registry *)

Module RegistryInv.
Import Registry.

(** The identifier a call addresses. *)
Definition op_target (o : op) : string :=
  match o with
  | OpCreate _ _ link_id _ => link_id
  | OpGet link_id => link_id
  | OpGetAny link_id => link_id
  | OpUpdate link_id _ _ _ => link_id
  | OpWithdraw link_id _ _ _ => link_id
  | OpResolve link_id => link_id
  end.

(** What holds of every record the service stores under [key]. *)
Definition wf_record (key : string) (r : RegistryRecord) : Prop :=
  id r = key /\ 1 <= version r /\ is_Some (metadata r !! "issuer").

Definition wf_store (s : gmap string RegistryRecord) : Prop :=
  forall key r, s !! key = Some r -> wf_record key r.

(** Whether a call is an [update] of [link_id]. *)
Definition is_update_of (link_id : string) (o : op) : bool :=
  match o with
  | OpUpdate l _ _ _ => String.eqb l link_id
  | _ => false
  end.

(** The number of [update] calls on [link_id] in a sequence. *)
Definition updates_of (link_id : string) (ops : list op) : nat :=
  length (List.filter (is_update_of link_id) ops).

End RegistryInv.

(** ** Text helpers *)

Module Text.

(** Whether character [c] occurs in [s]. *)
Fixpoint has_char (c : ascii) (s : string) : bool :=
  match s with
  | EmptyString => false
  | String c' rest => Ascii.eqb c' c || has_char c rest
  end.

(** [c in "0123456789"]. *)
Definition is_digit (c : ascii) : bool :=
  let n := nat_of_ascii c in (48 <=? n)%nat && (n <=? 57)%nat.

(** Whether every character of [s] satisfies [p]. *)
Fixpoint all_chars (p : ascii -> bool) (s : string) : bool :=
  match s with
  | EmptyString => true
  | String c rest => p c && all_chars p rest
  end.

(** [s.lower()] on ASCII text. *)
Definition lower_char (c : ascii) : ascii :=
  let n := nat_of_ascii c in
  if (65 <=? n)%nat && (n <=? 90)%nat then ascii_of_nat (n + 32) else c.

Fixpoint lower (s : string) : string :=
  match s with
  | EmptyString => EmptyString
  | String c rest => String (lower_char c) (lower rest)
  end.

(** The rest of [s] after the prefix [p], if [s] starts with [p]. *)
Fixpoint strip_prefix (p s : string) : option string :=
  match p, s with
  | EmptyString, _ => Some s
  | String a p', String b s' =>
      if Ascii.eqb a b then strip_prefix p' s' else None
  | String _ _, EmptyString => None
  end.

(** The longest prefix of [s] made of digits. *)
Fixpoint take_digits (s : string) : string :=
  match s with
  | EmptyString => EmptyString
  | String c rest =>
      if is_digit c then String c (take_digits rest) else EmptyString
  end.

(** [sep.join(parts)]. *)
Fixpoint join (sep : string) (parts : list string) : string :=
  match parts with
  | [] => ""
  | [p] => p
  | p :: rest => p ++ sep ++ join sep rest
  end.

(** [int(s)] on a text of decimal digits. *)
Definition int_of_digits (s : string) : Z :=
  match NilEmpty.uint_of_string s with
  | Some d => Z.of_uint d
  | None => 0
  end.

End Text.

(** ** Authentication and the HTTP handlers (auth_service.py, main.py) *)

Module Endpoints.
Import Registry Resolver.

(** [AuthService.authenticate]: every accepted token maps to the same
    subject. *)
Definition authenticate (token : option string) : option User :=
  match token with
  | None => None
  | Some t =>
      if String.eqb t "" || String.eqb t "unauthorized" then None
      else if String.eqb t "readonly" then
        Some {| sub := "demo-user"; scopes := ["read"] |}
      else Some {| sub := "demo-user"; scopes := ["read"; "write"] |}
  end.

(** [get_current_user] of main.py; [credentials] is the bearer token of the
    request, if it carries one. *)
Definition get_current_user (credentials : option string) : option User :=
  match credentials with
  | None => None
  | Some t => authenticate (Some t)
  end.

(** What a handler hands back to the framework: an [HTTPException], a
    [RedirectResponse] (the URL it was built with, its status and the
    headers the handler adds), a [JSONResponse] (status 200), or a plain
    returned value (status 200). *)
Inductive response : Type :=
  | HTTPException (status_code : Z) (detail : pyval)
  | RedirectResponse (url : pyval) (status_code : Z)
                     (headers : gmap string string)
  | JSONResponse (content : option (gmap string pyval))
                 (headers : gmap string string)
  | Returned (body : pyval).

(** [x or d] on an optional integer. *)
Definition or_int (x : option Z) (d : Z) : Z :=
  match x with
  | Some z => if Z.eqb z 0 then d else z
  | None => d
  end.

(** [x or d] on an optional float. *)
Definition or_float (x : option Q) (d : Q) : Q :=
  match x with
  | Some q => if Qeq_bool q 0 then d else q
  | None => d
  end.

(** *** Checks declared in the handlers' signatures

    FastAPI checks the path and query parameters against the [Path(...)]
    and [Query(...)] declarations of a handler before it enters the handler;
    a request that fails one of them is answered 422 by the framework and
    the handler is not run.  The handlers below are the bodies of the
    functions of main.py, which run on parameters that passed these
    checks; the predicates here describe parameters that pass. *)

Definition is_lower (c : ascii) : bool :=
  let n := nat_of_ascii c in (97 <=? n)%nat && (n <=? 122)%nat.

Definition is_upper (c : ascii) : bool :=
  let n := nat_of_ascii c in (65 <=? n)%nat && (n <=? 90)%nat.

(** One character of the class [[A-Za-z0-9._~-]]. *)
Definition linkid_char (c : ascii) : bool :=
  is_upper c || is_lower c || Text.is_digit c
  || Ascii.eqb c "." || Ascii.eqb c "_" || Ascii.eqb c "~"
  || Ascii.eqb c "-".

(** [linkid: str = Path(..., regex=r"^[A-Za-z0-9._~-]{32,64}$")]: 32 to 64
    characters of the class and nothing else. *)
Definition linkid_ok (linkid : string) : bool :=
  Text.all_chars linkid_char linkid
  && (32 <=? String.length linkid)%nat && (String.length linkid <=? 64)%nat.

(** [format: Optional[str] = Query(None, regex=r"^(pdf|html|json|xml|txt)$")]:
    absent, or one of the five names. *)
Definition format_ok (format : option string) : bool :=
  match format with
  | None => true
  | Some f => existsb (String.eqb f) ["pdf"; "html"; "json"; "xml"; "txt"]
  end.

(** [lang: Optional[str] = Query(None, regex=r"^[a-z]{2}(-[A-Z]{2})?$")]:
    absent, or two lower-case letters, optionally followed by a hyphen and
    two upper-case letters. *)
Definition lang_ok (lang : option string) : bool :=
  match lang with
  | None => true
  | Some (String a (String b EmptyString)) => is_lower a && is_lower b
  | Some (String a (String b (String c (String d (String e EmptyString))))) =>
      is_lower a && is_lower b && Ascii.eqb c "-" && is_upper d && is_upper e
  | Some _ => false
  end.

(** [version: Optional[int] = Query(None, ge=1)]. *)
Definition version_ok (version : option Z) : bool :=
  match version with
  | None => true
  | Some v => Z.leb 1 v
  end.

Section Handlers.
(** [str] on a float, which is not modelled. *)
Variable str_of_float : Q -> string.

(** The [except Exception] clause of [resolve_linkid]. *)
Definition resolve_error (linkid : string) (e : error) : response :=
  match e with
  | LinkIdNotFoundError _ =>
      HTTPException 404
        (PDict (<["error" := PStr "LinkID not found"]>
                (<["linkId" := PStr linkid]> ∅)))
  | LinkIdWithdrawnError _ tombstone =>
      HTTPException 410
        (PDict (<["error" := PStr "LinkID withdrawn"]>
                (<["linkId" := PStr linkid]>
                (<["tombstone" := PDict tombstone]> ∅))))
  | _ => HTTPException 500 (PStr "Internal resolver error")
  end.

(** The body of [resolve_linkid], the handler of [GET /resolve/{linkid}],
    entered with parameters that passed [linkid_ok], [format_ok], [lang_ok]
    and [version_ok].  [metadata] is the query flag, [accept],
    [accept_language] and [host] the request headers of those names. *)
Definition resolve_linkid (linkid : string) (format lang : option string)
    (version : option Z) (at_ : option string) (metadata : option bool)
    (accept accept_language host : option string)
  : Store -> response * Store :=
  fun s =>
  let request_params :=
    {| req_format := format; req_language := lang; req_version := version;
       req_timestamp := at_; accept_header := Some (default "*/*" accept);
       accept_language := accept_language;
       prefer_redirect := negb (default false metadata) |} in
  match Resolver.resolve linkid request_params s with
  | (Ok result, s') =>
      if String.eqb (type result) "redirect" then
        (RedirectResponse (uri result)
           (if permanent result then 301 else 302)
           (<["Cache-Control" :=
                "max-age=" ++ str_of_Z (or_int (cache_ttl result) 3600)]>
            (<["Link" := "<https://w3id.org/linkid/" ++ linkid ++ ">; rel="
                           ++ dquote ++ "canonical" ++ dquote]>
            (<["X-LinkID-Resolver" := default "resolver.linkid.org" host]>
            (<["X-LinkID-Quality" :=
                 str_of_float (or_float (quality result) 1)]> ∅)))),
         s')
      else if String.eqb (type result) "metadata" then
        match etag result with
        | Some tag =>
            (JSONResponse (data result)
               (<["Content-Type" := "application/linkid+json"]>
                (<["Cache-Control" :=
                     "max-age=" ++ str_of_Z (or_int (cache_ttl result) 1800)]>
                (<["ETag" := tag]>
                (<["Vary" := "Accept, Accept-Language"]> ∅)))),
             s')
        | None => (HTTPException 500 (PStr "Internal resolver error"), s')
        end
      else (Returned PNone, s')
  | (Err e, s') => (resolve_error linkid e, s')
  end.

(** The [except Exception] clause shared by [update_linkid] and
    [withdraw_linkid]; [failed] is the detail of the 500 answer. *)
Definition mutation_error (failed : string) (e : error) : response :=
  match e with
  | LinkIdNotFoundError _ => HTTPException 404 (PStr "LinkID not found")
  | UnauthorizedError => HTTPException 403 (PStr "Not authorized")
  | _ => HTTPException 500 (PStr failed)
  end.

(** The body of [update_linkid], the handler of [PUT /resolve/{linkid}],
    entered with a [linkid] that passed [linkid_ok]; [now] is the clock read
    by the registry, [now_reply] the one read for the answer. *)
Definition update_linkid (linkid : string)
    (updates : option (gmap string pyval)) (user : option User)
    (now now_reply : Q) : Store -> response * Store :=
  fun s =>
  match user with
  | None => (HTTPException 401 (PStr "Authentication required"), s)
  | Some user =>
      match Resolver.update linkid updates (sub user) now s with
      | (Ok _, s') =>
          (Returned (PDict (<["id" := PStr linkid]>
                            (<["updated" := PFloat now_reply]> ∅))), s')
      | (Err e, s') => (mutation_error "Update failed" e, s')
      end
  end.

(** The body of [withdraw_linkid], the handler of
    [DELETE /resolve/{linkid}], entered with a [linkid] that passed
    [linkid_ok]. *)
Definition withdraw_linkid (linkid : string)
    (withdrawal_data : option (gmap string pyval)) (user : option User)
    (now now_reply : Q) : Store -> response * Store :=
  fun s =>
  match user with
  | None => (HTTPException 401 (PStr "Authentication required"), s)
  | Some user =>
      match Resolver.withdraw linkid withdrawal_data (sub user) now s with
      | (Ok _, s') =>
          (Returned (PDict (<["id" := PStr linkid]>
                            (<["withdrawn" := PFloat now_reply]>
                            (<["reason" :=
                                 dict_get (or_empty withdrawal_data) "reason"]>
                             ∅)))), s')
      | (Err e, s') => (mutation_error "Withdrawal failed" e, s')
      end
  end.

End Handlers.
End Endpoints.

(** ** The client's public API (sdk/python/client.py) *)

Module ClientApi.
Import Client Text.

(** *** Local checks *)

(** One character of the class [[A-Za-z0-9._~-]]. *)
Definition id_char (c : ascii) : bool :=
  let n := nat_of_ascii c in
  ((65 <=? n)%nat && (n <=? 90)%nat)
  || ((97 <=? n)%nat && (n <=? 122)%nat)
  || is_digit c
  || Ascii.eqb c "." || Ascii.eqb c "_" || Ascii.eqb c "~"
  || Ascii.eqb c "-".

(** [re.match(r"^[A-Za-z0-9._~-]+$", s)]: one or more characters of the
    class up to the end of the text, where [$] also matches just before a
    line feed that ends the text. *)
Fixpoint match_id (s : string) : bool :=
  match s with
  | EmptyString => false
  | String c rest =>
      id_char c
      && match rest with
         | EmptyString => true
         | String "010"%char EmptyString => true
         | _ => match_id rest
         end
  end.

(** One character of [uuid4().hex.upper()]. *)
Definition is_upper_hex (c : ascii) : bool :=
  let n := nat_of_ascii c in
  is_digit c || ((65 <=? n)%nat && (n <=? 70)%nat).

(** The exceptions the client raises.  [Uncaught] stands for what the
    client does not catch: the [ValueError] of [response.json()], an
    [AttributeError] on a body that is not an object, [StopIteration] from
    the cache, and transport exceptions that are no [RequestException]. *)
Inductive raised : Type :=
  | LinkIDError (message : pyval) (code : pyval)
  | RaisedNetworkError (message : string)
  | ValidationError (message : pyval)
  | LinkIDNotFoundError (link_id : string) (message : pyval)
  | LinkIDWithdrawnError (link_id : string) (message : pyval)
                         (tombstone : pyval)
  | Uncaught (exc : string).

Inductive outcome (A : Type) : Type :=
  | Done (a : A)
  | Raise (e : raised).
Arguments Done {A} a.
Arguments Raise {A} e.

(** [LinkIDClient._validate_link_id]: the error it raises, if any. *)
Definition _validate_link_id (link_id : string) : option raised :=
  if String.eqb link_id "" then
    Some (ValidationError (PStr "LinkID must be a non-empty string"))
  else if negb ((32 <=? String.length link_id)%nat
                && (String.length link_id <=? 64)%nat) then
    Some (ValidationError
            (PStr "LinkID must be between 32 and 64 characters"))
  else if negb (match_id link_id) then
    Some (ValidationError (PStr "LinkID contains invalid characters"))
  else None.

(** [LinkIDClient._require_api_key]: [if not self.api_key]. *)
Definition _require_api_key (self : LinkIDClient) : option raised :=
  match api_key self with
  | Some k =>
      if String.eqb k "" then
        Some (LinkIDError (PStr "API key required for this operation")
                          (PStr "AUTH_REQUIRED"))
      else None
  | None =>
      Some (LinkIDError (PStr "API key required for this operation")
                        (PStr "AUTH_REQUIRED"))
  end.

(** [LinkIDClient._validate_registration_request]. *)
Definition _validate_registration_request (request : gmap string pyval)
  : option raised :=
  match dict_get request "targetUri" with
  | PStr target =>
      if String.eqb target "" then
        Some (ValidationError
                (PStr "'targetUri' is required and must be a string"))
      else if negb (_looks_like_url target) then
        Some (ValidationError (PStr "'targetUri' must be an absolute URL"))
      else None
  | _ =>
      Some (ValidationError
              (PStr "'targetUri' is required and must be a string"))
  end.

(** *** Cache keys *)

(** The values [resolve] passes as options: [None], a flag, an integer or a
    text. *)
Inductive optval : Type :=
  | ONone
  | OBool (b : bool)
  | OInt (z : Z)
  | OStr (s : string).

(** [str(value)], as the f-string of [_cache_key] renders a value. *)
Definition py_str (v : optval) : string :=
  match v with
  | ONone => "None"
  | OBool true => "True"
  | OBool false => "False"
  | OInt z => Resolver.str_of_Z z
  | OStr s => s
  end.

Definition str_le (a b : string) : Prop := Is_true (String.leb a b).

(** [sorted(options)]: the keys in ascending order. *)
Definition sorted_keys (options : gmap string optval) : list string :=
  merge_sort str_le (map_to_list options).*1.

(** [LinkIDClient._cache_key]. *)
Definition _cache_key (link_id : string) (options : gmap string optval)
  : string :=
  join "|"
    (["linkid"; link_id]
       ++ map (fun key => key ++ "=" ++ py_str (default ONone (options !! key)))
              (sorted_keys options)).

Definition opt_text (o : option string) : optval :=
  match o with Some s => OStr s | None => ONone end.

Definition opt_int (o : option Z) : optval :=
  match o with Some z => OInt z | None => ONone end.

(** The dictionary of options [resolve] builds. *)
Definition resolve_options (format language : option string)
    (version : option Z) (timestamp : option string) (metadata : bool)
  : gmap string optval :=
  <["format" := opt_text format]>
  (<["language" := opt_text language]>
  (<["version" := opt_int version]>
  (<["timestamp" := opt_text timestamp]>
  (<["metadata" := OBool metadata]> ∅)))).

(** *** Reading a response *)

(** [response.headers.get(name)]: the header dictionary ignores case, which
    is modelled by keeping [headers] keyed by lower-case names. *)
Definition header_get (response : Response) (name : string) : option string :=
  headers response !! lower name.

(** [re.search(r"max-age=(\d+)", s)]: the digits of the leftmost place where
    [max-age=] is followed by at least one digit. *)
Fixpoint search_max_age (s : string) : option string :=
  match s with
  | EmptyString => None
  | String _ rest =>
      match strip_prefix "max-age=" s with
      | Some tail =>
          match take_digits tail with
          | EmptyString => search_max_age rest
          | digits => Some digits
          end
      | None => search_max_age rest
      end
  end.

(** [LinkIDClient._cache_ttl]. *)
Definition _cache_ttl (default_ttl : Z) (cache_control : option string) : Z :=
  match cache_control with
  | None => default_ttl
  | Some cc =>
      if String.eqb cc "" then default_ttl
      else match search_max_age cc with
           | Some digits => int_of_digits digits
           | None => default_ttl
           end
  end.

(** [response.ok]: no 4xx or 5xx status. *)
Definition ok (response : Response) : bool :=
  negb (Z.leb 400 (status_code response) && Z.ltb (status_code response) 600).

(** *** Results *)

(** [RedirectResolution] and [MetadataResolution], the two members of the
    [ResolutionResult] union. *)
Inductive ResolutionResult : Type :=
  | RedirectResolution (link_id : string) (uri : string) (resolver : string)
                       (cached : bool) (quality : option Q)
  | MetadataResolution (link_id : string) (data : pyval) (resolver : string)
                       (cached : bool).

(** [replace(result, cached=True)]. *)
Definition set_cached (res : ResolutionResult) : ResolutionResult :=
  match res with
  | RedirectResolution l u r _ q => RedirectResolution l u r true q
  | MetadataResolution l d r _ => MetadataResolution l d r true
  end.

Section Api.
(** [response.json()] and [float(text)], which are not modelled; [None] is
    their [ValueError]. *)
Variable json_of : Response -> option pyval.
Variable parse_float : string -> option Q.

(** [LinkIDClient._resolver_used]. *)
Definition _resolver_used (self : LinkIDClient) (response : Response)
  : string :=
  default (resolver_url self) (header_get response "X-LinkID-Resolver").

(** [LinkIDClient._parse_quality]. *)
Definition _parse_quality (header : option string) : option Q :=
  match header with
  | None => None
  | Some h => if String.eqb h "" then None else parse_float h
  end.

(** [f"HTTP {response.status_code}"]. *)
Definition http_text (response : Response) : string :=
  "HTTP " ++ Resolver.str_of_Z (status_code response).

(** [link_id or "unknown"]. *)
Definition or_unknown (link_id : option string) : string :=
  match link_id with
  | Some l => if String.eqb l "" then "unknown" else l
  | None => "unknown"
  end.

(** [LinkIDClient._handle_error]: the exception it raises. *)
Definition _handle_error (response : Response) (link_id : option string)
  : raised :=
  let payload :=
    match json_of response with
    | Some v => v
    | None =>
        PDict (<["error" :=
                   PStr (if String.eqb (text response) ""
                         then http_text response else text response)]> ∅)
    end in
  match payload with
  | PDict d =>
      let message :=
        py_or (py_or (dict_get d "error") (dict_get d "message"))
              (PStr (http_text response)) in
      let code := dict_get d "code" in
      let status := status_code response in
      if Z.eqb status 404 then
        LinkIDNotFoundError (or_unknown link_id) message
      else if Z.eqb status 410 then
        LinkIDWithdrawnError (or_unknown link_id) message
          (py_or (dict_get d "tombstone") (PDict ∅))
      else if Z.eqb status 400 || Z.eqb status 422 then
        ValidationError message
      else if Z.eqb status 401 then
        LinkIDError message (py_or code (PStr "UNAUTHORIZED"))
      else if Z.eqb status 403 then
        LinkIDError message (py_or code (PStr "FORBIDDEN"))
      else if Z.eqb status 429 then
        LinkIDError message (py_or code (PStr "RATE_LIMITED"))
      else LinkIDError message (py_or code (PStr "HTTP_ERROR"))
  | _ => Uncaught "AttributeError"
  end.

(** [response.status_code in {301, 302, 303, 307, 308}]. *)
Definition is_redirect (status : Z) : bool :=
  Z.eqb status 301 || Z.eqb status 302 || Z.eqb status 303
  || Z.eqb status 307 || Z.eqb status 308.

(** [response.headers.get("Location") or response.headers.get("location")]:
    the location, unless it is missing or empty. *)
Definition location_of (response : Response) : option string :=
  match header_get response "Location" with
  | Some l => if String.eqb l "" then
                match header_get response "location" with
                | Some l' => if String.eqb l' "" then None else Some l'
                | None => None
                end
              else Some l
  | None =>
      match header_get response "location" with
      | Some l' => if String.eqb l' "" then None else Some l'
      | None => None
      end
  end.

(** The [if]/[elif]/[else] of [resolve] on the response received. *)
Definition interpret (self : LinkIDClient) (link_id : string)
    (response : Response) : outcome ResolutionResult :=
  if is_redirect (status_code response) then
    match location_of response with
    | None =>
        Raise (LinkIDError
                 (PStr "Resolver returned redirect without Location header")
                 PNone)
    | Some location =>
        Done (RedirectResolution link_id location
                (_resolver_used self response) false
                (_parse_quality (header_get response "X-LinkID-Quality")))
    end
  else if Z.eqb (status_code response) 200 then
    match json_of response with
    | None => Raise (Uncaught "ValueError")
    | Some payload =>
        Done (MetadataResolution link_id payload
                (_resolver_used self response) false)
    end
  else Raise (_handle_error response (Some link_id)).

(** What a public method hands back: its result or exception, the cache it
    leaves, and the transport calls and sleeps it made. *)
Definition answer (A : Type) : Type :=
  outcome A * @TTLCache ResolutionResult * list event.

(** How [_send_request] ends, as the caller sees it. *)
Definition sent_outcome (r : sent) : outcome Response :=
  match r with
  | SentOk response => Done response
  | NetworkError message => Raise (RaisedNetworkError message)
  | Propagated exc => Raise (Uncaught exc)
  end.

(** [LinkIDClient.resolve].  [cache] is [self.cache]; [now_get] and
    [now_set] are the clock as read by the cache lookup and by the cache
    store. *)
Definition resolve (self : LinkIDClient) (cache : @TTLCache ResolutionResult)
    (link_id : string) (format language : option string)
    (version : option Z) (timestamp : option string) (metadata : bool)
    (bypass_cache : bool) (session : Z -> transport) (now_get now_set : Q)
  : answer ResolutionResult :=
  match _validate_link_id link_id with
  | Some e => (Raise e, cache, [])
  | None =>
      let cache_key :=
        _cache_key link_id
          (resolve_options format language version timestamp metadata) in
      let looked :=
        if caching self && negb bypass_cache
        then Client.get cache_key now_get cache
        else (None, cache) in
      match looked with
      | (Some cached, cache1) => (Done (set_cached cached), cache1, [])
      | (None, cache1) =>
          let url := resolver_url self ++ "/resolve/" ++ link_id in
          let (trace, r) := _send_request self session url in
          match sent_outcome r with
          | Raise e => (Raise e, cache1, trace)
          | Done response =>
              match interpret self link_id response with
              | Raise e => (Raise e, cache1, trace)
              | Done result =>
                  if caching self then
                    let ttl :=
                      _cache_ttl (default_ttl cache1)
                        (header_get response "Cache-Control") in
                    match Client.set cache_key result (Some ttl) now_set
                            cache1 with
                    | Some cache2 => (Done result, cache2, trace)
                    | None => (Raise (Uncaught "StopIteration"), cache1, trace)
                    end
                  else (Done result, cache1, trace)
              end
          end
      end
  end.

(** [LinkIDClient.register]. *)
Definition register (self : LinkIDClient) (request : gmap string pyval)
    (session : Z -> transport) : outcome pyval * list event :=
  match _require_api_key self with
  | Some e => (Raise e, [])
  | None =>
      match _validate_registration_request request with
      | Some e => (Raise e, [])
      | None =>
          let url := resolver_url self ++ "/register" in
          let (trace, r) := _send_request self session url in
          match sent_outcome r with
          | Raise e => (Raise e, trace)
          | Done response =>
              if negb (Z.eqb (status_code response) 200
                       || Z.eqb (status_code response) 201)
              then (Raise (_handle_error response None), trace)
              else match json_of response with
                   | Some payload => (Done payload, trace)
                   | None => (Raise (Uncaught "ValueError"), trace)
                   end
          end
      end
  end.

(** The body shared by [update] and [withdraw], which differ in the HTTP
    method and the request body only. *)
Definition mutate (self : LinkIDClient) (cache : @TTLCache ResolutionResult)
    (link_id : string) (session : Z -> transport) : answer unit :=
  match _require_api_key self with
  | Some e => (Raise e, cache, [])
  | None =>
      match _validate_link_id link_id with
      | Some e => (Raise e, cache, [])
      | None =>
          let url := resolver_url self ++ "/resolve/" ++ link_id in
          let (trace, r) := _send_request self session url in
          match sent_outcome r with
          | Raise e => (Raise e, cache, trace)
          | Done response =>
              if negb (ok response)
              then (Raise (_handle_error response (Some link_id)),
                    cache, trace)
              else if caching self then (Done tt, Client.clear cache, trace)
              else (Done tt, cache, trace)
          end
      end
  end.

(** [LinkIDClient.update]. *)
Definition update (self : LinkIDClient) (cache : @TTLCache ResolutionResult)
    (link_id : string) (request : gmap string pyval)
    (session : Z -> transport) : answer unit :=
  mutate self cache link_id session.

(** [LinkIDClient.withdraw]. *)
Definition withdraw (self : LinkIDClient) (cache : @TTLCache ResolutionResult)
    (link_id : string) (request : option (gmap string pyval))
    (session : Z -> transport) : answer unit :=
  mutate self cache link_id session.

End Api.

(** The time spent in [time.sleep] along a trace. *)
Fixpoint slept (tr : list event) : Z :=
  match tr with
  | [] => 0
  | Sleep seconds :: rest => seconds + slept rest
  | Request _ :: rest => slept rest
  end.

End ClientApi.

(** ** More sample data *)

Module Fixtures.
Import Client ClientApi.

(** A cache of capacity 1 that holds one entry. *)
Definition full_cache : @TTLCache string :=
  {| max_size := 1; default_ttl := 3600;
     _store := [("k", ("v", (0 + inject_Z 10)%Q))] |}.

(** A client with an API key, with caching and three attempts. *)
Definition client : LinkIDClient :=
  LinkIDClient_init "https://resolver.linkid.org" (Some "demo") (Some 3) None.

(** A client without API key. *)
Definition anonymous : LinkIDClient :=
  LinkIDClient_init "https://resolver.linkid.org" None (Some 3) None.

(** The redirect answer of the server, with header names in lower case. *)
Definition redirect_response : Response :=
  mkResponse 302
    (<["location" := "https://example.org/resource"]>
     (<["cache-control" := "max-age=300"]>
     (<["x-linkid-resolver" := "resolver.linkid.org"]> ∅))) "".

(** A 410 answer whose body nests the error under [detail]. *)
Definition gone_response : Response :=
  mkResponse 410 ∅ "nested".

Definition gone_body : pyval :=
  PDict (<["detail" :=
             PDict (<["error" := PStr "LinkID withdrawn"]>
                    (<["tombstone" :=
                         PDict (<["reason" := PStr "owner request"]> ∅)]>
                     ∅))]> ∅).

(** [response.json()] for the sample responses. *)
Definition json_of (r : Response) : option pyval :=
  if String.eqb (text r) "nested" then Some gone_body else None.

Definition parse_float (s : string) : option Q := None.

(** Transports that answer at once. *)
Definition answers (r : Response) (attempt : Z) : transport := Returns r.

(** A cache that holds the redirect answer for the sample identifier. *)
Definition warm_cache : @TTLCache ResolutionResult :=
  with_store (TTLCache_init None (Some 3600))
    [(_cache_key Sample.X (resolve_options None None None None false),
      (RedirectResolution Sample.X "https://example.org/resource"
         "resolver.linkid.org" false None,
       (2 + inject_Z 300)%Q))].

(** An empty cache as [LinkIDClient.__init__] makes it. *)
Definition empty_cache : @TTLCache ResolutionResult :=
  TTLCache_init None (Some 3600).

End Fixtures.

(** * Properties *)

(** ** Python values *)

Lemma py_ne_str_true (v : pyval) (s : string) :
  py_ne_str v s = true <-> v <> PStr s.
Proof.
  destruct v as [| b | z | q | t | d]; simpl; try (split; [discriminate | reflexivity]).
  destruct (String.eqb_spec t s) as [-> | Hne]; simpl.
  - split; [discriminate | intros H; contradiction H; reflexivity].
  - split; [intros _ H; injection H; exact Hne | reflexivity].
Qed.

(** ** The registry *)

Module RegistryFacts.
Import Registry.
Local Open Scope reg_scope.

Section Steps.
Variables (link_id : string) (s : gmap string RegistryRecord)
          (r : RegistryRecord).
Hypothesis Hr : s !! link_id = Some r.

Lemma get_any_found : get_any link_id s = (Ok r, s).
Proof using Hr. unfold get_any, bind, store_get. rewrite Hr. reflexivity. Qed.

Lemma assign_found (f : RegistryRecord -> RegistryRecord) :
  assign link_id f s = (Ok tt, <[link_id := f r]> s).
Proof using Hr.
  unfold assign. f_equal. apply map_eq. intros k.
  destruct (decide (link_id = k)) as [<- | Hne].
  - rewrite lookup_alter_eq, Hr, lookup_insert_eq. reflexivity.
  - rewrite lookup_alter_ne, lookup_insert_ne by exact Hne. reflexivity.
Qed.
End Steps.

Lemma assign_inserted (link_id : string) (s : gmap string RegistryRecord)
    (r : RegistryRecord) (f : RegistryRecord -> RegistryRecord) :
  assign link_id f (<[link_id := r]> s) = (Ok tt, <[link_id := f r]> s).
Proof.
  rewrite (assign_found link_id _ r) by apply lookup_insert_eq.
  rewrite insert_insert_eq. reflexivity.
Qed.

(** [update] by a caller that passes the ownership test: it returns, and the
    store it leaves is the old one with the record replaced by the bumped
    result of the field assignments when a recognised key was supplied, and
    the old store otherwise. *)
Lemma update_run (link_id : string) (updates : gmap string pyval)
    (user_sub : string) (now : Q) (s : gmap string RegistryRecord)
    (r : RegistryRecord) :
  s !! link_id = Some r ->
  not_owner r user_sub = false ->
  update link_id updates user_sub now s =
    (Ok tt,
     if supplies_field updates
     then <[link_id := bump now (apply_fields updates r)]> s
     else s).
Proof.
  intros Hr Hown.
  unfold update. unfold bind at 1. rewrite (get_any_found _ _ _ Hr), Hown.
  rewrite <- (insert_id s link_id r Hr) at 1.
  unfold supplies_field, apply_fields, apply_if, bump.
  generalize (dict_has updates "target_uri" || dict_has updates "targetUri").
  generalize (dict_has updates "media_type" || dict_has updates "mediaType").
  generalize (dict_has updates "language").
  intros c3 c2 c1.
  destruct (metadata_update updates) as [d |] eqn:Hmd;
    destruct c1, c2, c3; simpl;
    unfold bind, ret; rewrite ?assign_inserted; simpl;
    rewrite ?assign_inserted; simpl;
    try reflexivity.
  rewrite (insert_id s link_id r Hr). reflexivity.
Qed.

(** The cases of the four [if] conditions of [update]. *)
Ltac case_fields updates :=
  unfold bump, apply_fields;
  destruct (metadata_update updates);
  destruct (dict_has updates "target_uri" || dict_has updates "targetUri");
  destruct (dict_has updates "media_type" || dict_has updates "mediaType");
  destruct (dict_has updates "language").

Lemma update_bumps_version_of_fields (updates : gmap string pyval)
    (r : RegistryRecord) (now : Q) :
  version (bump now (apply_fields updates r)) = version r + 1
  /\ updated (bump now (apply_fields updates r)) = now.
Proof.
  case_fields updates; split; reflexivity.
Qed.

Lemma fields_bump (now : Q) (r : RegistryRecord) :
  fields (bump now r) = fields r.
Proof. reflexivity. Qed.

(** C1 (as the code has it): [update] by a caller passing the ownership test
    returns, and it increments [version] by exactly 1 and sets [updated] to
    the clock exactly when [updates] supplies a recognised key
    ([target_uri]/[targetUri], [media_type]/[mediaType], [language], or
    [metadata] holding a dictionary), whether or not the supplied value
    differs from the stored one.  Without such a key the store is left as it
    was.  In particular an update after which some field differs increments
    [version] by exactly 1. *)
Theorem update_bumps_iff_key_supplied (link_id : string)
    (updates : gmap string pyval) (user_sub : string) (now : Q)
    (s : gmap string RegistryRecord) (r : RegistryRecord) :
  s !! link_id = Some r ->
  not_owner r user_sub = false ->
  exists s' r',
    update link_id updates user_sub now s = (Ok tt, s')
    /\ s' !! link_id = Some r'
    /\ (supplies_field updates = true ->
        version r' = version r + 1 /\ updated r' = now)
    /\ (supplies_field updates = false -> s' = s /\ r' = r)
    /\ (version r' = version r + 1 <-> supplies_field updates = true)
    /\ (fields r' <> fields r -> version r' = version r + 1).
Proof.
  intros Hr Hown. rewrite (update_run _ updates _ now _ _ Hr Hown).
  destruct (supplies_field updates) eqn:Hsup.
  - exists (<[link_id := bump now (apply_fields updates r)]> s),
           (bump now (apply_fields updates r)).
    destruct (update_bumps_version_of_fields updates r now) as [Hv _].
    split; [reflexivity |]. split; [apply lookup_insert_eq |].
    split; [intros _; split; [exact Hv | reflexivity] |].
    split; [discriminate |].
    split; [split; [reflexivity | intros _; exact Hv] |].
    intros _. exact Hv.
  - exists s, r.
    split; [reflexivity |]. split; [exact Hr |].
    split; [discriminate |].
    split; [intros _; split; reflexivity |].
    split; [split; [lia | discriminate] |].
    intros H. contradiction H. reflexivity.
Qed.

(** The theorem applied to a change of target by the owner. *)
Lemma update_bumps_iff_key_supplied_witness :
  exists s' r',
    update Sample.X (<["targetUri" := PStr "https://example.org/new"]> ∅)
      "alice" 2 Sample.store0 = (Ok tt, s')
    /\ s' !! Sample.X = Some r'
    /\ (supplies_field (<["targetUri" := PStr "https://example.org/new"]> ∅)
          = true ->
        version r' = version Sample.rec0 + 1 /\ updated r' = 2%Q)
    /\ (supplies_field (<["targetUri" := PStr "https://example.org/new"]> ∅)
          = false -> s' = Sample.store0 /\ r' = Sample.rec0)
    /\ (version r' = version Sample.rec0 + 1 <->
        supplies_field (<["targetUri" := PStr "https://example.org/new"]> ∅)
          = true)
    /\ (fields r' <> fields Sample.rec0 ->
        version r' = version Sample.rec0 + 1).
Proof.
  apply (update_bumps_iff_key_supplied Sample.X
           (<["targetUri" := PStr "https://example.org/new"]> ∅) "alice" 2
           Sample.store0 Sample.rec0);
    vm_compute; reflexivity.
Defined.

(** C1 (as stated) fails: an update that supplies [language] with the value
    the record already holds changes no field, yet [version] goes from 1 to
    2 and [updated] from 1 to the clock. *)
Lemma update_same_value_bumps_version :
  let updates : gmap string pyval := <["language" := PStr "en"]> ∅ in
  exists r',
    snd (update Sample.X updates "alice" 7 Sample.store0) !! Sample.X = Some r'
    /\ fst (update Sample.X updates "alice" 7 Sample.store0) = Ok tt
    /\ dict_get updates "language" = language Sample.rec0
    /\ fields r' = fields Sample.rec0
    /\ version Sample.rec0 = 1 /\ version r' = 2
    /\ updated Sample.rec0 = 1%Q /\ updated r' = 7%Q.
Proof.
  eexists. split; [vm_compute; reflexivity |].
  repeat split; vm_compute; reflexivity.
Qed.

(** *** Running the operations *)

Lemma get_any_missing (link_id : string) (s : gmap string RegistryRecord) :
  s !! link_id = None ->
  get_any link_id s = (Err (LinkIdNotFoundError link_id), s).
Proof. intros H. unfold get_any, bind, store_get. rewrite H. reflexivity. Qed.

Lemma update_missing (link_id : string) (updates : gmap string pyval)
    (user_sub : string) (now : Q) (s : gmap string RegistryRecord) :
  s !! link_id = None ->
  update link_id updates user_sub now s = (Err (LinkIdNotFoundError link_id), s).
Proof.
  intros H. unfold update. unfold bind at 1.
  rewrite (get_any_missing _ _ H). reflexivity.
Qed.

Lemma update_refused (link_id : string) (updates : gmap string pyval)
    (user_sub : string) (now : Q) (s : gmap string RegistryRecord)
    (r : RegistryRecord) :
  s !! link_id = Some r ->
  not_owner r user_sub = true ->
  update link_id updates user_sub now s = (Err UnauthorizedError, s).
Proof.
  intros Hr Hown. unfold update. unfold bind at 1.
  rewrite (get_any_found _ _ _ Hr), Hown. reflexivity.
Qed.

Lemma withdraw_missing (link_id : string) (data : option (gmap string pyval))
    (user_sub : string) (now : Q) (s : gmap string RegistryRecord) :
  s !! link_id = None ->
  withdraw link_id data user_sub now s = (Err (LinkIdNotFoundError link_id), s).
Proof.
  intros H. unfold withdraw, bind. rewrite (get_any_missing _ _ H). reflexivity.
Qed.

Lemma withdraw_refused (link_id : string) (data : option (gmap string pyval))
    (user_sub : string) (now : Q) (s : gmap string RegistryRecord)
    (r : RegistryRecord) :
  s !! link_id = Some r ->
  not_owner r user_sub = true ->
  withdraw link_id data user_sub now s = (Err UnauthorizedError, s).
Proof.
  intros Hr Hown. unfold withdraw, bind.
  rewrite (get_any_found _ _ _ Hr), Hown. reflexivity.
Qed.

Lemma withdraw_run (link_id : string) (data : option (gmap string pyval))
    (user_sub : string) (now : Q) (s : gmap string RegistryRecord)
    (r : RegistryRecord) :
  s !! link_id = Some r ->
  not_owner r user_sub = false ->
  withdraw link_id data user_sub now s =
    (Ok tt, <[link_id := set_withdrawn (Some (new_tombstone data now)) r]> s).
Proof.
  intros Hr Hown. unfold withdraw, bind.
  rewrite (get_any_found _ _ _ Hr), Hown.
  apply (assign_found _ _ _ Hr).
Qed.

(** A [withdraw] that returned found the record, passed the ownership test
    and wrote the tombstone. *)
Lemma withdraw_ok_inv (link_id : string) (data : option (gmap string pyval))
    (user_sub : string) (now : Q) (s s' : gmap string RegistryRecord) :
  withdraw link_id data user_sub now s = (Ok tt, s') ->
  exists r, s !! link_id = Some r /\ not_owner r user_sub = false
    /\ s' = <[link_id := set_withdrawn (Some (new_tombstone data now)) r]> s.
Proof.
  intros H. destruct (s !! link_id) as [r |] eqn:Hr.
  - destruct (not_owner r user_sub) eqn:Hown.
    + rewrite (withdraw_refused _ _ _ _ _ _ Hr Hown) in H. discriminate.
    + rewrite (withdraw_run _ _ _ _ _ _ Hr Hown) in H.
      exists r. split; [reflexivity |]. split; [exact Hown |].
      injection H as <-. reflexivity.
  - rewrite (withdraw_missing _ _ _ _ _ Hr) in H. discriminate.
Qed.

Lemma get_withdrawn (link_id : string) (s : gmap string RegistryRecord)
    (r : RegistryRecord) (t : Tombstone) :
  s !! link_id = Some r -> withdrawn r = Some t ->
  get link_id s = (Err (LinkIdWithdrawnError link_id (tombstone_dict t)), s).
Proof.
  intros Hr Ht. unfold get, bind, store_get. rewrite Hr, Ht. reflexivity.
Qed.

Lemma resolve_withdrawn (link_id : string) (s : gmap string RegistryRecord)
    (r : RegistryRecord) (t : Tombstone) :
  s !! link_id = Some r -> withdrawn r = Some t ->
  resolve link_id s =
    (Err (LinkIdWithdrawnError link_id (tombstone_dict t)), s).
Proof.
  intros Hr Ht. unfold resolve. unfold bind at 1.
  rewrite (get_withdrawn _ _ _ _ Hr Ht). reflexivity.
Qed.

Lemma get_store (link_id : string) (s : gmap string RegistryRecord) :
  snd (get link_id s) = s.
Proof.
  unfold get, bind, store_get.
  destruct (s !! link_id) as [r |]; [destruct (withdrawn r) |]; reflexivity.
Qed.

Lemma get_any_store (link_id : string) (s : gmap string RegistryRecord) :
  snd (get_any link_id s) = s.
Proof.
  unfold get_any, bind, store_get.
  destruct (s !! link_id) as [r |]; reflexivity.
Qed.

Lemma resolve_store (link_id : string) (s : gmap string RegistryRecord) :
  snd (resolve link_id s) = s.
Proof.
  unfold resolve. unfold bind at 1.
  pose proof (get_store link_id s) as H.
  destruct (get link_id s) as [[r | e] s0]; simpl in *; subst; reflexivity.
Qed.

(** A failing call repeated [n] times fails [n] times the same way and
    leaves the store alone. *)
Lemma repeat_call_err {A} (m : M A) (e : error)
    (s : gmap string RegistryRecord) (n : nat) :
  m s = (Err e, s) ->
  repeat_call n m s = (replicate n (Err e), s).
Proof.
  intros H. induction n as [| n IH]; simpl; [reflexivity |].
  rewrite H, IH. reflexivity.
Qed.

Lemma withdrawn_apply_fields (updates : gmap string pyval)
    (r : RegistryRecord) (now : Q) :
  withdrawn (bump now (apply_fields updates r)) = withdrawn r.
Proof.
  case_fields updates; reflexivity.
Qed.

(** The store [create] leaves: the old one when it raises, else the old one
    with a record without tombstone under the drawn identifier. *)
Lemma create_store (payload : gmap string pyval) (issuer : pyval)
    (link_id : string) (now : Q) (s : gmap string RegistryRecord) :
  snd (create payload issuer link_id now s) = s
  \/ exists r, snd (create payload issuer link_id now s) = <[link_id := r]> s.
Proof.
  unfold create.
  destruct (py_or (dict_get payload "metadata") (PDict ∅));
    try (left; reflexivity).
  right. eexists. reflexivity.
Qed.

(** What one call does to the tombstone of a withdrawn record: it stays as
    it is, unless the call is a [withdraw] of that record by a caller passing
    the ownership test, which replaces it. *)
Lemma exec_tombstone (o : op) (link_id : string)
    (s : gmap string RegistryRecord) (r : RegistryRecord) (t : Tombstone) :
  s !! link_id = Some r -> withdrawn r = Some t ->
  fresh_ids [o] s ->
  exists r', exec o s !! link_id = Some r'
    /\ (withdrawn r' = Some t
        \/ exists data user_sub now,
             o = OpWithdraw link_id data user_sub now
             /\ not_owner r user_sub = false
             /\ withdrawn r' = Some (new_tombstone data now)).
Proof.
  intros Hr Ht [Hfresh _].
  destruct o as [payload issuer l now | l | l | l updates u now
                 | l data u now | l]; simpl.
  - destruct (create_store payload issuer l now s) as [-> | [r0 ->]].
    + exists r. auto.
    + exists r. split; [| auto].
      rewrite lookup_insert_ne; [exact Hr |]. intros ->. congruence.
  - rewrite get_store. exists r. auto.
  - rewrite get_any_store. exists r. auto.
  - destruct (s !! l) as [r0 |] eqn:Hl.
    + destruct (not_owner r0 u) eqn:Hown.
      * rewrite (update_refused _ _ _ _ _ _ Hl Hown). exists r. auto.
      * rewrite (update_run _ _ _ _ _ _ Hl Hown). simpl.
        destruct (supplies_field updates); [| exists r; auto].
        destruct (decide (l = link_id)) as [-> | Hne].
        -- rewrite lookup_insert_eq. eexists. split; [reflexivity |].
           left. rewrite withdrawn_apply_fields. congruence.
        -- rewrite lookup_insert_ne by exact Hne. exists r. auto.
    + rewrite (update_missing _ _ _ _ _ Hl). exists r. auto.
  - destruct (s !! l) as [r0 |] eqn:Hl.
    + destruct (not_owner r0 u) eqn:Hown.
      * rewrite (withdraw_refused _ _ _ _ _ _ Hl Hown). exists r. auto.
      * rewrite (withdraw_run _ _ _ _ _ _ Hl Hown). simpl.
        destruct (decide (l = link_id)) as [-> | Hne].
        -- rewrite lookup_insert_eq. eexists. split; [reflexivity |].
           right. exists data, u, now.
           split; [reflexivity |]. split; [congruence | reflexivity].
        -- rewrite lookup_insert_ne by exact Hne. exists r. auto.
    + rewrite (withdraw_missing _ _ _ _ _ Hl). exists r. auto.
  - rewrite resolve_store. exists r. auto.
Qed.

(** No sequence of calls removes a tombstone. *)
Lemma exec_all_withdrawn (ops : list op) (link_id : string)
    (s : gmap string RegistryRecord) (r : RegistryRecord) (t : Tombstone) :
  s !! link_id = Some r -> withdrawn r = Some t ->
  fresh_ids ops s ->
  exists r' t', exec_all ops s !! link_id = Some r' /\ withdrawn r' = Some t'.
Proof.
  revert s r t. induction ops as [| o ops IH]; intros s r t Hr Ht Hfresh.
  - exists r, t. auto.
  - destruct Hfresh as [Ho Hrest].
    destruct (exec_tombstone o link_id s r t Hr Ht (conj Ho I))
      as [r1 [Hr1 Hcase]].
    assert (exists t1, withdrawn r1 = Some t1) as [t1 Ht1].
    { destruct Hcase as [H | (d & u & n & _ & _ & H)]; eauto. }
    apply (IH _ r1 t1 Hr1 Ht1 Hrest).
Qed.

(** C2: once [withdraw] has returned, the record is terminal.  Right after
    it, [get] and [resolve] raise [LinkIdWithdrawnError] with the reason that
    was just stored, however often they are called, and they leave the store
    alone.  After any further sequence of calls (each [create] drawing an
    identifier that is free when drawn, as [uuid4] does) the record still
    carries a tombstone, and [get] and [resolve] raise
    [LinkIdWithdrawnError] with the tombstone stored then. *)
Theorem withdrawn_is_terminal (link_id : string)
    (data : option (gmap string pyval)) (user_sub : string) (now : Q)
    (s s' : gmap string RegistryRecord) :
  withdraw link_id data user_sub now s = (Ok tt, s') ->
  let e := LinkIdWithdrawnError link_id
             (tombstone_dict (new_tombstone data now)) in
  tombstone_dict (new_tombstone data now) !! "reason"
    = Some (dict_get (or_empty data) "reason")
  /\ (forall n, repeat_call n (get link_id) s' = (replicate n (Err e), s'))
  /\ (forall n, repeat_call n (resolve link_id) s' = (replicate n (Err e), s'))
  /\ (forall ops, fresh_ids ops s' ->
      exists r' t',
        exec_all ops s' !! link_id = Some r'
        /\ withdrawn r' = Some t'
        /\ tombstone_dict t' !! "reason" = Some (reason t')
        /\ get link_id (exec_all ops s') =
             (Err (LinkIdWithdrawnError link_id (tombstone_dict t')),
              exec_all ops s')
        /\ resolve link_id (exec_all ops s') =
             (Err (LinkIdWithdrawnError link_id (tombstone_dict t')),
              exec_all ops s')).
Proof.
  intros H e. destruct (withdraw_ok_inv _ _ _ _ _ _ H) as (r & Hr & Hown & ->).
  set (r1 := set_withdrawn (Some (new_tombstone data now)) r).
  assert (Hr1 : <[link_id := r1]> s !! link_id = Some r1)
    by apply lookup_insert_eq.
  assert (Ht1 : withdrawn r1 = Some (new_tombstone data now)) by reflexivity.
  split; [reflexivity |].
  split; [intros n; apply repeat_call_err, (get_withdrawn _ _ _ _ Hr1 Ht1) |].
  split; [intros n; apply repeat_call_err,
                      (resolve_withdrawn _ _ _ _ Hr1 Ht1) |].
  intros ops Hfresh.
  destruct (exec_all_withdrawn ops link_id _ r1 _ Hr1 Ht1 Hfresh)
    as (r' & t' & Hr' & Ht').
  exists r', t'. split; [exact Hr' |]. split; [exact Ht' |].
  split; [reflexivity |].
  split; [apply (get_withdrawn _ _ _ _ Hr' Ht')
         | apply (resolve_withdrawn _ _ _ _ Hr' Ht')].
Qed.

(** The theorem applied to the owner's withdrawal of the sample record. *)
Lemma withdrawn_is_terminal_witness :
  withdraw Sample.X Sample.withdrawal "alice" 3 Sample.store0
    = (Ok tt, Sample.store1)
  /\ forall n,
       repeat_call n (get Sample.X) Sample.store1 =
         (replicate n
            (Err (LinkIdWithdrawnError Sample.X
                    (tombstone_dict (new_tombstone Sample.withdrawal 3)))),
          Sample.store1).
Proof.
  assert (H : withdraw Sample.X Sample.withdrawal "alice" 3 Sample.store0
              = (Ok tt, Sample.store1)) by (vm_compute; reflexivity).
  split; [exact H |].
  exact (proj1 (proj2 (withdrawn_is_terminal _ _ _ _ _ _ H))).
Defined.

(** *** Ownership *)

Lemma not_owner_true (r : RegistryRecord) (user_sub : string) :
  not_owner r user_sub = true <->
  truthy (dict_get (metadata r) "issuer") = true
  /\ dict_get (metadata r) "issuer" <> PStr user_sub.
Proof.
  unfold not_owner. rewrite andb_true_iff, py_ne_str_true. reflexivity.
Qed.

Lemma owner_passes (r : RegistryRecord) (user_sub : string) :
  dict_get (metadata r) "issuer" = PStr user_sub ->
  not_owner r user_sub = false.
Proof.
  intros H. unfold not_owner. rewrite H. simpl.
  rewrite String.eqb_refl. simpl. apply andb_false_r.
Qed.

(** C4 (as the code has it): when the stored [metadata.issuer] is truthy and
    is not the caller's identity, [update] and [withdraw] raise
    [UnauthorizedError] and leave the whole store as it was. *)
Theorem non_owner_is_refused (link_id : string) (updates : gmap string pyval)
    (data : option (gmap string pyval)) (user_sub : string) (now : Q)
    (s : gmap string RegistryRecord) (r : RegistryRecord) :
  s !! link_id = Some r ->
  truthy (dict_get (metadata r) "issuer") = true ->
  dict_get (metadata r) "issuer" <> PStr user_sub ->
  update link_id updates user_sub now s = (Err UnauthorizedError, s)
  /\ withdraw link_id data user_sub now s = (Err UnauthorizedError, s).
Proof.
  intros Hr Htruthy Hne.
  assert (Hown : not_owner r user_sub = true)
    by (apply not_owner_true; split; assumption).
  split; [apply (update_refused _ _ _ _ _ _ Hr Hown)
         | apply (withdraw_refused _ _ _ _ _ _ Hr Hown)].
Qed.

(** The theorem applied to [mallory] acting on [alice]'s record. *)
Lemma non_owner_is_refused_witness :
  update Sample.X (<["targetUri" := PStr "https://evil.example"]> ∅)
    "mallory" 5 Sample.store0 = (Err UnauthorizedError, Sample.store0)
  /\ withdraw Sample.X None "mallory" 5 Sample.store0
     = (Err UnauthorizedError, Sample.store0).
Proof.
  apply (non_owner_is_refused Sample.X _ None "mallory" 5 Sample.store0
           Sample.rec0).
  - vm_compute; reflexivity.
  - vm_compute; reflexivity.
  - vm_compute. discriminate.
Defined.

(** C4 (as stated) fails: a record registered with [metadata.issuer] set to
    the empty string is stored with that issuer; [mallory], whose identity
    differs from it, then updates and withdraws the record without any
    [UnauthorizedError]. *)
Lemma falsy_issuer_is_not_enforced :
  let payload := Sample.payload_with_issuer "" in
  let s1 := snd (create payload (PStr "alice") Sample.X 1 ∅) in
  let upd := update Sample.X (<["targetUri" := PStr "https://evil.example"]> ∅)
               "mallory" 5 s1 in
  let wd := withdraw Sample.X None "mallory" 6 s1 in
  exists r1 r2 r3,
    s1 !! Sample.X = Some r1
    /\ dict_get (metadata r1) "issuer" = PStr ""
    /\ dict_get (metadata r1) "issuer" <> PStr "mallory"
    /\ fst upd = Ok tt
    /\ snd upd !! Sample.X = Some r2
    /\ target_uri r2 = PStr "https://evil.example" /\ version r2 = 2
    /\ fst wd = Ok tt
    /\ snd wd !! Sample.X = Some r3
    /\ withdrawn r3 <> None.
Proof.
  do 3 eexists.
  split; [vm_compute; reflexivity |].
  split; [vm_compute; reflexivity |].
  split; [vm_compute; discriminate |].
  split; [vm_compute; reflexivity |].
  split; [vm_compute; reflexivity |].
  split; [vm_compute; reflexivity |].
  split; [vm_compute; reflexivity |].
  split; [vm_compute; reflexivity |].
  split; [vm_compute; reflexivity |].
  vm_compute. discriminate.
Qed.

(** *** Tombstones *)

(** C5 (as the code has it): the tombstone of a withdrawn record is left as
    it is by every sequence of calls that holds no [withdraw] of that record
    (each [create] drawing a free identifier), and by a [withdraw] that
    fails the ownership test; a [withdraw] of the record that passes the
    ownership test returns and replaces the tombstone by a new one with the
    new reason and the clock of the call. *)
Theorem tombstone_replaced_only_by_withdraw (link_id : string)
    (s : gmap string RegistryRecord) (r : RegistryRecord) (t : Tombstone) :
  s !! link_id = Some r ->
  withdrawn r = Some t ->
  (forall ops,
     fresh_ids ops s ->
     forallb (fun o => negb (is_withdraw_of link_id o)) ops = true ->
     exists r', exec_all ops s !! link_id = Some r' /\ withdrawn r' = Some t)
  /\ (forall data user_sub now,
        not_owner r user_sub = true ->
        withdraw link_id data user_sub now s = (Err UnauthorizedError, s))
  /\ (forall data user_sub now,
        not_owner r user_sub = false ->
        exists r',
          withdraw link_id data user_sub now s = (Ok tt, <[link_id := r']> s)
          /\ withdrawn r' =
               Some {| reason := dict_get (or_empty data) "reason";
                       at_ := now |}).
Proof.
  intros Hr Ht. split; [| split].
  - intros ops. revert s r Hr Ht.
    induction ops as [| o ops IH]; intros s r Hr Ht Hfresh Hops.
    + exists r. auto.
    + simpl in Hops. apply andb_true_iff in Hops as [Ho Hops].
      destruct Hfresh as [Hf Hrest].
      destruct (exec_tombstone o link_id s r t Hr Ht (conj Hf I))
        as [r1 [Hr1 [Ht1 | (d & u & n & -> & _ & _)]]].
      * apply (IH _ r1 Hr1 Ht1 Hrest Hops).
      * simpl in Ho. rewrite String.eqb_refl in Ho. discriminate.
  - intros data u now Hown. apply (withdraw_refused _ _ _ _ _ _ Hr Hown).
  - intros data u now Hown. eexists.
    split; [apply (withdraw_run _ _ _ _ _ _ Hr Hown) | reflexivity].
Qed.

(** The theorem applied to the withdrawn sample record. *)
Lemma tombstone_replaced_only_by_withdraw_witness :
  Sample.store1 !! Sample.X
    = Some (set_withdrawn (Some (new_tombstone Sample.withdrawal 3))
                          Sample.rec0)
  /\ exists r',
       exec_all [OpUpdate Sample.X (<["language" := PStr "fr"]> ∅) "alice" 4;
                 OpResolve Sample.X] Sample.store1 !! Sample.X = Some r'
       /\ withdrawn r' = Some (new_tombstone Sample.withdrawal 3).
Proof.
  assert (H : Sample.store1 !! Sample.X
              = Some (set_withdrawn (Some (new_tombstone Sample.withdrawal 3))
                                    Sample.rec0))
    by (vm_compute; reflexivity).
  split; [exact H |].
  apply (proj1 (tombstone_replaced_only_by_withdraw Sample.X Sample.store1
                  _ _ H eq_refl)).
  - vm_compute. auto.
  - vm_compute; reflexivity.
Defined.

(** C5 (as stated) fails: a second [withdraw] by the owner replaces the
    stored tombstone, changing both its reason and its time. *)
Lemma second_withdraw_replaces_tombstone :
  exists r1 r2,
    Sample.store1 !! Sample.X = Some r1
    /\ withdrawn r1 = Some {| reason := PStr "owner request"; at_ := 3 |}
    /\ fst (withdraw Sample.X (Some (<["reason" := PStr "other"]> ∅))
              "alice" 9 Sample.store1) = Ok tt
    /\ snd (withdraw Sample.X (Some (<["reason" := PStr "other"]> ∅))
              "alice" 9 Sample.store1) !! Sample.X = Some r2
    /\ withdrawn r2 = Some {| reason := PStr "other"; at_ := 9 |}
    /\ reason {| reason := PStr "other"; at_ := 9 |}
       <> reason {| reason := PStr "owner request"; at_ := 3 |}
    /\ at_ {| reason := PStr "other"; at_ := 9 |}
       <> at_ {| reason := PStr "owner request"; at_ := 3 |}.
Proof.
  do 2 eexists.
  split; [vm_compute; reflexivity |].
  split; [vm_compute; reflexivity |].
  split; [vm_compute; reflexivity |].
  split; [vm_compute; reflexivity |].
  split; [vm_compute; reflexivity |].
  split; simpl; discriminate.
Qed.

(** What the four assignments of [update] leave in the attributes, read off
    the keys of [updates]: [updates.get(snake) or updates.get(camel)] when
    one of the two keys is present, [updates["language"]] when that key is
    present, the metadata with the entries of [updates["metadata"]] written
    over it when that is a dictionary, and the old value otherwise. *)
Lemma apply_fields_values (updates : gmap string pyval) (r : RegistryRecord) :
  target_uri (apply_fields updates r)
    = match updates !! "target_uri", updates !! "targetUri" with
      | Some v, Some w => if truthy v then v else w
      | Some v, None => if truthy v then v else PNone
      | None, Some w => w
      | None, None => target_uri r
      end
  /\ media_type (apply_fields updates r)
    = match updates !! "media_type", updates !! "mediaType" with
      | Some v, Some w => if truthy v then v else w
      | Some v, None => if truthy v then v else PNone
      | None, Some w => w
      | None, None => media_type r
      end
  /\ language (apply_fields updates r)
    = match updates !! "language" with
      | Some v => v
      | None => language r
      end
  /\ metadata (apply_fields updates r)
    = match updates !! "metadata" with
      | Some (PDict d) => d ∪ metadata r
      | _ => metadata r
      end.
Proof.
  unfold apply_fields, metadata_update, dict_has, dict_get, py_or.
  destruct (updates !! "target_uri") as [v1 |],
           (updates !! "targetUri") as [w1 |],
           (updates !! "media_type") as [v2 |],
           (updates !! "mediaType") as [w2 |],
           (updates !! "language") as [v3 |],
           (updates !! "metadata") as [[] |];
    repeat split; reflexivity.
Qed.

Lemma apply_fields_unsupplied (updates : gmap string pyval)
    (r : RegistryRecord) :
  supplies_field updates = false -> apply_fields updates r = r.
Proof.
  unfold supplies_field, apply_fields.
  destruct (metadata_update updates);
    destruct (dict_has updates "target_uri" || dict_has updates "targetUri");
    destruct (dict_has updates "media_type" || dict_has updates "mediaType");
    destruct (dict_has updates "language");
    simpl; try discriminate; reflexivity.
Qed.

(** [update] by a caller passing the ownership test, seen from the record it
    was called on: the call returns, and the record then stored under the
    identifier holds the values supplied in [updates]. *)
Lemma update_record (link_id : string) (updates : gmap string pyval)
    (user_sub : string) (now : Q) (s : gmap string RegistryRecord)
    (r : RegistryRecord) :
  s !! link_id = Some r ->
  not_owner r user_sub = false ->
  exists s' r',
    update link_id updates user_sub now s = (Ok tt, s')
    /\ s' !! link_id = Some r'
    /\ fields r' = fields (apply_fields updates r)
    /\ (supplies_field updates = true ->
        version r' = version r + 1 /\ updated r' = now)
    /\ (supplies_field updates = false ->
        version r' = version r /\ updated r' = updated r)
    /\ id r' = id r
    /\ created r' = created r
    /\ withdrawn r' = withdrawn r.
Proof.
  intros Hr Hown. rewrite (update_run _ updates _ now _ _ Hr Hown).
  destruct (supplies_field updates) eqn:Hsup.
  - exists (<[link_id := bump now (apply_fields updates r)]> s),
           (bump now (apply_fields updates r)).
    destruct (update_bumps_version_of_fields updates r now) as [Hv Hu].
    split; [reflexivity |]. split; [apply lookup_insert_eq |].
    split; [apply fields_bump |].
    split; [intros _; split; assumption |].
    split; [discriminate |].
    repeat split; case_fields updates; reflexivity.
  - exists s, r.
    split; [reflexivity |]. split; [exact Hr |].
    rewrite (apply_fields_unsupplied _ _ Hsup).
    split; [reflexivity |]. split; [discriminate |].
    repeat split.
Qed.

(** C10: [update] reaches the record through [get_any], so on a withdrawn
    record, called with the identity stored as its issuer, it returns: it
    raises neither [LinkIdWithdrawnError] nor anything else, although [get]
    on the same record does raise it.  The record stored under the
    identifier afterwards holds the supplied values: [target_uri] is
    [updates.get("target_uri") or updates.get("targetUri")] when one of the
    two keys is present, [media_type] likewise, [language] is
    [updates["language"]] when that key is present, [metadata] has the
    entries of [updates["metadata"]] written over it when that is a
    dictionary, and an attribute whose keys are absent keeps its value.
    When a recognised key is supplied [version] is incremented by one and
    [updated] is the clock.  The tombstone stays in place.  [withdraw] on
    the same record returns as well. *)
Theorem update_reaches_withdrawn_record (link_id : string)
    (updates : gmap string pyval) (data : option (gmap string pyval))
    (user_sub : string) (now : Q)
    (s : gmap string RegistryRecord) (r : RegistryRecord) (t : Tombstone) :
  s !! link_id = Some r ->
  withdrawn r = Some t ->
  dict_get (metadata r) "issuer" = PStr user_sub ->
  get link_id s = (Err (LinkIdWithdrawnError link_id (tombstone_dict t)), s)
  /\ (exists s' r',
        update link_id updates user_sub now s = (Ok tt, s')
        /\ s' !! link_id = Some r'
        /\ target_uri r'
           = match updates !! "target_uri", updates !! "targetUri" with
             | Some v, Some w => if truthy v then v else w
             | Some v, None => if truthy v then v else PNone
             | None, Some w => w
             | None, None => target_uri r
             end
        /\ media_type r'
           = match updates !! "media_type", updates !! "mediaType" with
             | Some v, Some w => if truthy v then v else w
             | Some v, None => if truthy v then v else PNone
             | None, Some w => w
             | None, None => media_type r
             end
        /\ language r'
           = match updates !! "language" with
             | Some v => v
             | None => language r
             end
        /\ metadata r'
           = match updates !! "metadata" with
             | Some (PDict d) => d ∪ metadata r
             | _ => metadata r
             end
        /\ (supplies_field updates = true ->
            version r' = version r + 1 /\ updated r' = now)
        /\ withdrawn r' = Some t)
  /\ fst (withdraw link_id data user_sub now s) = Ok tt.
Proof.
  intros Hr Ht Hissuer.
  pose proof (owner_passes _ _ Hissuer) as Hown.
  split; [apply (get_withdrawn _ _ _ _ Hr Ht) |].
  split.
  - destruct (update_record link_id updates user_sub now s r Hr Hown)
      as (s' & r' & Hrun & Hs' & Hf & Hv & _ & _ & _ & Hw).
    destruct (apply_fields_values updates r) as (H1 & H2 & H3 & H4).
    unfold fields in Hf. injection Hf as Hf1 Hf2 Hf3 Hf4.
    exists s', r'.
    split; [exact Hrun |]. split; [exact Hs' |].
    split; [rewrite Hf1; exact H1 |].
    split; [rewrite Hf2; exact H2 |].
    split; [rewrite Hf3; exact H3 |].
    split; [rewrite Hf4; exact H4 |].
    split; [exact Hv |].
    rewrite Hw. exact Ht.
  - rewrite (withdraw_run _ _ _ _ _ _ Hr Hown). reflexivity.
Qed.

(** The theorem applied to the owner repointing the withdrawn sample record
    and setting its language. *)
Lemma update_reaches_withdrawn_record_witness :
  exists s' r',
    update Sample.X
      (<["targetUri" := PStr "https://example.org/new"]>
         (<["language" := PStr "de"]> ∅))
      "alice" 8 Sample.store1 = (Ok tt, s')
    /\ s' !! Sample.X = Some r'
    /\ target_uri r' = PStr "https://example.org/new"
    /\ language r' = PStr "de"
    /\ version r' = 2
    /\ withdrawn r' = Some (new_tombstone Sample.withdrawal 3).
Proof.
  destruct (update_reaches_withdrawn_record Sample.X
              (<["targetUri" := PStr "https://example.org/new"]>
                 (<["language" := PStr "de"]> ∅)) None
              "alice" 8 Sample.store1
              (set_withdrawn (Some (new_tombstone Sample.withdrawal 3))
                             Sample.rec0)
              (new_tombstone Sample.withdrawal 3))
    as (_ & (s' & r' & Hrun & Hs' & Ht & _ & Hl & _ & Hv & Hw) & _);
    [vm_compute; reflexivity | reflexivity | vm_compute; reflexivity |].
  exists s', r'. split; [exact Hrun |]. split; [exact Hs' |].
  split; [exact Ht |]. split; [exact Hl |].
  split; [exact (proj1 (Hv ltac:(vm_compute; reflexivity))) | exact Hw].
Defined.

(** *** Creation *)

Lemma create_run (payload : gmap string pyval) (issuer : pyval)
    (link_id : string) (now : Q) (s : gmap string RegistryRecord)
    (md : gmap string pyval) :
  py_or (dict_get payload "metadata") (PDict ∅) = PDict md ->
  exists r,
    create payload issuer link_id now s = (Ok r, <[link_id := r]> s)
    /\ id r = link_id
    /\ target_uri r
       = py_or (dict_get payload "target_uri") (dict_get payload "targetUri")
    /\ metadata r = match md !! "issuer" with
                    | Some _ => md
                    | None => <["issuer" := issuer]> md
                    end
    /\ created r = now /\ updated r = now
    /\ version r = 1 /\ withdrawn r = None.
Proof.
  intros Hmd. unfold create. rewrite Hmd.
  eexists. split; [reflexivity |]. repeat split; reflexivity.
Qed.

(** A payload whose metadata is a non-empty string makes
    [metadata.setdefault] raise before anything is stored. *)
Example create_non_dict_metadata :
  create (<["metadata" := PStr "free text"]> ∅) (PStr "alice") Sample.X 1 ∅
  = (Err AttributeError, ∅).
Proof. reflexivity. Qed.

(** C3 (as the code has it): whenever the payload's metadata is absent,
    falsy or a dictionary, [create] returns and stores a record whose
    metadata has an [issuer] entry: the creating identity when the payload's
    metadata carried no [issuer] key, and otherwise the value the payload
    carried, which [setdefault] keeps.  That entry alone decides the
    ownership test of [update] and [withdraw]. *)
Theorem create_sets_issuer_by_default (payload : gmap string pyval)
    (issuer : pyval) (link_id : string) (now : Q)
    (s : gmap string RegistryRecord) (md : gmap string pyval) :
  py_or (dict_get payload "metadata") (PDict ∅) = PDict md ->
  exists r,
    create payload issuer link_id now s = (Ok r, <[link_id := r]> s)
    /\ metadata r !! "issuer" = Some (default issuer (md !! "issuer"))
    /\ (md !! "issuer" = None -> dict_get (metadata r) "issuer" = issuer)
    /\ (forall v, md !! "issuer" = Some v ->
                  dict_get (metadata r) "issuer" = v)
    /\ (forall updates data user_sub now',
          let stored := default issuer (md !! "issuer") in
          let s' := <[link_id := r]> s in
          (fst (update link_id updates user_sub now' s') = Err UnauthorizedError
           <-> truthy stored = true /\ stored <> PStr user_sub)
          /\ (fst (withdraw link_id data user_sub now' s')
                = Err UnauthorizedError
              <-> truthy stored = true /\ stored <> PStr user_sub)).
Proof.
  intros Hmd.
  destruct (create_run payload issuer link_id now s md Hmd)
    as (r & Hrun & _ & _ & Hmeta & _).
  exists r. split; [exact Hrun |].
  assert (Hiss : metadata r !! "issuer" = Some (default issuer (md !! "issuer"))).
  { rewrite Hmeta. destruct (md !! "issuer") as [v |] eqn:Hv; simpl.
    - exact Hv.
    - apply lookup_insert_eq. }
  assert (Hget : dict_get (metadata r) "issuer" = default issuer (md !! "issuer")).
  { unfold dict_get. rewrite Hiss. reflexivity. }
  split; [exact Hiss |].
  split; [intros Hnone; rewrite Hget, Hnone; reflexivity |].
  split; [intros v Hv; rewrite Hget, Hv; reflexivity |].
  intros updates data user_sub now' stored s'.
  assert (Hr : s' !! link_id = Some r) by apply lookup_insert_eq.
  subst stored. rewrite <- Hget, <- not_owner_true.
  destruct (not_owner r user_sub) eqn:Hown.
  - rewrite (update_refused _ _ _ _ _ _ Hr Hown).
    rewrite (withdraw_refused _ _ _ _ _ _ Hr Hown). simpl.
    split; split; reflexivity.
  - rewrite (update_run _ _ _ _ _ _ Hr Hown).
    rewrite (withdraw_run _ _ _ _ _ _ Hr Hown). simpl.
    split; split; discriminate.
Qed.

(** The theorem applied to a registration without metadata. *)
Lemma create_sets_issuer_by_default_witness :
  exists r,
    create (<["targetUri" := PStr "https://example.org/resource"]> ∅)
      (PStr "alice") Sample.X 1 ∅ = (Ok r, <[Sample.X := r]> ∅)
    /\ metadata r !! "issuer" = Some (PStr "alice").
Proof.
  destruct (create_sets_issuer_by_default
              (<["targetUri" := PStr "https://example.org/resource"]> ∅)
              (PStr "alice") Sample.X 1 ∅ ∅)
    as (r & Hrun & Hiss & _); [vm_compute; reflexivity |].
  exists r. split; [exact Hrun | exact Hiss].
Defined.

(** C3 (as stated) fails: [alice] registers a payload whose metadata names
    [mallory] as issuer; the stored issuer is [mallory], not [alice]. *)
Lemma create_keeps_payload_issuer :
  exists r,
    create (Sample.payload_with_issuer "mallory") (PStr "alice") Sample.X 1 ∅
      = (Ok r, <[Sample.X := r]> ∅)
    /\ metadata r !! "issuer" = Some (PStr "mallory")
    /\ metadata r !! "issuer" <> Some (PStr "alice").
Proof.
  eexists. split; [vm_compute; reflexivity |].
  split; [vm_compute; reflexivity | vm_compute; discriminate].
Qed.

End RegistryFacts.

(** ** The resolver *)

Module ResolverFacts.
Import Registry Resolver.
Local Open Scope reg_scope.

Lemma registry_resolve_active (linkid : string)
    (s : gmap string RegistryRecord) (r : RegistryRecord) :
  s !! linkid = Some r -> withdrawn r = None ->
  Registry.resolve linkid s = (Ok (target_uri r, r), s).
Proof.
  intros Hr Hw. unfold Registry.resolve, get, bind, store_get.
  rewrite Hr, Hw. reflexivity.
Qed.

(** On non-negative timestamps [int] is the floor. *)
Lemma py_int_floor (q : Q) : (0 <= q)%Q -> py_int q = Qfloor q.
Proof.
  destruct q as [n d]. unfold Qle, py_int, Qfloor. simpl. intros H.
  apply Z.quot_div_nonneg; lia.
Qed.

(** C7 (as the code has it): on an active record, with [prefer_redirect]
    true [resolve] returns the redirect form with [uri] the record's target,
    [permanent] false, [cache_ttl] 300 and [quality] 1.0; with it false it
    returns the metadata form whose [data] has exactly the keys [id],
    [target], [mediaType], [language], [created], [updated], [version] and
    [metadata] holding the record's values, [cache_ttl] 120, and [etag] the
    characters W, slash and a double quote, then the version, a dash and
    [int(updated)], then a closing double quote; [int(updated)] is the floor
    of [updated] when that is not negative.  The store is left as it was. *)
Theorem resolve_shapes_result (linkid : string) (params : ResolutionRequest)
    (s : gmap string RegistryRecord) (r : RegistryRecord) :
  s !! linkid = Some r ->
  withdrawn r = None ->
  (prefer_redirect params = true ->
     resolve linkid params s =
       (Ok {| type := "redirect"; uri := target_uri r; permanent := false;
              cache_ttl := Some 300; quality := Some 1%Q;
              data := None; etag := None |}, s))
  /\ (prefer_redirect params = false ->
      exists d,
        resolve linkid params s =
          (Ok {| type := "metadata"; uri := PNone; permanent := false;
                 cache_ttl := Some 120; quality := None;
                 data := Some d;
                 etag := Some ("W/" ++ dquote ++ str_of_Z (version r) ++ "-"
                                 ++ str_of_Z (py_int (updated r)) ++ dquote)
              |}, s)
        /\ dom d = list_to_set ["id"; "target"; "mediaType"; "language";
                                "created"; "updated"; "version"; "metadata"]
        /\ d !! "id" = Some (PStr (id r))
        /\ d !! "target" = Some (target_uri r)
        /\ d !! "mediaType" = Some (media_type r)
        /\ d !! "language" = Some (language r)
        /\ d !! "created" = Some (PFloat (created r))
        /\ d !! "updated" = Some (PFloat (updated r))
        /\ d !! "version" = Some (PInt (version r))
        /\ d !! "metadata" = Some (PDict (metadata r)))
  /\ ((0 <= updated r)%Q -> py_int (updated r) = Qfloor (updated r)).
Proof.
  intros Hr Hw. split; [| split].
  - intros Hp. unfold resolve, bind.
    rewrite (registry_resolve_active _ _ _ Hr Hw), Hp. reflexivity.
  - intros Hp. exists (metadata_data r). split.
    + unfold resolve, bind.
      rewrite (registry_resolve_active _ _ _ Hr Hw), Hp. reflexivity.
    + unfold metadata_data. split.
      * rewrite !dom_insert_L, dom_empty_L. simpl. set_solver.
      * repeat split; reflexivity.
  - apply py_int_floor.
Qed.

(** The theorem applied to the sample record, asked for as a redirect. *)
Lemma resolve_shapes_result_witness :
  resolve Sample.X
    (mkResolutionRequest None None None None None None true) Sample.store0 =
    (Ok {| type := "redirect"; uri := PStr "https://example.org/resource";
           permanent := false; cache_ttl := Some 300; quality := Some 1%Q;
           data := None; etag := None |}, Sample.store0).
Proof.
  apply (proj1 (resolve_shapes_result Sample.X
                  (mkResolutionRequest None None None None None None true)
                  Sample.store0 Sample.rec0
                  ltac:(vm_compute; reflexivity) eq_refl)).
  reflexivity.
Defined.

(** C7 (as stated) fails on the validator: for the sample record (version 1,
    updated at 1) the [etag] is not the text 1-1, bare or in double quotes;
    it carries the weak-validator prefix. *)
Lemma etag_carries_weak_prefix :
  exists res,
    resolve Sample.X Sample.metadata_request Sample.store0
      = (Ok res, Sample.store0)
    /\ version Sample.rec0 = 1
    /\ Qfloor (updated Sample.rec0) = 1
    /\ etag res = Some ("W/" ++ dquote ++ "1-1" ++ dquote)
    /\ etag res <> Some "1-1"
    /\ etag res <> Some (dquote ++ "1-1" ++ dquote).
Proof.
  eexists. split; [vm_compute; reflexivity |].
  split; [reflexivity |]. split; [reflexivity |].
  split; [vm_compute; reflexivity |].
  split; vm_compute; discriminate.
Qed.

(** The life of one identifier: registered, resolved as a redirect, repointed
    by its owner (version 2, redirect to the new target), withdrawn, and then
    answered with the tombstone's reason. *)
Example lifecycle_scenario :
  let redirect := mkResolutionRequest None None None None None None true in
  let s1 := snd (create (<["targetUri" := PStr "https://example.org/resource"]> ∅)
                   (PStr "alice") Sample.X 1 ∅) in
  let s2 := snd (Resolver.update Sample.X
                   (Some (<["targetUri" := PStr "https://example.org/new"]> ∅))
                   "alice" 2 s1) in
  let s3 := snd (Resolver.withdraw Sample.X Sample.withdrawal "alice" 3 s2) in
  uri <$> (match fst (resolve Sample.X redirect s1) with
           | Ok res => Some res | Err _ => None end)
    = Some (PStr "https://example.org/resource")
  /\ version <$> s2 !! Sample.X = Some 2
  /\ uri <$> (match fst (resolve Sample.X redirect s2) with
              | Ok res => Some res | Err _ => None end)
     = Some (PStr "https://example.org/new")
  /\ fst (resolve Sample.X redirect s3)
     = Err (LinkIdWithdrawnError Sample.X
              (<["reason" := PStr "owner request"]>
               (<["at" := PFloat 3]> ∅))).
Proof. repeat split; vm_compute; reflexivity. Qed.

(** *** Registration *)

Lemma has_scope_write_payload (registration : RegistrationRequest)
    (user : User) :
  py_or (dict_get
           (<["target_uri" := PStr (reg_target_uri registration)]>
            (<["media_type" := opt_str (reg_media_type registration)]>
            (<["language" := opt_str (reg_language registration)]>
            (<["metadata" := match reg_metadata registration with
                             | Some d => PDict d
                             | None => PNone
                             end]>
            (<["issuer" := PStr (sub user)]> (∅ : gmap string pyval))))))
           "metadata") (PDict ∅)
  = PDict (match reg_metadata registration with
           | Some d => if bool_decide (size d = 0%nat) then ∅ else d
           | None => ∅
           end).
Proof.
  unfold dict_get. rewrite lookup_insert_ne by discriminate.
  rewrite lookup_insert_ne by discriminate.
  rewrite lookup_insert_ne by discriminate.
  rewrite lookup_insert_eq. simpl.
  destruct (reg_metadata registration) as [d |]; [| reflexivity].
  unfold py_or. simpl. destruct (bool_decide (size d = 0%nat)); reflexivity.
Qed.

(** C6 (as the code has it): [create] checks nothing about the target.
    Whenever the payload's metadata is absent, falsy or a dictionary it
    returns and stores the record with [version] 1, its target being
    whatever the payload holds ([None] when it holds none).  On
    [POST /register] the request model requires [target_uri] to be a
    string and nothing more: for every such request from a caller with the
    write scope, the handler answers 201 and the record is stored with
    [version] 1 and that string (or [None] when it is empty) as target. *)
Theorem create_stores_any_target :
  (forall payload issuer link_id now (s : gmap string RegistryRecord) md,
     py_or (dict_get payload "metadata") (PDict ∅) = PDict md ->
     exists r,
       create payload issuer link_id now s = (Ok r, <[link_id := r]> s)
       /\ version r = 1
       /\ target_uri r = py_or (dict_get payload "target_uri")
                               (dict_get payload "targetUri"))
  /\ (forall registration user link_id now (s : gmap string RegistryRecord),
        has_scope user "write" = true ->
        exists r,
          register_linkid registration (Some user) link_id now s
            = (Created link_id ("https://w3id.org/linkid/" ++ link_id) now,
               <[link_id := r]> s)
          /\ version r = 1
          /\ target_uri r = if String.eqb (reg_target_uri registration) ""
                            then PNone
                            else PStr (reg_target_uri registration)).
Proof.
  split.
  - intros payload issuer link_id now s md Hmd.
    destruct (RegistryFacts.create_run payload issuer link_id now s md Hmd)
      as (r & Hrun & _ & Ht & _ & _ & _ & Hv & _).
    exists r. auto.
  - intros registration user link_id now s Hscope.
    unfold register_linkid. rewrite Hscope. simpl.
    unfold register, bind.
    match goal with
    | |- context [create ?p ?i link_id now s] =>
        destruct (RegistryFacts.create_run p i link_id now s _
                    (has_scope_write_payload registration user))
          as (r & Hrun & Hid & Ht & _ & Hc & _ & Hv & _);
        rewrite Hrun
    end.
    exists r. unfold ret. rewrite Hid, Hc.
    split; [reflexivity |]. split; [exact Hv |].
    rewrite Ht. unfold dict_get. rewrite lookup_insert_eq.
    rewrite lookup_insert_ne by discriminate.
    rewrite lookup_insert_ne by discriminate.
    rewrite lookup_insert_ne by discriminate.
    rewrite lookup_insert_ne by discriminate.
    rewrite lookup_insert_ne by discriminate.
    rewrite lookup_empty. unfold py_or. simpl.
    destruct (String.eqb (reg_target_uri registration) ""); reflexivity.
Qed.

(** The theorem applied to a registration by the demo user. *)
Lemma create_stores_any_target_witness :
  exists r,
    register_linkid
      (mkRegistrationRequest "https://example.org/resource" None None None)
      (Some Sample.demo_user) Sample.X 1 ∅
    = (Created Sample.X ("https://w3id.org/linkid/" ++ Sample.X) 1,
       <[Sample.X := r]> ∅)
    /\ version r = 1
    /\ target_uri r = PStr "https://example.org/resource".
Proof.
  exact (proj2 create_stores_any_target
           (mkRegistrationRequest "https://example.org/resource" None None None)
           Sample.demo_user Sample.X 1%Q ∅ eq_refl).
Defined.

(** C6 (as stated) fails: a payload without target and a payload whose
    target is not an absolute URL are both stored by [create], and the
    latter is also accepted on [POST /register]. *)
Lemma create_accepts_missing_or_relative_target :
  Client._looks_like_url "not-a-uri" = false
  /\ (exists r,
        create ∅ (PStr "alice") Sample.X 1 ∅ = (Ok r, <[Sample.X := r]> ∅)
        /\ target_uri r = PNone /\ version r = 1)
  /\ (exists r,
        create (<["targetUri" := PStr "not-a-uri"]> ∅) (PStr "alice")
          Sample.X 1 ∅ = (Ok r, <[Sample.X := r]> ∅)
        /\ target_uri r = PStr "not-a-uri" /\ version r = 1)
  /\ (exists r,
        register_linkid (mkRegistrationRequest "not-a-uri" None None None)
          (Some Sample.demo_user) Sample.X 1 ∅
        = (Created Sample.X ("https://w3id.org/linkid/" ++ Sample.X) 1,
           <[Sample.X := r]> ∅)
        /\ target_uri r = PStr "not-a-uri" /\ version r = 1).
Proof.
  split; [reflexivity |].
  split; [eexists; split; [vm_compute; reflexivity |]; split; reflexivity |].
  split; [eexists; split; [vm_compute; reflexivity |];
          split; vm_compute; reflexivity |].
  eexists. split; [vm_compute; reflexivity |].
  split; vm_compute; reflexivity.
Qed.

End ResolverFacts.

(** ** The client's transport retry *)

Module ClientFacts.
Import Client.

Lemma requests_app (tr1 tr2 : list event) :
  requests (tr1 ++ tr2) = (requests tr1 + requests tr2)%nat.
Proof.
  induction tr1 as [| [a | z] tr1 IH]; simpl; [reflexivity | |];
    rewrite IH; reflexivity.
Qed.

(** The loop makes at most one transport call per attempt it is given. *)
Lemma send_loop_requests (self : LinkIDClient) (session : Z -> transport)
    (url : string) (attempts : list Z) (last_error : option string) :
  (requests (fst (send_loop self session url attempts last_error))
   <= length attempts)%nat.
Proof.
  revert last_error. induction attempts as [| a rest IH]; intros last; simpl.
  - lia.
  - destruct (session a) as [resp | exc | exc | exc]; simpl; try lia.
    + specialize (IH (Some exc)).
      destruct (send_loop self session url rest (Some exc)) as [tr res].
      simpl in *. rewrite requests_app.
      destruct (Z.ltb a (retries self)); simpl; lia.
    + specialize (IH (Some exc)).
      destruct (send_loop self session url rest (Some exc)) as [tr res].
      simpl in *. rewrite requests_app.
      destruct (Z.ltb a (retries self)); simpl; lia.
Qed.

(** A failed attempt that is not the last allowed one is followed by its
    sleep and by the rest of the loop. *)
Lemma send_loop_failed (self : LinkIDClient) (session : Z -> transport)
    (url : string) (a : Z) (rest : list Z) (last_error : option string)
    (exc : string) :
  failure (session a) = Some exc ->
  send_loop self session url (a :: rest) last_error =
    ((Request a :: (if Z.ltb a (retries self)
                    then [Sleep (2 ^ (a - 1))] else [])
        ++ fst (send_loop self session url rest (Some exc)))%list,
     snd (send_loop self session url rest (Some exc))).
Proof.
  intros Hf. simpl.
  destruct (session a) as [resp | e | e | e]; simpl in Hf;
    try discriminate; injection Hf as ->;
    destruct (send_loop self session url rest (Some exc)); reflexivity.
Qed.

(** [cnt] failing attempts in a row, none of them the last allowed one, put
    their requests and sleeps in front of what the rest of the loop does. *)
Lemma send_loop_prefix (self : LinkIDClient) (session : Z -> transport)
    (url : string) (cnt : nat) :
  forall (a m : nat) (last_error : option string),
    (forall j, (a <= j < a + cnt)%nat ->
               failure (session (Z.of_nat j)) <> None) ->
    Z.of_nat (a + cnt) <= retries self ->
    exists last',
      send_loop self session url (map Z.of_nat (seq a (cnt + m))) last_error =
        ((backoff_from a cnt
           ++ fst (send_loop self session url
                     (map Z.of_nat (seq (a + cnt) m)) last'))%list,
         snd (send_loop self session url
                (map Z.of_nat (seq (a + cnt) m)) last')).
Proof.
  induction cnt as [| c IH]; intros a m last Hfail Hle.
  - exists last. rewrite Nat.add_0_r. simpl.
    destruct (send_loop self session url (map Z.of_nat (seq a m)) last).
    reflexivity.
  - destruct (failure (session (Z.of_nat a))) as [exc |] eqn:Hf;
      [| exfalso; apply (Hfail a); [lia | exact Hf]].
    destruct (IH (S a) m (Some exc)) as [last' Hrest].
    { intros j Hj. apply Hfail. lia. }
    { lia. }
    assert (Hlt : Z.ltb (Z.of_nat a) (retries self) = true)
      by (apply Z.ltb_lt; lia).
    exists last'. replace (a + S c)%nat with (S a + c)%nat by lia.
    change (seq a (S c + m)) with (a :: seq (S a) (c + m)).
    rewrite map_cons, (send_loop_failed _ _ _ _ _ _ exc Hf), Hrest, Hlt.
    reflexivity.
Qed.

Lemma range1_split (n : Z) (k : nat) :
  (1 <= k)%nat -> Z.of_nat k <= n ->
  range1 n = map Z.of_nat (seq 1 ((k - 1) + (Z.to_nat n - (k - 1)))).
Proof.
  intros H1 Hk. unfold range1. f_equal. f_equal. lia.
Qed.

(** The loop up to attempt [k], when every attempt before [k] failed. *)
Lemma send_request_upto (self : LinkIDClient) (session : Z -> transport)
    (url : string) (k : nat) :
  (1 <= k)%nat -> Z.of_nat k <= retries self ->
  (forall j, 1 <= j < Z.of_nat k -> failure (session j) <> None) ->
  exists last',
    _send_request self session url =
      ((backoff_from 1 (k - 1)
         ++ fst (send_loop self session url
                   (map Z.of_nat (seq k (S (Z.to_nat (retries self) - k))))
                   last'))%list,
       snd (send_loop self session url
              (map Z.of_nat (seq k (S (Z.to_nat (retries self) - k))))
              last')).
Proof.
  intros H1 Hk Hfail. unfold _send_request.
  rewrite (range1_split (retries self) k H1 Hk).
  destruct (send_loop_prefix self session url (k - 1) 1
              (Z.to_nat (retries self) - (k - 1)) None) as [last' Hrun].
  { intros j Hj. apply Hfail. lia. }
  { lia. }
  exists last'. rewrite Hrun.
  replace (1 + (k - 1))%nat with k by lia.
  replace (Z.to_nat (retries self) - (k - 1))%nat
    with (S (Z.to_nat (retries self) - k)) by lia.
  reflexivity.
Qed.

(** [__init__] drops the slashes the resolver URL ends with, and only
    those. *)
Example init_strips_trailing_slashes :
  resolver_url (LinkIDClient_init "https://resolver.linkid.org//" None None None)
    = "https://resolver.linkid.org"
  /\ resolver_url (LinkIDClient_init "https://host/a/b" None None None)
     = "https://host/a/b".
Proof. split; reflexivity. Qed.

(** C8 (as stated) fails: a URL the transport cannot parse raises
    [InvalidURL], which is neither a connection nor a timeout failure; with
    [retries = 3] the client still tries three times, sleeping 1 and 2 in
    between, before it raises [NetworkError]. *)
Lemma send_request_retries_invalid_url :
  connection_or_timeout InvalidURL = false
  /\ _send_request Sample.client3 Sample.bad_url "https:/resolve/x"
     = ([Request 1; Sleep 1; Request 2; Sleep 2; Request 3],
        NetworkError
          "Request to https:/resolve/x failed: Invalid URL 'https:/resolve/x': No host supplied").
Proof. split; reflexivity. Qed.

(** C8 (as the code has it): the client makes at most [max(1, retries)]
    transport calls, and the failures it retries are all those of class
    [RequestException], not only connection and timeout failures.  If the
    attempts before attempt [k] all raised [Timeout] or another
    [RequestException], then: a response received at attempt [k] is returned
    at once, whatever its status; an exception that is not a
    [RequestException] raised at attempt [k] propagates at once; and when
    [k] is the last allowed attempt and it fails as well, the client raises
    [NetworkError] whose message holds that last failure.  In each case the
    world saw attempts 1 to [k] in order, with a sleep of [2 ^ (j - 1)] after
    each attempt [j] before [k] and none after attempt [k].  Every class of
    [RequestException] counts as such a failure. *)
Theorem send_request_retry_policy (resolver_url : string)
    (api_key : option string) (retries0 : option Z) (caching : option bool)
    (session : Z -> transport) (url : string) :
  let self := LinkIDClient_init resolver_url api_key retries0 caching in
  let n := Z.max 1 (default 3 retries0) in
  retries self = n
  /\ (requests (fst (_send_request self session url)) <= Z.to_nat n)%nat
  /\ (forall k,
        1 <= k <= n ->
        (forall j, 1 <= j < k -> failure (session j) <> None) ->
        (forall response,
           session k = Returns response ->
           _send_request self session url = (backoff_trace k, SentOk response))
        /\ (forall exc,
              session k = RaisesOther exc ->
              _send_request self session url
                = (backoff_trace k, Propagated exc))
        /\ (forall exc,
              k = n ->
              failure (session k) = Some exc ->
              _send_request self session url
                = (backoff_trace k,
                   NetworkError ("Request to " ++ url ++ " failed: " ++ exc))))
  /\ (forall kind exc, failure (raises kind exc) = Some exc).
Proof.
  intros self n.
  assert (Hn : retries self = n) by reflexivity.
  split; [exact Hn |]. split; [| split].
  - unfold _send_request.
    etransitivity; [apply send_loop_requests |].
    unfold range1. rewrite length_map, length_seq, Hn. lia.
  - intros k Hk Hfail.
    destruct (send_request_upto self session url (Z.to_nat k)) as [last' Hrun].
    { lia. }
    { rewrite Hn. lia. }
    { intros j Hj. apply Hfail. lia. }
    rewrite Hrun. clear Hrun. unfold backoff_trace.
    change (seq (Z.to_nat k) (S (Z.to_nat (retries self) - Z.to_nat k)))
      with (Z.to_nat k
              :: seq (S (Z.to_nat k)) (Z.to_nat (retries self) - Z.to_nat k)).
    rewrite map_cons. replace (Z.of_nat (Z.to_nat k)) with k by lia.
    split; [| split].
    + intros response Hs. simpl. rewrite Hs. reflexivity.
    + intros exc Hs. simpl. rewrite Hs. reflexivity.
    + intros exc Hlast Hf.
      rewrite (send_loop_failed _ _ _ _ _ _ exc Hf).
      replace (Z.to_nat (retries self) - Z.to_nat k)%nat with O by lia.
      rewrite Hn, <- Hlast, Z.ltb_irrefl. reflexivity.
  - intros [] exc; reflexivity.
Qed.

(** The theorem applied to a transport that fails twice and then answers,
    with [retries = 3]. *)
Lemma send_request_retry_policy_witness :
  _send_request Sample.client3 Sample.flaky "https://resolver.linkid.org/x"
  = ([Request 1; Sleep 1; Request 2; Sleep 2; Request 3],
     SentOk Sample.found).
Proof.
  apply (proj1 (proj1 (proj2 (proj2
           (send_request_retry_policy "https://resolver.linkid.org" None
              (Some 3) None Sample.flaky "https://resolver.linkid.org/x")))
           3 ltac:(simpl; lia)
           (fun j Hj =>
              match Z.eq_dec j 1 with
              | left e => ltac:(subst j; discriminate)
              | right n1 =>
                  match Z.eq_dec j 2 with
                  | left e => ltac:(subst j; discriminate)
                  | right n2 => ltac:(exfalso; lia)
                  end
              end))).
  reflexivity.
Defined.

(** With [retries = 3] and a transport that always times out, the client
    calls three times, sleeps 1 and 2 in between, and raises
    [NetworkError]. *)
Example send_request_exhausted :
  _send_request Sample.client3 Sample.down "https://resolver.linkid.org/x"
  = ([Request 1; Sleep 1; Request 2; Sleep 2; Request 3],
     NetworkError
       "Request to https://resolver.linkid.org/x failed: timed out").
Proof. reflexivity. Qed.

(** [retries = 0] still makes one attempt. *)
Example send_request_minimum_one :
  _send_request
    (LinkIDClient_init "https://resolver.linkid.org" None (Some 0) None)
    Sample.down "u"
  = ([Request 1], NetworkError "Request to u failed: timed out").
Proof. reflexivity. Qed.

End ClientFacts.

(** ** The caches *)

Module CacheFacts.


Lemma Qltb_false (a b : Q) : Qltb a b = false <-> (b <= a)%Q.
Proof.
  unfold Qltb. rewrite negb_false_iff. apply Qle_bool_iff.
Qed.

Section Odict.
Context {V : Type}.
Implicit Types (d : @Client.odict V) (key : string) (e : V * Q).

Lemma odict_get_set_eq key e d :
  Client.odict_get key (Client.odict_set key e d) = Some e.
Proof.
  induction d as [| [k e'] rest IH]; simpl.
  - rewrite String.eqb_refl. reflexivity.
  - destruct (String.eqb k key) eqn:E; simpl; rewrite E;
      [reflexivity | exact IH].
Qed.

Lemma odict_get_absent key d :
  key ∉ d.*1 -> Client.odict_get key d = None.
Proof.
  induction d as [| [k e'] rest IH]; simpl; [reflexivity |].
  intros Hnot. apply not_elem_of_cons in Hnot as [Hne Hrest].
  destruct (String.eqb_spec k key) as [-> | _]; [contradiction | auto].
Qed.

End Odict.




End CacheFacts.

(** ** More on the registry *)

Module RegistryMore.
Import Registry RegistryInv RegistryFacts.
Local Open Scope reg_scope.

(** *** Unknown identifiers *)

(** Every operation that takes an identifier raises
    [LinkIdNotFoundError] for an identifier the store does not hold, and
    leaves the store as it was. *)
Theorem unknown_id_is_not_found (link_id : string)
    (updates : gmap string pyval) (data : option (gmap string pyval))
    (user_sub : string) (now : Q) (s : gmap string RegistryRecord) :
  s !! link_id = None ->
  get link_id s = (Err (LinkIdNotFoundError link_id), s)
  /\ get_any link_id s = (Err (LinkIdNotFoundError link_id), s)
  /\ resolve link_id s = (Err (LinkIdNotFoundError link_id), s)
  /\ update link_id updates user_sub now s
     = (Err (LinkIdNotFoundError link_id), s)
  /\ withdraw link_id data user_sub now s
     = (Err (LinkIdNotFoundError link_id), s).
Proof.
  intros H.
  assert (Hget : get link_id s = (Err (LinkIdNotFoundError link_id), s)).
  { unfold get, bind, store_get. rewrite H. reflexivity. }
  split; [exact Hget |].
  split; [apply get_any_missing, H |].
  split; [unfold resolve; unfold bind at 1; rewrite Hget; reflexivity |].
  split; [apply update_missing, H | apply withdraw_missing, H].
Qed.

Lemma unknown_id_is_not_found_witness :
  update "nobody" ∅ "alice" 2 Sample.store0
  = (Err (LinkIdNotFoundError "nobody"), Sample.store0).
Proof.
  exact (proj1 (proj2 (proj2 (proj2
           (unknown_id_is_not_found "nobody" ∅ None "alice" 2 Sample.store0
              ltac:(vm_compute; reflexivity)))))).
Defined.

(** *** Reading back what was created *)

(** After [create] has returned a record, [get], [get_any] and [resolve]
    on the drawn identifier return that record (and its target), without
    touching the store, and every other identifier is as it was. *)
Theorem create_then_read (payload : gmap string pyval) (issuer : pyval)
    (link_id : string) (now : Q) (s s' : gmap string RegistryRecord)
    (r : RegistryRecord) :
  create payload issuer link_id now s = (Ok r, s') ->
  get link_id s' = (Ok r, s')
  /\ get_any link_id s' = (Ok r, s')
  /\ resolve link_id s' = (Ok (target_uri r, r), s')
  /\ (forall other, other <> link_id -> s' !! other = s !! other).
Proof.
  intros H. unfold create in H.
  destruct (py_or (dict_get payload "metadata") (PDict ∅))
    as [| | | | | md]; try discriminate.
  unfold bind, store_set, ret in H. injection H as Hr Hs.
  rewrite Hr in Hs. subst s'.
  assert (Hl : <[link_id := r]> s !! link_id = Some r)
    by apply lookup_insert_eq.
  assert (Hw : withdrawn r = None) by (rewrite <- Hr; reflexivity).
  assert (Hget : get link_id (<[link_id := r]> s)
                 = (Ok r, <[link_id := r]> s)).
  { unfold get, bind, store_get. rewrite Hl, Hw. reflexivity. }
  split; [exact Hget |].
  split; [apply get_any_found, Hl |].
  split; [unfold resolve; unfold bind at 1; rewrite Hget; reflexivity |].
  intros other Hne. apply lookup_insert_ne. congruence.
Qed.

Lemma create_then_read_witness :
  get Sample.X Sample.store0 = (Ok Sample.rec0, Sample.store0).
Proof.
  assert (H : create (<["targetUri" := PStr "https://example.org/resource"]>
                      (<["language" := PStr "en"]> ∅))
                (PStr "alice") Sample.X 1 ∅ = (Ok Sample.rec0, Sample.store0))
    by (vm_compute; reflexivity).
  exact (proj1 (create_then_read _ _ _ _ _ _ _ H)).
Defined.

(** *** What a call can do to a stored record *)

Lemma apply_fields_keeps (updates : gmap string pyval) (r : RegistryRecord)
    (now : Q) :
  id (bump now (apply_fields updates r)) = id r
  /\ created (bump now (apply_fields updates r)) = created r.
Proof. case_fields updates; split; reflexivity. Qed.

(** One call leaves a stored record in place with its [id] and [created];
    either [version], [updated], [target_uri], [media_type] and [language]
    stay as they were, or the call is an [update] of that record and
    [version] grew by one. *)
Lemma exec_step (o : op) (link_id : string)
    (s : gmap string RegistryRecord) (r : RegistryRecord) :
  s !! link_id = Some r ->
  fresh_ids [o] s ->
  exists r',
    exec o s !! link_id = Some r'
    /\ id r' = id r /\ created r' = created r
    /\ ((version r' = version r /\ updated r' = updated r
         /\ target_uri r' = target_uri r /\ media_type r' = media_type r
         /\ language r' = language r)
        \/ (is_update_of link_id o = true /\ version r' = version r + 1)).
Proof.
  intros Hr [Hfresh _].
  assert (Hsame : exists r', Some r = Some r'
            /\ id r' = id r /\ created r' = created r
            /\ ((version r' = version r /\ updated r' = updated r
                 /\ target_uri r' = target_uri r
                 /\ media_type r' = media_type r
                 /\ language r' = language r)
                \/ (is_update_of link_id o = true
                    /\ version r' = version r + 1))).
  { exists r. split; [reflexivity |]. split; [reflexivity |].
    split; [reflexivity |]. left. repeat split. }
  destruct o as [payload issuer l now | l | l | l updates u now
                 | l data u now | l]; simpl.
  - destruct (create_store payload issuer l now s) as [-> | [r0 ->]].
    + rewrite Hr. exact Hsame.
    + rewrite lookup_insert_ne; [rewrite Hr; exact Hsame |].
      intros ->. congruence.
  - rewrite get_store, Hr. exact Hsame.
  - rewrite get_any_store, Hr. exact Hsame.
  - destruct (s !! l) as [r0 |] eqn:Hl.
    + destruct (not_owner r0 u) eqn:Hown.
      * rewrite (update_refused _ _ _ _ _ _ Hl Hown). simpl.
        rewrite Hr. exact Hsame.
      * rewrite (update_run _ _ _ _ _ _ Hl Hown). simpl.
        destruct (supplies_field updates); [| rewrite Hr; exact Hsame].
        destruct (decide (l = link_id)) as [-> | Hne].
        -- rewrite lookup_insert_eq. eexists. split; [reflexivity |].
           assert (r0 = r) as -> by congruence.
           destruct (apply_fields_keeps updates r now) as [Hid Hc].
           split; [exact Hid |]. split; [exact Hc |]. right.
           split; [simpl; apply String.eqb_refl |].
           apply update_bumps_version_of_fields.
        -- rewrite lookup_insert_ne by exact Hne. rewrite Hr. exact Hsame.
    + rewrite (update_missing _ _ _ _ _ Hl). simpl. rewrite Hr. exact Hsame.
  - destruct (s !! l) as [r0 |] eqn:Hl.
    + destruct (not_owner r0 u) eqn:Hown.
      * rewrite (withdraw_refused _ _ _ _ _ _ Hl Hown). simpl.
        rewrite Hr. exact Hsame.
      * rewrite (withdraw_run _ _ _ _ _ _ Hl Hown). simpl.
        destruct (decide (l = link_id)) as [-> | Hne].
        -- rewrite lookup_insert_eq. eexists. split; [reflexivity |].
           assert (r0 = r) as -> by congruence.
           split; [reflexivity |]. split; [reflexivity |]. left.
           repeat split.
        -- rewrite lookup_insert_ne by exact Hne. rewrite Hr. exact Hsame.
    + rewrite (withdraw_missing _ _ _ _ _ Hl). simpl. rewrite Hr. exact Hsame.
  - rewrite resolve_store, Hr. exact Hsame.
Qed.

(** Records are never deleted and never re-identified: after any sequence
    of calls (each [create] drawing a free identifier) a record that was
    stored is still stored under its identifier, with the [id] and the
    [created] time it had. *)
Theorem record_identity_is_kept (ops : list op) (link_id : string)
    (s : gmap string RegistryRecord) (r : RegistryRecord) :
  s !! link_id = Some r ->
  fresh_ids ops s ->
  exists r',
    exec_all ops s !! link_id = Some r'
    /\ id r' = id r /\ created r' = created r.
Proof.
  revert s r. induction ops as [| o ops IH]; intros s r Hr Hfresh.
  - exists r. auto.
  - destruct Hfresh as [Ho Hrest].
    destruct (exec_step o link_id s r Hr (conj Ho I))
      as (r1 & Hr1 & Hid & Hc & _).
    destruct (IH _ r1 Hr1 Hrest) as (r' & Hr' & Hid' & Hc').
    exists r'. split; [exact Hr' |]. split; congruence.
Qed.

Lemma record_identity_is_kept_witness :
  exists r',
    exec_all [OpWithdraw Sample.X None "alice" 4;
              OpUpdate Sample.X (<["language" := PStr "fr"]> ∅) "alice" 5]
      Sample.store0 !! Sample.X = Some r'
    /\ id r' = Sample.X /\ created r' = 1%Q.
Proof.
  apply (record_identity_is_kept _ Sample.X Sample.store0 Sample.rec0);
    vm_compute; auto.
Defined.

(** [version] never decreases, and it grows by at most one for each
    [update] call on the record: after a sequence of calls (each [create]
    drawing a free identifier) holding [n] updates of the record, its
    version lies between the old one and the old one plus [n].  A sequence
    without such an update, whatever it withdraws, reads or creates and
    whatever it does to other records, leaves the record's [version],
    [updated], [target_uri], [media_type] and [language] as they were.
    (Nothing is said of its [metadata]: records created from one payload
    dictionary share it, and an update of one rewrites it for all.) *)
Theorem version_grows_only_by_update (ops : list op) (link_id : string)
    (s : gmap string RegistryRecord) (r : RegistryRecord) :
  s !! link_id = Some r ->
  fresh_ids ops s ->
  exists r',
    exec_all ops s !! link_id = Some r'
    /\ version r <= version r' <= version r + Z.of_nat (updates_of link_id ops)
    /\ (updates_of link_id ops = O ->
        version r' = version r /\ updated r' = updated r
        /\ target_uri r' = target_uri r /\ media_type r' = media_type r
        /\ language r' = language r).
Proof.
  revert s r. induction ops as [| o ops IH]; intros s r Hr Hfresh.
  - exists r. split; [exact Hr |]. split; [simpl; lia |].
    intros _. repeat split.
  - destruct Hfresh as [Ho Hrest].
    destruct (exec_step o link_id s r Hr (conj Ho I))
      as (r1 & Hr1 & _ & _ & Hcase).
    destruct (IH _ r1 Hr1 Hrest) as (r' & Hr' & Hv & Hnone).
    exists r'. split; [exact Hr' |].
    unfold updates_of in *. simpl.
    destruct Hcase as [(Hv1 & Hu1 & Ht1 & Hm1 & Hl1) | (Hupd & Hv1)].
    + split.
      * destruct (is_update_of link_id o); simpl; lia.
      * destruct (is_update_of link_id o); simpl; [discriminate |].
        intros H0. destruct (Hnone H0) as (? & ? & ? & ? & ?).
        repeat split; congruence.
    + rewrite Hupd. simpl. split; [lia | discriminate].
Qed.

Lemma version_grows_only_by_update_witness :
  exists r',
    exec_all [OpWithdraw Sample.X None "alice" 4; OpResolve Sample.X]
      Sample.store0 !! Sample.X = Some r'
    /\ version Sample.rec0 <= version r' <= version Sample.rec0 + 0
    /\ (O = O ->
        version r' = version Sample.rec0 /\ updated r' = updated Sample.rec0
        /\ target_uri r' = target_uri Sample.rec0
        /\ media_type r' = media_type Sample.rec0
        /\ language r' = language Sample.rec0).
Proof.
  apply (version_grows_only_by_update
           [OpWithdraw Sample.X None "alice" 4; OpResolve Sample.X]
           Sample.X Sample.store0 Sample.rec0);
    vm_compute; auto.
Defined.

(** *** Independence of identifiers *)

(** With metadata held by value, a call addressed to one identifier leaves
    the entry of every other identifier as it was. *)
Lemma exec_other (o : op) (other : string)
    (s : gmap string RegistryRecord) :
  op_target o <> other ->
  exec o s !! other = s !! other.
Proof.
  intros Hne.
  destruct o as [payload issuer l now | l | l | l updates u now
                 | l data u now | l]; simpl in *.
  - destruct (create_store payload issuer l now s) as [-> | [r0 ->]];
      [reflexivity | apply lookup_insert_ne, Hne].
  - rewrite get_store. reflexivity.
  - rewrite get_any_store. reflexivity.
  - destruct (s !! l) as [r0 |] eqn:Hl.
    + destruct (not_owner r0 u) eqn:Hown.
      * rewrite (update_refused _ _ _ _ _ _ Hl Hown). reflexivity.
      * rewrite (update_run _ _ _ _ _ _ Hl Hown). simpl.
        destruct (supplies_field updates);
          [apply lookup_insert_ne, Hne | reflexivity].
    + rewrite (update_missing _ _ _ _ _ Hl). reflexivity.
  - destruct (s !! l) as [r0 |] eqn:Hl.
    + destruct (not_owner r0 u) eqn:Hown.
      * rewrite (withdraw_refused _ _ _ _ _ _ Hl Hown). reflexivity.
      * rewrite (withdraw_run _ _ _ _ _ _ Hl Hown). simpl.
        apply lookup_insert_ne, Hne.
    + rewrite (withdraw_missing _ _ _ _ _ Hl). reflexivity.
  - rewrite resolve_store. reflexivity.
Qed.

(** A call addressed to one identifier neither stores nor removes any other
    identifier, and a record stored under another identifier keeps its
    [id], [target_uri], [media_type], [language], [created], [updated],
    [version] and tombstone.  (Nothing is said of its [metadata]: records
    created from one payload dictionary share it, and an update of one
    rewrites it for all.) *)
Theorem exec_frame (o : op) (other : string)
    (s : gmap string RegistryRecord) :
  op_target o <> other ->
  (s !! other = None -> exec o s !! other = None)
  /\ (forall r,
        s !! other = Some r ->
        exists r',
          exec o s !! other = Some r'
          /\ id r' = id r
          /\ target_uri r' = target_uri r
          /\ media_type r' = media_type r
          /\ language r' = language r
          /\ created r' = created r
          /\ updated r' = updated r
          /\ version r' = version r
          /\ withdrawn r' = withdrawn r).
Proof.
  intros Hne. rewrite (exec_other o other s Hne).
  split; [auto |].
  intros r Hr. exists r. split; [exact Hr |]. repeat split.
Qed.

Lemma exec_frame_witness :
  exists r',
    exec (OpWithdraw "another-identifier" None "alice" 4) Sample.store0
      !! Sample.X = Some r'
    /\ target_uri r' = target_uri Sample.rec0
    /\ version r' = 1
    /\ withdrawn r' = None.
Proof.
  destruct (proj2 (exec_frame
                     (OpWithdraw "another-identifier" None "alice" 4)
                     Sample.X Sample.store0
                     ltac:(vm_compute; discriminate))
              Sample.rec0 ltac:(vm_compute; reflexivity))
    as (r' & Hr' & _ & Ht & _ & _ & _ & _ & Hv & Hw).
  exists r'. split; [exact Hr' |]. split; [exact Ht |].
  split; [exact Hv | exact Hw].
Defined.

(** *** Shape of the stored records *)

Lemma wf_store_exec (o : op) (s : gmap string RegistryRecord) :
  wf_store s -> wf_store (exec o s).
Proof.
  intros Hwf key r'.
  assert (Hins : forall l r0, wf_record l r0 ->
            <[l := r0]> s !! key = Some r' -> wf_record key r').
  { intros l r0 Hr0 H. destruct (decide (l = key)) as [-> | Hne].
    - rewrite lookup_insert_eq in H. congruence.
    - rewrite lookup_insert_ne in H by exact Hne. apply (Hwf _ _ H). }
  destruct o as [payload issuer l now | l | l | l updates u now
                 | l data u now | l]; simpl.
  - unfold create.
    destruct (py_or (dict_get payload "metadata") (PDict ∅))
      as [| | | | | md]; try apply Hwf.
    apply Hins. split; [reflexivity |]. split; [simpl; lia |]. simpl.
    destruct (md !! "issuer") as [v |] eqn:Hv.
    + rewrite Hv. eauto.
    + rewrite lookup_insert_eq. eauto.
  - rewrite get_store. apply Hwf.
  - rewrite get_any_store. apply Hwf.
  - destruct (s !! l) as [r0 |] eqn:Hl.
    + destruct (not_owner r0 u) eqn:Hown.
      * rewrite (update_refused _ _ _ _ _ _ Hl Hown). apply Hwf.
      * rewrite (update_run _ _ _ _ _ _ Hl Hown). simpl.
        destruct (supplies_field updates); [| apply Hwf].
        apply Hins. destruct (Hwf _ _ Hl) as (Hid & Hv & Hiss).
        destruct (apply_fields_keeps updates r0 now) as [Hid' _].
        destruct (update_bumps_version_of_fields updates r0 now) as [Hv' _].
        split; [congruence |]. split; [lia |].
        unfold bump, apply_fields. simpl.
        destruct (metadata_update updates) as [d |]; simpl.
        -- destruct (dict_has updates "target_uri"
                     || dict_has updates "targetUri");
             destruct (dict_has updates "media_type"
                       || dict_has updates "mediaType");
             destruct (dict_has updates "language"); simpl;
             apply lookup_union_is_Some; right; exact Hiss.
        -- destruct (dict_has updates "target_uri"
                     || dict_has updates "targetUri");
             destruct (dict_has updates "media_type"
                       || dict_has updates "mediaType");
             destruct (dict_has updates "language"); simpl; exact Hiss.
    + rewrite (update_missing _ _ _ _ _ Hl). apply Hwf.
  - destruct (s !! l) as [r0 |] eqn:Hl.
    + destruct (not_owner r0 u) eqn:Hown.
      * rewrite (withdraw_refused _ _ _ _ _ _ Hl Hown). apply Hwf.
      * rewrite (withdraw_run _ _ _ _ _ _ Hl Hown). simpl.
        apply Hins. exact (Hwf _ _ Hl).
    + rewrite (withdraw_missing _ _ _ _ _ Hl). apply Hwf.
  - rewrite resolve_store. apply Hwf.
Qed.

(** Whatever sequence of calls a fresh service receives, every record it
    stores sits under its own [id], has a [version] of at least 1, and has
    an [issuer] entry in its metadata. *)
Theorem stored_records_are_well_formed (ops : list op) :
  forall key r,
    exec_all ops ∅ !! key = Some r ->
    id r = key /\ 1 <= version r /\ is_Some (metadata r !! "issuer").
Proof.
  assert (H : forall s, wf_store s -> wf_store (exec_all ops s)).
  { induction ops as [| o ops IH]; intros s Hs; [exact Hs |].
    simpl. apply IH, wf_store_exec, Hs. }
  apply H. intros key r Hr. rewrite lookup_empty in Hr. discriminate.
Qed.

Lemma stored_records_are_well_formed_witness :
  id Sample.rec0 = Sample.X /\ 1 <= version Sample.rec0
  /\ is_Some (metadata Sample.rec0 !! "issuer").
Proof.
  apply (stored_records_are_well_formed
           [OpCreate (<["targetUri" := PStr "https://example.org/resource"]>
                      (<["language" := PStr "en"]> ∅))
                     (PStr "alice") Sample.X 1]
           Sample.X Sample.rec0).
  vm_compute; reflexivity.
Defined.

(** *** Metadata *)

Lemma update_with_metadata (link_id : string)
    (updates d : gmap string pyval) (user_sub : string) (now : Q)
    (s : gmap string RegistryRecord) (r : RegistryRecord) :
  s !! link_id = Some r ->
  not_owner r user_sub = false ->
  updates !! "metadata" = Some (PDict d) ->
  exists r',
    update link_id updates user_sub now s = (Ok tt, <[link_id := r']> s)
    /\ (forall k v, d !! k = Some v -> metadata r' !! k = Some v)
    /\ (forall k, d !! k = None -> metadata r' !! k = metadata r !! k)
    /\ (forall k, is_Some (metadata r !! k) -> is_Some (metadata r' !! k)).
Proof.
  intros Hr Hown Hmd.
  assert (Hmu : metadata_update updates = Some d)
    by (unfold metadata_update; rewrite Hmd; reflexivity).
  assert (Hsup : supplies_field updates = true).
  { unfold supplies_field. rewrite Hmu.
    rewrite bool_decide_eq_true_2 by eauto. apply orb_true_r. }
  exists (bump now (apply_fields updates r)).
  rewrite (update_run _ _ _ _ _ _ Hr Hown), Hsup.
  split; [reflexivity |].
  assert (Hmeta : metadata (bump now (apply_fields updates r))
                  = d ∪ metadata r).
  { unfold bump, apply_fields. rewrite Hmu.
    destruct (dict_has updates "target_uri" || dict_has updates "targetUri");
      destruct (dict_has updates "media_type"
                || dict_has updates "mediaType");
      destruct (dict_has updates "language"); reflexivity. }
  rewrite Hmeta. split; [| split].
  - intros k v Hk. apply lookup_union_Some_l, Hk.
  - intros k Hk. apply lookup_union_r, Hk.
  - intros k Hk. apply lookup_union_is_Some. right. exact Hk.
Qed.

(** An [update] whose [metadata] is a dictionary merges it into the
    metadata of the record it is called on: in the record stored under the
    identifier afterwards the keys the dictionary names have its values,
    every other key keeps the value it had, and none is removed. *)
Theorem update_merges_metadata (link_id : string)
    (updates d : gmap string pyval) (user_sub : string) (now : Q)
    (s : gmap string RegistryRecord) (r : RegistryRecord) :
  s !! link_id = Some r ->
  not_owner r user_sub = false ->
  updates !! "metadata" = Some (PDict d) ->
  exists s' r',
    update link_id updates user_sub now s = (Ok tt, s')
    /\ s' !! link_id = Some r'
    /\ (forall k v, d !! k = Some v -> metadata r' !! k = Some v)
    /\ (forall k, d !! k = None -> metadata r' !! k = metadata r !! k)
    /\ (forall k, is_Some (metadata r !! k) -> is_Some (metadata r' !! k)).
Proof.
  intros Hr Hown Hmd.
  destruct (update_with_metadata link_id updates d user_sub now s r
              Hr Hown Hmd) as (r' & Hrun & Hmerge).
  exists (<[link_id := r']> s), r'.
  split; [exact Hrun |]. split; [apply lookup_insert_eq | exact Hmerge].
Qed.

Lemma update_merges_metadata_witness :
  exists s' r',
    update Sample.X
      (<["metadata" := PDict (<["license" := PStr "CC0"]> ∅)]> ∅)
      "alice" 2 Sample.store0 = (Ok tt, s')
    /\ s' !! Sample.X = Some r'
    /\ metadata r' !! "license" = Some (PStr "CC0")
    /\ metadata r' !! "issuer" = Some (PStr "alice").
Proof.
  destruct (update_merges_metadata Sample.X
              (<["metadata" := PDict (<["license" := PStr "CC0"]> ∅)]> ∅)
              (<["license" := PStr "CC0"]> ∅) "alice" 2
              Sample.store0 Sample.rec0)
    as (s' & r' & Hrun & Hs' & Hnew & Hold & _);
    [vm_compute; reflexivity | vm_compute; reflexivity
    | vm_compute; reflexivity |].
  exists s', r'. split; [exact Hrun |]. split; [exact Hs' |]. split.
  - apply Hnew. vm_compute; reflexivity.
  - rewrite (Hold "issuer") by (vm_compute; reflexivity).
    vm_compute; reflexivity.
Defined.

(** The owner can hand a record over: once an [update] by the owner has
    written another non-empty name into [metadata.issuer], the former owner
    is refused by [update] and [withdraw], and the new one passes. *)
Theorem issuer_can_be_reassigned (link_id : string)
    (updates d : gmap string pyval) (old_owner new_owner : string) (now : Q)
    (s : gmap string RegistryRecord) (r : RegistryRecord) :
  s !! link_id = Some r ->
  dict_get (metadata r) "issuer" = PStr old_owner ->
  updates !! "metadata" = Some (PDict d) ->
  d !! "issuer" = Some (PStr new_owner) ->
  new_owner <> "" ->
  new_owner <> old_owner ->
  exists s',
    update link_id updates old_owner now s = (Ok tt, s')
    /\ (forall updates' data now',
          update link_id updates' old_owner now' s'
            = (Err UnauthorizedError, s')
          /\ withdraw link_id data old_owner now' s'
             = (Err UnauthorizedError, s')
          /\ fst (update link_id updates' new_owner now' s') = Ok tt
          /\ fst (withdraw link_id data new_owner now' s') = Ok tt).
Proof.
  intros Hr Hold Hmd Hd Hne Hdiff.
  pose proof (owner_passes _ _ Hold) as Hown.
  destruct (update_with_metadata link_id updates d old_owner now s r
              Hr Hown Hmd) as (r' & Hrun & Hnew & _).
  exists (<[link_id := r']> s). split; [exact Hrun |].
  intros updates' data now'.
  assert (Hr' : <[link_id := r']> s !! link_id = Some r')
    by apply lookup_insert_eq.
  assert (Hiss : dict_get (metadata r') "issuer" = PStr new_owner).
  { unfold dict_get. rewrite (Hnew _ _ Hd). reflexivity. }
  assert (Hrefused : not_owner r' old_owner = true).
  { apply not_owner_true. rewrite Hiss. split.
    - simpl. destruct (String.eqb_spec new_owner ""); [contradiction |].
      reflexivity.
    - intros H. injection H. exact Hdiff. }
  pose proof (owner_passes _ _ Hiss) as Hpass.
  split; [apply (update_refused _ _ _ _ _ _ Hr' Hrefused) |].
  split; [apply (withdraw_refused _ _ _ _ _ _ Hr' Hrefused) |].
  split.
  - rewrite (update_run _ _ _ _ _ _ Hr' Hpass). reflexivity.
  - rewrite (withdraw_run _ _ _ _ _ _ Hr' Hpass). reflexivity.
Qed.

Lemma issuer_can_be_reassigned_witness :
  exists s',
    update Sample.X
      (<["metadata" := PDict (<["issuer" := PStr "bob"]> ∅)]> ∅)
      "alice" 2 Sample.store0 = (Ok tt, s')
    /\ withdraw Sample.X None "alice" 3 s' = (Err UnauthorizedError, s')
    /\ fst (withdraw Sample.X None "bob" 3 s') = Ok tt.
Proof.
  destruct (issuer_can_be_reassigned Sample.X
              (<["metadata" := PDict (<["issuer" := PStr "bob"]> ∅)]> ∅)
              (<["issuer" := PStr "bob"]> ∅) "alice" "bob" 2
              Sample.store0 Sample.rec0)
    as (s' & Hrun & Hafter);
    [vm_compute; reflexivity | vm_compute; reflexivity
    | vm_compute; reflexivity | vm_compute; reflexivity
    | discriminate | discriminate |].
  exists s'. split; [exact Hrun |].
  destruct (Hafter ∅ None 3%Q) as (_ & Hw & _ & Hw').
  split; [exact Hw | exact Hw'].
Defined.

End RegistryMore.

(** ** Text *)

Module TextFacts.
Import Text.

Lemma append_cons (c : ascii) (a b : string) :
  String c a ++ b = String c (a ++ b).
Proof. reflexivity. Qed.

Lemma append_nil_l (a : string) : "" ++ a = a.
Proof. reflexivity. Qed.

Lemma append_nil_r (s : string) : s ++ "" = s.
Proof.
  induction s as [| c s IH]; [reflexivity |].
  rewrite append_cons, IH. reflexivity.
Qed.

Lemma append_assoc (a b c : string) : (a ++ b) ++ c = a ++ (b ++ c).
Proof.
  induction a as [| x a IH]; [reflexivity |].
  rewrite !append_cons, IH. reflexivity.
Qed.

Lemma append_cancel_l (a b c : string) : a ++ b = a ++ c -> b = c.
Proof.
  induction a as [| x a IH]; intros H; [exact H |].
  rewrite !append_cons in H. injection H as H. apply IH, H.
Qed.

(** A text is cut in only one way at the first occurrence of a
    character. *)
Lemma split_first_unique (c : ascii) (a1 a2 b1 b2 : string) :
  has_char c a1 = false -> has_char c a2 = false ->
  a1 ++ String c b1 = a2 ++ String c b2 ->
  a1 = a2 /\ b1 = b2.
Proof.
  revert a2. induction a1 as [| x a1 IH]; intros [| y a2]; simpl;
    intros H1 H2 H; rewrite ?append_cons, ?append_nil_l in H.
  - injection H as H. auto.
  - injection H as Hc H. subst y. rewrite Ascii.eqb_refl in H2. discriminate.
  - injection H as Hc H. subst x. rewrite Ascii.eqb_refl in H1. discriminate.
  - injection H as Hc H. subst y.
    apply orb_false_iff in H1 as [_ H1]. apply orb_false_iff in H2 as [_ H2].
    destruct (IH a2 H1 H2 H) as [-> ->]. auto.
Qed.

Lemma all_digits_no_char (c : ascii) (s : string) :
  is_digit c = false -> all_chars is_digit s = true -> has_char c s = false.
Proof.
  intros Hc. induction s as [| x s IH]; simpl; [reflexivity |].
  intros H. apply andb_true_iff in H as [Hx Hs].
  rewrite (IH Hs), orb_false_r.
  destruct (Ascii.eqb_spec x c) as [-> |]; [congruence | reflexivity].
Qed.

Lemma uint_all_digits (d : Decimal.uint) :
  all_chars is_digit (NilEmpty.string_of_uint d) = true.
Proof. induction d; simpl; try rewrite IHd; reflexivity. Qed.

Lemma to_uint_string (p : positive) :
  NilZero.string_of_uint (Pos.to_uint p)
  = NilEmpty.string_of_uint (Pos.to_uint p).
Proof.
  pose proof (DecimalPos.Unsigned.to_uint_nonnil p) as H.
  destruct (Pos.to_uint p); [contradiction | reflexivity ..].
Qed.

(** The decimal text of a non-negative integer holds digits only, and at
    least one. *)
Lemma str_of_Z_digits (z : Z) :
  0 <= z ->
  all_chars is_digit (Resolver.str_of_Z z) = true
  /\ Resolver.str_of_Z z <> "".
Proof.
  intros Hz. unfold Resolver.str_of_Z.
  destruct z as [| p | p]; [split; [reflexivity | discriminate] | | lia].
  simpl. rewrite to_uint_string. split; [apply uint_all_digits |].
  pose proof (DecimalPos.Unsigned.to_uint_nonnil p) as H.
  destruct (Pos.to_uint p); [contradiction | discriminate ..].
Qed.

(** The decimal text of any integer holds no double quote. *)
Lemma str_of_Z_no_quote (z : Z) :
  has_char "034"%char (Resolver.str_of_Z z) = false.
Proof.
  unfold Resolver.str_of_Z.
  destruct z as [| p | p]; [reflexivity | |]; simpl;
    rewrite to_uint_string;
    (apply all_digits_no_char; [reflexivity | apply uint_all_digits]).
Qed.

(** Different integers have different decimal texts. *)
Lemma str_of_Z_inj (a b : Z) :
  Resolver.str_of_Z a = Resolver.str_of_Z b -> a = b.
Proof.
  unfold Resolver.str_of_Z. intros H. apply DecimalZ.to_int_inj.
  assert (Hnn : forall z, Z.to_int z <> Decimal.Pos Decimal.Nil
                          /\ Z.to_int z <> Decimal.Neg Decimal.Nil).
  { intros [| p | p]; simpl; split; try discriminate;
      intros E; injection E as E;
      exact (DecimalPos.Unsigned.to_uint_nonnil p E). }
  destruct (Hnn a) as [Ha1 Ha2]. destruct (Hnn b) as [Hb1 Hb2].
  pose proof (NilZero.isi _ Ha1 Ha2) as Ea.
  pose proof (NilZero.isi _ Hb1 Hb2) as Eb.
  rewrite H in Ea. congruence.
Qed.

End TextFacts.

(** ** More on the resolver *)

Module ResolverMore.
Import Registry Resolver RegistryFacts TextFacts.
Local Open Scope reg_scope.

Lemma registry_resolve_missing (linkid : string)
    (s : gmap string RegistryRecord) :
  s !! linkid = None ->
  Registry.resolve linkid s = (Err (LinkIdNotFoundError linkid), s).
Proof.
  intros H. unfold Registry.resolve, get, bind, store_get. rewrite H.
  reflexivity.
Qed.

Lemma resolver_resolve_store (linkid : string) (params : ResolutionRequest)
    (s : gmap string RegistryRecord) :
  snd (Resolver.resolve linkid params s) = s.
Proof.
  unfold Resolver.resolve, Registry.resolve, get, bind, store_get, ret, raise.
  destruct (s !! linkid) as [r |]; [| reflexivity].
  destruct (withdrawn r); [reflexivity |].
  destruct (prefer_redirect params); reflexivity.
Qed.

(** [resolve] never changes the store and never answers a permanent
    redirect.  It returns exactly for the stored records without tombstone,
    it raises [LinkIdNotFoundError] exactly for the identifiers the store
    does not hold and [LinkIdWithdrawnError] with the stored tombstone
    exactly for the withdrawn ones, and it raises nothing else. *)
Theorem resolve_outcomes (linkid : string) (params : ResolutionRequest)
    (s : gmap string RegistryRecord) :
  snd (Resolver.resolve linkid params s) = s
  /\ match fst (Resolver.resolve linkid params s) with
     | Ok res =>
         permanent res = false
         /\ exists r, s !! linkid = Some r /\ withdrawn r = None
     | Err e =>
         (s !! linkid = None /\ e = LinkIdNotFoundError linkid)
         \/ exists r t,
              s !! linkid = Some r /\ withdrawn r = Some t
              /\ e = LinkIdWithdrawnError linkid (tombstone_dict t)
     end.
Proof.
  unfold Resolver.resolve, Registry.resolve, get, bind, store_get, ret, raise.
  destruct (s !! linkid) as [r |] eqn:Hr; simpl; [| auto].
  destruct (withdrawn r) as [t |] eqn:Ht; simpl.
  - split; [reflexivity |]. right. exists r, t. auto.
  - destruct (prefer_redirect params); simpl; split; eauto.
Qed.

(** The validator tells versions apart: two records whose versions are not
    negative and whose [etag]s coincide have the same [version] and the same
    whole second of [updated]. *)
Theorem etag_determines_version (r1 r2 : RegistryRecord) :
  0 <= version r1 -> 0 <= version r2 ->
  make_etag r1 = make_etag r2 ->
  version r1 = version r2
  /\ py_int (updated r1) = py_int (updated r2).
Proof.
  intros H1 H2 H. unfold make_etag, dquote in H.
  rewrite !append_cons, !append_nil_l in H. injection H as H.
  destruct (str_of_Z_digits _ H1) as [D1 _].
  destruct (str_of_Z_digits _ H2) as [D2 _].
  apply (split_first_unique "-"%char) in H;
    try (apply all_digits_no_char; [reflexivity | assumption]).
  destruct H as [Hv Hu]. split; [apply str_of_Z_inj, Hv |].
  apply (split_first_unique "034"%char) in Hu;
    try apply str_of_Z_no_quote.
  apply str_of_Z_inj, Hu.
Qed.

Lemma etag_determines_version_witness :
  version Sample.rec0 = version (set_language (PStr "fr") Sample.rec0)
  /\ py_int (updated Sample.rec0)
     = py_int (updated (set_language (PStr "fr") Sample.rec0)).
Proof.
  apply (etag_determines_version Sample.rec0
           (set_language (PStr "fr") Sample.rec0));
    [vm_compute; discriminate | vm_compute; discriminate | reflexivity].
Defined.

(** [ResolverService.register] hands the record to the issuer named in the
    payload, or to [unknown] when the payload names none (or an empty
    one), unless the payload's metadata already carries an issuer; it
    returns the drawn identifier and the creation time.  [update] with no
    body at all is an update with an empty one: for the owner it returns
    and changes nothing. *)
Theorem register_defaults_to_unknown (payload : gmap string pyval)
    (link_id : string) (now : Q) (s : gmap string RegistryRecord)
    (md : gmap string pyval) :
  py_or (dict_get payload "metadata") (PDict ∅) = PDict md ->
  md !! "issuer" = None ->
  exists r,
    register payload link_id now s = (Ok (link_id, now), <[link_id := r]> s)
    /\ dict_get (metadata r) "issuer"
       = py_or (dict_get payload "issuer") (PStr "unknown")
    /\ (truthy (dict_get payload "issuer") = false ->
        forall now',
          Resolver.update link_id None "unknown" now' (<[link_id := r]> s)
          = (Ok tt, <[link_id := r]> s)).
Proof.
  intros Hmd Hnone. unfold register, bind.
  destruct (create_run payload
              (py_or (dict_get payload "issuer") (PStr "unknown"))
              link_id now s md Hmd)
    as (r & Hrun & Hid & _ & Hm & Hc & _).
  rewrite Hrun. exists r. unfold ret. rewrite Hid, Hc.
  split; [reflexivity |].
  assert (Hiss : dict_get (metadata r) "issuer"
                 = py_or (dict_get payload "issuer") (PStr "unknown")).
  { rewrite Hm, Hnone. unfold dict_get at 1. rewrite lookup_insert_eq.
    reflexivity. }
  split; [exact Hiss |].
  intros Hfalsy now'. unfold Resolver.update.
  assert (Hown : not_owner r "unknown" = false).
  { apply owner_passes. rewrite Hiss. unfold py_or. rewrite Hfalsy.
    reflexivity. }
  rewrite (update_run _ _ _ _ _ _ (lookup_insert_eq _ _ _) Hown).
  reflexivity.
Qed.

Lemma register_defaults_to_unknown_witness :
  exists r,
    register (<["target_uri" := PStr "https://example.org/resource"]> ∅)
      Sample.X 1 ∅ = (Ok (Sample.X, 1%Q), <[Sample.X := r]> ∅)
    /\ dict_get (metadata r) "issuer" = PStr "unknown".
Proof.
  destruct (register_defaults_to_unknown
              (<["target_uri" := PStr "https://example.org/resource"]> ∅)
              Sample.X 1 ∅ ∅)
    as (r & Hrun & Hiss & _);
    [vm_compute; reflexivity | vm_compute; reflexivity |].
  exists r. split; [exact Hrun | exact Hiss].
Defined.

End ResolverMore.

(** ** The HTTP handlers *)

Module EndpointFacts.
Import Registry Resolver Endpoints RegistryFacts ResolverFacts.
Local Open Scope reg_scope.

Lemma authenticate_rejects (t : string) :
  authenticate (Some t) = None <-> t = "" \/ t = "unauthorized".
Proof.
  unfold authenticate.
  destruct (String.eqb_spec t "") as [-> | H1]; simpl; [tauto |].
  destruct (String.eqb_spec t "unauthorized") as [-> | H2]; simpl; [tauto |].
  destruct (String.eqb t "readonly"); split; try discriminate;
    intros [? | ?]; contradiction.
Qed.

Lemma accepted_token_user (t : string) :
  t <> "" -> t <> "unauthorized" ->
  exists user,
    get_current_user (Some t) = Some user
    /\ sub user = "demo-user"
    /\ has_scope user "read" = true
    /\ (has_scope user "write" = true <-> t <> "readonly").
Proof.
  intros H1 H2. unfold get_current_user, authenticate.
  destruct (String.eqb_spec t "") as [-> | _]; [contradiction |].
  destruct (String.eqb_spec t "unauthorized") as [-> | _]; [contradiction |].
  simpl. destruct (String.eqb_spec t "readonly") as [-> | H3].
  - eexists. split; [reflexivity |]. split; [reflexivity |].
    split; [reflexivity |]. split; [discriminate | intros H; contradiction].
  - eexists. split; [reflexivity |]. split; [reflexivity |].
    split; [reflexivity |]. split; [intros _; exact H3 | reflexivity].
Qed.

(** A request without bearer token, with an empty one or with the token
    [unauthorized] is answered 401 by the register handler and, when the
    identifier in its path has the shape the route demands (a malformed one
    is answered 422 before the handler runs), by the update and withdraw
    handlers; the store is left as it was. *)
Theorem rejected_credentials_change_nothing
    (credentials : option string) (registration : RegistrationRequest)
    (new_id linkid : string) (body : option (gmap string pyval))
    (now now_reply : Q) (s : gmap string RegistryRecord) :
  credentials = None \/ credentials = Some ""
  \/ credentials = Some "unauthorized" ->
  linkid_ok linkid = true ->
  register_linkid registration (get_current_user credentials) new_id now s
    = (Resolver.HTTPException 401 "Authentication required", s)
  /\ update_linkid linkid body (get_current_user credentials) now now_reply s
     = (HTTPException 401 (PStr "Authentication required"), s)
  /\ withdraw_linkid linkid body (get_current_user credentials)
       now now_reply s
     = (HTTPException 401 (PStr "Authentication required"), s).
Proof.
  intros [-> | [-> | ->]] _; split; try split; reflexivity.
Qed.

Lemma rejected_credentials_change_nothing_witness :
  withdraw_linkid Sample.X None (get_current_user (Some "unauthorized"))
    4 5 Sample.store0
  = (HTTPException 401 (PStr "Authentication required"), Sample.store0).
Proof.
  exact (proj2 (proj2 (rejected_credentials_change_nothing
                         (Some "unauthorized")
                         (mkRegistrationRequest "https://x" None None None)
                         Sample.X Sample.X None 4 5 Sample.store0
                         (or_intror (or_intror eq_refl)) eq_refl))).
Defined.

(** Ownership does not separate API callers.  A record registered through
    [POST /register] by a token with the write scope, with no issuer named
    in its metadata, is owned by [demo-user]; the update and withdraw
    handlers do not look at scopes, so any accepted token, the read-only
    one included, then updates and withdraws it with a 200 answer. *)
Theorem any_accepted_token_may_mutate (t1 t2 : string)
    (registration : RegistrationRequest) (linkid : string) (now : Q)
    (s : gmap string RegistryRecord) :
  t1 <> "" -> t1 <> "unauthorized" -> t1 <> "readonly" ->
  t2 <> "" -> t2 <> "unauthorized" ->
  (forall d, reg_metadata registration = Some d -> d !! "issuer" = None) ->
  exists r,
    register_linkid registration (get_current_user (Some t1)) linkid now s
      = (Created linkid ("https://w3id.org/linkid/" ++ linkid) now,
         <[linkid := r]> s)
    /\ dict_get (metadata r) "issuer" = PStr "demo-user"
    /\ (forall updates now1 now2,
          fst (update_linkid linkid updates (get_current_user (Some t2))
                 now1 now2 (<[linkid := r]> s))
          = Returned (PDict (<["id" := PStr linkid]>
                             (<["updated" := PFloat now2]> ∅))))
    /\ (forall data now1 now2,
          fst (withdraw_linkid linkid data (get_current_user (Some t2))
                 now1 now2 (<[linkid := r]> s))
          = Returned (PDict (<["id" := PStr linkid]>
                             (<["withdrawn" := PFloat now2]>
                             (<["reason" := dict_get (or_empty data) "reason"]>
                              ∅))))).
Proof.
  intros Ha Hb Hc Hd He Hmeta.
  destruct (accepted_token_user t1 Ha Hb) as (u1 & Hu1 & Hsub1 & _ & Hw1).
  destruct (accepted_token_user t2 Hd He) as (u2 & Hu2 & Hsub2 & _ & _).
  rewrite Hu1, Hu2.
  assert (Hscope : has_scope u1 "write" = true) by (apply Hw1, Hc).
  unfold register_linkid. rewrite Hscope. simpl negb. cbv iota.
  unfold register. unfold bind at 1.
  match goal with
  | |- context [create ?p ?i linkid now s] =>
      destruct (create_run p i linkid now s _
                  (has_scope_write_payload registration u1))
        as (r & Hrun & Hid & _ & Hm & Hcr & _);
      rewrite Hrun
  end.
  exists r. unfold ret. rewrite Hid, Hcr. split; [reflexivity |].
  assert (Hiss : dict_get (metadata r) "issuer" = PStr "demo-user").
  { rewrite Hm. unfold dict_get at 1.
    assert (Hnone : match reg_metadata registration with
                    | Some d => if bool_decide (size d = 0%nat) then ∅ else d
                    | None => ∅
                    end !! "issuer" = (None : option pyval)).
    { destruct (reg_metadata registration) as [d |] eqn:Hd0;
        [| apply lookup_empty].
      destruct (bool_decide (size d = 0%nat));
        [apply lookup_empty | apply (Hmeta d eq_refl)]. }
    rewrite Hnone, lookup_insert_eq. simpl.
    unfold dict_get. rewrite lookup_insert_ne by discriminate.
    rewrite lookup_insert_ne by discriminate.
    rewrite lookup_insert_ne by discriminate.
    rewrite lookup_insert_ne by discriminate.
    rewrite lookup_insert_eq. simpl. unfold py_or. rewrite Hsub1.
    reflexivity. }
  split; [exact Hiss |].
  assert (Hr : <[linkid := r]> s !! linkid = Some r)
    by apply lookup_insert_eq.
  assert (Hown : not_owner r (sub u2) = false)
    by (apply owner_passes; rewrite Hsub2; exact Hiss).
  split.
  - intros updates now1 now2. unfold update_linkid, Resolver.update.
    rewrite (update_run _ _ _ _ _ _ Hr Hown). reflexivity.
  - intros data now1 now2. unfold withdraw_linkid, Resolver.withdraw.
    rewrite (withdraw_run _ _ _ _ _ _ Hr Hown). reflexivity.
Qed.

Lemma any_accepted_token_may_mutate_witness :
  exists r,
    register_linkid
      (mkRegistrationRequest "https://example.org/resource" None None None)
      (get_current_user (Some "demo")) Sample.X 1 ∅
    = (Created Sample.X ("https://w3id.org/linkid/" ++ Sample.X) 1,
       <[Sample.X := r]> ∅)
    /\ fst (withdraw_linkid Sample.X None (get_current_user (Some "readonly"))
              2 3 (<[Sample.X := r]> ∅))
       = Returned (PDict (<["id" := PStr Sample.X]>
                          (<["withdrawn" := PFloat 3]>
                          (<["reason" := PNone]> ∅)))).
Proof.
  destruct (any_accepted_token_may_mutate "demo" "readonly"
              (mkRegistrationRequest "https://example.org/resource"
                 None None None) Sample.X 1 ∅)
    as (r & Hreg & _ & _ & Hw); try discriminate.
  exists r. split; [exact Hreg | exact (Hw None 2%Q 3%Q)].
Defined.

(** What [GET /resolve/{linkid}] answers to a request whose identifier and
    negotiation parameters have the shape the route demands (any other is
    answered 422 before the handler runs), whatever these parameters are:
    404 with the identifier for an unknown one; 410 with the
    stored tombstone for a withdrawn one; for an active record a 302 (never
    a 301) built on the record's target with [Cache-Control: max-age=300],
    unless the [metadata] flag is set, and then a JSON answer holding the
    record's public fields with [Cache-Control: max-age=120] and the
    validator as [ETag].  The store is never changed. *)
Theorem resolve_linkid_answers (str_of_float : Q -> string)
    (linkid : string) (format lang : option string) (version : option Z)
    (ts : option string) (metadata : option bool)
    (accept accept_language host : option string)
    (s : gmap string RegistryRecord) :
  linkid_ok linkid = true ->
  format_ok format = true ->
  lang_ok lang = true ->
  version_ok version = true ->
  let answer :=
    resolve_linkid str_of_float linkid format lang version ts metadata
      accept accept_language host s in
  snd answer = s
  /\ (s !! linkid = None ->
      fst answer =
        HTTPException 404
          (PDict (<["error" := PStr "LinkID not found"]>
                  (<["linkId" := PStr linkid]> ∅))))
  /\ (forall r t,
        s !! linkid = Some r -> withdrawn r = Some t ->
        fst answer =
          HTTPException 410
            (PDict (<["error" := PStr "LinkID withdrawn"]>
                    (<["linkId" := PStr linkid]>
                    (<["tombstone" :=
                         PDict (<["reason" := reason t]>
                                (<["at" := PFloat (at_ t)]> ∅))]> ∅)))))
  /\ (forall r,
        s !! linkid = Some r -> withdrawn r = None ->
        metadata <> Some true ->
        fst answer =
          RedirectResponse (target_uri r) 302
            (<["Cache-Control" := "max-age=300"]>
             (<["Link" := "<https://w3id.org/linkid/" ++ linkid ++ ">; rel="
                            ++ dquote ++ "canonical" ++ dquote]>
             (<["X-LinkID-Resolver" := default "resolver.linkid.org" host]>
             (<["X-LinkID-Quality" := str_of_float 1%Q]> ∅)))))
  /\ (forall r,
        s !! linkid = Some r -> withdrawn r = None ->
        metadata = Some true ->
        fst answer =
          JSONResponse (Some (metadata_data r))
            (<["Content-Type" := "application/linkid+json"]>
             (<["Cache-Control" := "max-age=120"]>
             (<["ETag" := make_etag r]>
             (<["Vary" := "Accept, Accept-Language"]> ∅))))).
Proof.
  intros _ _ _ _ answer. subst answer. unfold resolve_linkid.
  split; [| split; [| split; [| split]]].
  - match goal with
    | |- context [Resolver.resolve linkid ?p s] =>
        pose proof (ResolverMore.resolver_resolve_store linkid p s) as H;
        destruct (Resolver.resolve linkid p s) as [[res | e] s']
    end; simpl in H; subst s'.
    + destruct (String.eqb (type res) "redirect"); [reflexivity |].
      destruct (String.eqb (type res) "metadata"); [| reflexivity].
      destruct (etag res); reflexivity.
    + reflexivity.
  - intros Hnone. unfold Resolver.resolve. unfold bind at 1.
    rewrite (ResolverMore.registry_resolve_missing _ _ Hnone).
    reflexivity.
  - intros r t Hr Ht. unfold Resolver.resolve. unfold bind at 1.
    rewrite (resolve_withdrawn _ _ _ _ Hr Ht). reflexivity.
  - intros r Hr Hw Hmeta. unfold Resolver.resolve. unfold bind at 1.
    rewrite (registry_resolve_active _ _ _ Hr Hw). simpl.
    destruct metadata as [[|] |]; [contradiction Hmeta; reflexivity | |];
      reflexivity.
  - intros r Hr Hw ->. unfold Resolver.resolve. unfold bind at 1.
    rewrite (registry_resolve_active _ _ _ Hr Hw). reflexivity.
Qed.

Lemma resolve_linkid_answers_witness :
  fst (resolve_linkid (fun _ => "1.0") Sample.X None None None None None
         None None None Sample.store1)
  = HTTPException 410
      (PDict (<["error" := PStr "LinkID withdrawn"]>
              (<["linkId" := PStr Sample.X]>
              (<["tombstone" :=
                   PDict (<["reason" := PStr "owner request"]>
                          (<["at" := PFloat 3]> ∅))]> ∅)))).
Proof.
  assert (H : Sample.store1 !! Sample.X
              = Some (set_withdrawn (Some (new_tombstone Sample.withdrawal 3))
                                    Sample.rec0))
    by (vm_compute; reflexivity).
  exact (proj1 (proj2 (proj2
           (resolve_linkid_answers (fun _ => "1.0") Sample.X None None None
              None None None None None Sample.store1
              eq_refl eq_refl eq_refl eq_refl))) _ _ H eq_refl).
Defined.

(** What [PUT] and [DELETE /resolve/{linkid}] answer to an authenticated
    caller whose identifier has the shape the route demands (a malformed
    one is answered 422 before the handler runs): 404 for an unknown
    identifier and 403 when the ownership test
    fails, with the store left as it was; otherwise 200, also when the
    record is already withdrawn.  They never answer 410. *)
Theorem mutation_handlers_answers (linkid : string)
    (body : option (gmap string pyval)) (user : User) (now now_reply : Q)
    (s : gmap string RegistryRecord) :
  linkid_ok linkid = true ->
  let upd := update_linkid linkid body (Some user) now now_reply s in
  let wd := withdraw_linkid linkid body (Some user) now now_reply s in
  (s !! linkid = None ->
     upd = (HTTPException 404 (PStr "LinkID not found"), s)
     /\ wd = (HTTPException 404 (PStr "LinkID not found"), s))
  /\ (forall r,
        s !! linkid = Some r -> not_owner r (sub user) = true ->
        upd = (HTTPException 403 (PStr "Not authorized"), s)
        /\ wd = (HTTPException 403 (PStr "Not authorized"), s))
  /\ (forall r,
        s !! linkid = Some r -> not_owner r (sub user) = false ->
        (exists v, fst upd = Returned v) /\ (exists v, fst wd = Returned v)).
Proof.
  intros _ upd wd. subst upd wd.
  unfold update_linkid, withdraw_linkid, Resolver.update, Resolver.withdraw.
  split; [| split].
  - intros Hnone. rewrite (update_missing _ _ _ _ _ Hnone).
    rewrite (withdraw_missing _ _ _ _ _ Hnone). split; reflexivity.
  - intros r Hr Hown. rewrite (update_refused _ _ _ _ _ _ Hr Hown).
    rewrite (withdraw_refused _ _ _ _ _ _ Hr Hown). split; reflexivity.
  - intros r Hr Hown. rewrite (update_run _ _ _ _ _ _ Hr Hown).
    rewrite (withdraw_run _ _ _ _ _ _ Hr Hown). split; eexists; reflexivity.
Qed.

Lemma mutation_handlers_answers_witness :
  update_linkid Sample.X None (Some (mkUser "mallory" ["read"; "write"]))
    4 5 Sample.store0
  = (HTTPException 403 (PStr "Not authorized"), Sample.store0).
Proof.
  assert (H : Sample.store0 !! Sample.X = Some Sample.rec0)
    by (vm_compute; reflexivity).
  exact (proj1 (proj1 (proj2
           (mutation_handlers_answers Sample.X None
              (mkUser "mallory" ["read"; "write"]) 4 5 Sample.store0
              eq_refl))
           _ H eq_refl)).
Defined.

End EndpointFacts.

(** ** The client's local checks, keys and header parsing *)

Module ClientApiFacts.
Import Client ClientApi Text TextFacts.

(** *** Identifier check *)

Lemma line_feed_is_no_id_char : id_char "010"%char = false.
Proof. reflexivity. Qed.

Lemma match_id_body (body : string) :
  body <> "" -> all_chars id_char body = true ->
  match_id body = true /\ match_id (body ++ String "010"%char "") = true.
Proof.
  induction body as [| c body IH]; [intros H; contradiction |].
  intros _ Hall. simpl in Hall. apply andb_true_iff in Hall as [Hc Hall].
  rewrite append_cons. simpl. rewrite Hc. simpl.
  destruct body as [| c' body'].
  - split; reflexivity.
  - destruct (IH ltac:(discriminate) Hall) as [IH1 IH2].
    simpl in Hall. apply andb_true_iff in Hall as [Hc' _].
    split.
    + destruct c' as [[] [] [] [] [] [] [] []]; try exact IH1;
        destruct body'; try exact IH1; discriminate Hc'.
    + rewrite append_cons in *.
      destruct c' as [[] [] [] [] [] [] [] []]; try exact IH2;
        destruct (body' ++ String "010"%char ""); try exact IH2;
        discriminate Hc'.
Qed.

Lemma match_id_inv (s : string) :
  match_id s = true ->
  exists body,
    (s = body \/ s = body ++ String "010"%char "")
    /\ body <> "" /\ all_chars id_char body = true.
Proof.
  induction s as [| c rest IH]; [discriminate |].
  simpl. intros H. apply andb_true_iff in H as [Hc H].
  destruct rest as [| c' rest'].
  - exists (String c ""). split; [left; reflexivity |].
    split; [discriminate |]. simpl. rewrite Hc. reflexivity.
  - assert (Hcase : (c' = "010"%char /\ rest' = "")
                    \/ match_id (String c' rest') = true).
    { destruct c' as [[] [] [] [] [] [] [] []]; auto;
        destruct rest'; auto. }
    destruct Hcase as [[-> ->] | Hm].
    + exists (String c ""). split; [right; reflexivity |].
      split; [discriminate |]. simpl. rewrite Hc. reflexivity.
    + destruct (IH Hm) as (body & Hs & _ & Hall).
      exists (String c body). split.
      * destruct Hs as [-> | ->]; [left | right; rewrite append_cons];
          reflexivity.
      * split; [discriminate |]. simpl. rewrite Hc, Hall. reflexivity.
Qed.

(** [_validate_link_id] accepts exactly the texts of 32 to 64 characters
    that consist of one or more characters of the identifier alphabet,
    optionally followed by one final line feed, which the [$] of the
    pattern lets through. *)
Theorem validate_link_id_accepts (link_id : string) :
  _validate_link_id link_id = None <->
  (32 <= String.length link_id <= 64)%nat
  /\ exists body,
       (link_id = body \/ link_id = body ++ String "010"%char "")
       /\ body <> "" /\ all_chars id_char body = true.
Proof.
  unfold _validate_link_id. split.
  - destruct (String.eqb link_id ""); [discriminate |].
    destruct ((32 <=? String.length link_id)%nat
              && (String.length link_id <=? 64)%nat) eqn:Hlen;
      [| discriminate]. simpl.
    destruct (match_id link_id) eqn:Hm; [| discriminate]. intros _.
    apply andb_true_iff in Hlen as [H1 H2].
    apply Nat.leb_le in H1. apply Nat.leb_le in H2.
    split; [lia | apply match_id_inv, Hm].
  - intros [[H1 H2] (body & Hs & Hne & Hall)].
    destruct (match_id_body body Hne Hall) as [Hm1 Hm2].
    assert (Hm : match_id link_id = true)
      by (destruct Hs as [-> | ->]; assumption).
    destruct (String.eqb_spec link_id "") as [-> | _];
      [simpl in H1; lia |].
    apply Nat.leb_le in H1. apply Nat.leb_le in H2.
    rewrite H1, H2, Hm. reflexivity.
Qed.

Lemma upper_hex_is_id_char (c : ascii) :
  is_upper_hex c = true -> id_char c = true.
Proof.
  unfold is_upper_hex, id_char. intros H.
  apply orb_true_iff in H as [-> | H].
  - rewrite orb_true_r. reflexivity.
  - apply andb_true_iff in H as [H1 H2].
    apply Nat.leb_le in H1. apply Nat.leb_le in H2.
    assert (E : ((65 <=? nat_of_ascii c)%nat
                 && (nat_of_ascii c <=? 90)%nat) = true).
    { apply andb_true_iff. split; apply Nat.leb_le; lia. }
    rewrite E. reflexivity.
Qed.

Lemma all_chars_impl (p q : ascii -> bool) (s : string) :
  (forall c, p c = true -> q c = true) ->
  all_chars p s = true -> all_chars q s = true.
Proof.
  intros Hpq. induction s as [| c s IH]; simpl; [reflexivity |].
  intros H. apply andb_true_iff in H as [Hc Hs].
  rewrite (Hpq _ Hc), (IH Hs). reflexivity.
Qed.

(** An identifier as the registry generates it, 32 upper-case hexadecimal
    digits, passes the client's check. *)
Theorem generated_ids_pass_client_check (link_id : string) :
  String.length link_id = 32%nat ->
  all_chars is_upper_hex link_id = true ->
  _validate_link_id link_id = None.
Proof.
  intros Hlen Hhex. unfold _validate_link_id.
  assert (Hne : link_id <> "") by (intros ->; discriminate Hlen).
  destruct (match_id_body link_id Hne
              (all_chars_impl _ _ _ upper_hex_is_id_char Hhex)) as [Hm _].
  destruct (String.eqb_spec link_id ""); [contradiction |].
  rewrite Hlen, Hm. reflexivity.
Qed.

Lemma generated_ids_pass_client_check_witness :
  _validate_link_id Sample.X = None.
Proof.
  apply (generated_ids_pass_client_check Sample.X); reflexivity.
Defined.

(** *** Cache keys *)

(** The key [resolve] builds, written out: the options come in the order of
    their names. *)
Lemma resolve_cache_key (link_id : string) (format language : option string)
    (version : option Z) (timestamp : option string) (metadata : bool) :
  _cache_key link_id
    (resolve_options format language version timestamp metadata)
  = "linkid" ++ "|" ++ link_id ++ "|"
      ++ ("format" ++ "=" ++ py_str (opt_text format)) ++ "|"
      ++ ("language" ++ "=" ++ py_str (opt_text language)) ++ "|"
      ++ ("metadata" ++ "=" ++ py_str (OBool metadata)) ++ "|"
      ++ ("timestamp" ++ "=" ++ py_str (opt_text timestamp)) ++ "|"
      ++ ("version" ++ "=" ++ py_str (opt_int version)).
Proof.
  unfold _cache_key.
  assert (Hkeys : sorted_keys
                    (resolve_options format language version timestamp
                       metadata)
                  = ["format"; "language"; "metadata"; "timestamp";
                     "version"])
    by (vm_compute; reflexivity).
  rewrite Hkeys. unfold resolve_options. simpl map.
  repeat (rewrite lookup_insert_eq
          || rewrite lookup_insert_ne by discriminate).
  reflexivity.
Qed.

(** Two [resolve] calls that differ only in the [metadata] flag never share
    a cache key. *)
Theorem cache_key_separates_metadata (link_id : string)
    (format language : option string) (version : option Z)
    (timestamp : option string) :
  _cache_key link_id
    (resolve_options format language version timestamp true)
  <> _cache_key link_id
       (resolve_options format language version timestamp false).
Proof.
  rewrite !resolve_cache_key. intros H.
  repeat (apply append_cancel_l in H).
  simpl py_str in H. rewrite !append_cons in H. discriminate H.
Qed.

Lemma py_str_flag_inj (m1 m2 : bool) :
  py_str (OBool m1) = py_str (OBool m2) -> m1 = m2.
Proof. destruct m1, m2; simpl; intros H; try reflexivity; discriminate H. Qed.

Lemma py_str_int_inj (v1 v2 : option Z) :
  py_str (opt_int v1) = py_str (opt_int v2) -> v1 = v2.
Proof.
  assert (Hnone : forall z, Resolver.str_of_Z z <> "None").
  { intros z E.
    assert (H : all_chars (fun c => is_digit c || Ascii.eqb c "-")
                  (Resolver.str_of_Z z) = true).
    { unfold Resolver.str_of_Z. destruct z as [| p | p]; [reflexivity | |];
        simpl; rewrite to_uint_string;
        apply (all_chars_impl is_digit); try apply uint_all_digits;
        intros c ->; reflexivity. }
    rewrite E in H. discriminate H. }
  destruct v1 as [z1 |], v2 as [z2 |]; simpl; intros H.
  - f_equal. apply str_of_Z_inj, H.
  - destruct (Hnone _ H).
  - destruct (Hnone _ (eq_sym H)).
  - reflexivity.
Qed.

(** The key determines the request.  When the identifiers and the text
    options hold no [|], two [resolve] calls with the same cache key have
    the same identifier, the same [metadata] flag, the same [version], and
    text options that read the same (an absent one reads [None]). *)
Theorem cache_key_determines_request (id1 id2 : string)
    (f1 f2 l1 l2 t1 t2 : option string) (v1 v2 : option Z) (m1 m2 : bool) :
  has_char "|"%char id1 = false -> has_char "|"%char id2 = false ->
  has_char "|"%char (py_str (opt_text f1)) = false ->
  has_char "|"%char (py_str (opt_text f2)) = false ->
  has_char "|"%char (py_str (opt_text l1)) = false ->
  has_char "|"%char (py_str (opt_text l2)) = false ->
  has_char "|"%char (py_str (opt_text t1)) = false ->
  has_char "|"%char (py_str (opt_text t2)) = false ->
  _cache_key id1 (resolve_options f1 l1 v1 t1 m1)
  = _cache_key id2 (resolve_options f2 l2 v2 t2 m2) ->
  id1 = id2
  /\ py_str (opt_text f1) = py_str (opt_text f2)
  /\ py_str (opt_text l1) = py_str (opt_text l2)
  /\ py_str (opt_text t1) = py_str (opt_text t2)
  /\ v1 = v2 /\ m1 = m2.
Proof.
  intros Hi1 Hi2 Hf1 Hf2 Hl1 Hl2 Ht1 Ht2 H.
  rewrite !resolve_cache_key in H.
  assert (Hm : forall m, has_char "|"%char (py_str (OBool m)) = false)
    by (intros []; reflexivity).
  pose proof (Hm m1) as Hm1. pose proof (Hm m2) as Hm2. clear Hm.
  remember (py_str (opt_text f1)) as F1 eqn:E. clear E.
  remember (py_str (opt_text f2)) as F2 eqn:E. clear E.
  remember (py_str (opt_text l1)) as L1 eqn:E. clear E.
  remember (py_str (opt_text l2)) as L2 eqn:E. clear E.
  remember (py_str (opt_text t1)) as T1 eqn:E. clear E.
  remember (py_str (opt_text t2)) as T2 eqn:E. clear E.
  remember (py_str (OBool m1)) as M1 eqn:EM1.
  remember (py_str (OBool m2)) as M2 eqn:EM2.
  rewrite !append_assoc, !append_cons, !append_nil_l in H.
  repeat (injection H as H).
  apply (split_first_unique "|"%char) in H; [| assumption ..].
  destruct H as [Hid H]. repeat (injection H as H).
  apply (split_first_unique "|"%char) in H; [| assumption ..].
  destruct H as [HF H]. repeat (injection H as H).
  apply (split_first_unique "|"%char) in H; [| assumption ..].
  destruct H as [HL H]. repeat (injection H as H).
  apply (split_first_unique "|"%char) in H; [| assumption ..].
  destruct H as [HMeq H]. repeat (injection H as H).
  apply (split_first_unique "|"%char) in H; [| assumption ..].
  destruct H as [HT H]. repeat (injection H as H).
  split; [exact Hid |]. split; [exact HF |]. split; [exact HL |].
  split; [exact HT |]. split; [apply py_str_int_inj, H |].
  apply py_str_flag_inj. congruence.
Qed.

Lemma cache_key_determines_request_witness :
  Sample.X = Sample.X
  /\ py_str (opt_text (Some "pdf")) = py_str (opt_text (Some "pdf"))
  /\ py_str (opt_text None) = py_str (opt_text (Some "None"))
  /\ py_str (opt_text None) = py_str (opt_text None)
  /\ Some 2 = Some 2 /\ false = false.
Proof.
  apply (cache_key_determines_request Sample.X Sample.X
           (Some "pdf") (Some "pdf") None (Some "None") None None
           (Some 2) (Some 2) false false); reflexivity.
Defined.

(** *** Cache lifetime *)

Lemma take_digits_all (s rest : string) :
  all_chars is_digit s = true -> take_digits rest = "" ->
  take_digits (s ++ rest) = s.
Proof.
  intros Hs Hrest. induction s as [| c s IH]; [exact Hrest |].
  simpl in Hs. apply andb_true_iff in Hs as [Hc Hs].
  rewrite append_cons. simpl. rewrite Hc, (IH Hs). reflexivity.
Qed.

Lemma int_of_digits_str_of_Z (n : Z) :
  0 <= n -> int_of_digits (Resolver.str_of_Z n) = n.
Proof.
  intros Hn. unfold int_of_digits, Resolver.str_of_Z.
  destruct n as [| p | p]; [reflexivity | | lia].
  simpl. rewrite to_uint_string, NilEmpty.usu.
  exact (DecimalZ.of_to (Z.pos p)).
Qed.

(** The lifetime the client reads is the one the server wrote: for a
    [Cache-Control] header that starts with [max-age=] and the decimal text
    of a non-negative number, followed by nothing or by something that
    does not begin with a digit, [_cache_ttl] is that number.  Without the
    header, or with an empty one, it is the configured default. *)
Theorem cache_ttl_reads_max_age (default_ttl n : Z) (rest : string) :
  0 <= n ->
  take_digits rest = "" ->
  _cache_ttl default_ttl (Some ("max-age=" ++ Resolver.str_of_Z n ++ rest))
    = n
  /\ _cache_ttl default_ttl None = default_ttl
  /\ _cache_ttl default_ttl (Some "") = default_ttl.
Proof.
  intros Hn Hrest. split; [| split; reflexivity].
  destruct (str_of_Z_digits n Hn) as [Hd Hne].
  unfold _cache_ttl. rewrite !append_cons, append_nil_l. simpl String.eqb.
  cbv iota. unfold search_max_age.
  replace (strip_prefix "max-age="
             (String "m" (String "a" (String "x" (String "-" (String "a"
               (String "g" (String "e" (String "="
                 (Resolver.str_of_Z n ++ rest))))))))))
    with (Some (Resolver.str_of_Z n ++ rest)) by reflexivity.
  rewrite (take_digits_all _ _ Hd Hrest).
  destruct (Resolver.str_of_Z n) eqn:E; [contradiction |].
  rewrite <- E. apply int_of_digits_str_of_Z, Hn.
Qed.

Lemma cache_ttl_reads_max_age_witness :
  _cache_ttl 3600 (Some "max-age=300, public") = 300.
Proof.
  exact (proj1 (cache_ttl_reads_max_age 3600 300 ", public"
                  ltac:(lia) eq_refl)).
Defined.

End ClientApiFacts.

(** ** The client cache and the public methods *)

Module ClientCacheFacts.
Import Client ClientApi Text TextFacts CacheFacts.

Section Odict.
Context {V : Type}.
Implicit Types (d : @odict V) (key k : string) (e : V * Q).

Lemma odict_get_set_ne key k e d :
  k <> key -> odict_get k (odict_set key e d) = odict_get k d.
Proof.
  intros Hne. induction d as [| [k0 e0] rest IH]; simpl.
  - destruct (String.eqb_spec key k); [congruence | reflexivity].
  - destruct (String.eqb_spec k0 key) as [-> | Hk]; simpl.
    + destruct (String.eqb_spec key k); [congruence | reflexivity].
    + destruct (String.eqb k0 k); [reflexivity | exact IH].
Qed.

Lemma odict_get_pop_ne key k d :
  k <> key -> odict_get k (odict_pop key d) = odict_get k d.
Proof.
  intros Hne. induction d as [| [k0 e0] rest IH]; simpl; [reflexivity |].
  destruct (String.eqb_spec k0 key) as [-> | Hk]; simpl.
  - destruct (String.eqb_spec key k); [congruence | reflexivity].
  - destruct (String.eqb k0 k); [reflexivity | exact IH].
Qed.




(** Eviction takes the oldest entry and nothing else.  Below capacity [set]
    keeps the entry of every other key.  At capacity it drops the entry
    that was inserted first, also when the key being set is already
    present, and keeps the entries of all keys other than that one and the
    key being set. *)
Theorem set_evicts_only_the_oldest (key : string) (value : V)
    (ttl : option Z) (now : Q) (c c' : @TTLCache V) :
  NoDup (_store c).*1 ->
  Client.set key value ttl now c = Some c' ->
  (Z.of_nat (length (_store c)) < max_size c ->
   forall k, k <> key -> odict_get k (_store c') = odict_get k (_store c))
  /\ (max_size c <= Z.of_nat (length (_store c)) ->
      exists oldest e rest,
        _store c = (oldest, e) :: rest
        /\ (oldest <> key -> odict_get oldest (_store c') = None)
        /\ forall k, k <> key -> k <> oldest ->
                     odict_get k (_store c') = odict_get k (_store c)).
Proof.
  intros Hnd Hset. unfold Client.set in Hset.
  destruct (Z.geb (Z.of_nat (length (_store c))) (max_size c)) eqn:Hfull.
  - rewrite Z.geb_leb in Hfull. apply Z.leb_le in Hfull.
    split; [lia |]. intros _.
    destruct (_store c) as [| [k0 e0] rest] eqn:Hs; [discriminate |].
    injection Hset as <-. exists k0, e0, rest. split; [reflexivity |].
    simpl. rewrite String.eqb_refl.
    simpl in Hnd. apply NoDup_cons in Hnd as [Hnot _]. split.
    + intros Hne. rewrite odict_get_set_ne by exact Hne.
      apply odict_get_absent, Hnot.
    + intros k Hk Hk0. rewrite odict_get_set_ne by exact Hk.
      destruct (String.eqb_spec k0 k); [congruence | reflexivity].
  - rewrite Z.geb_leb in Hfull. apply Z.leb_gt in Hfull.
    split; [| lia]. intros _ k Hk. injection Hset as <-. simpl.
    apply odict_get_set_ne, Hk.
Qed.

End Odict.


Lemma set_evicts_only_the_oldest_witness :
  exists oldest e rest,
    _store Fixtures.full_cache = (oldest, e) :: rest
    /\ (oldest <> "k2" ->
        odict_get oldest
          (_store (with_store Fixtures.full_cache
                     [("k2", ("v2", (5 + inject_Z 3600)%Q))])) = None)
    /\ forall k, k <> "k2" -> k <> oldest ->
         odict_get k
           (_store (with_store Fixtures.full_cache
                      [("k2", ("v2", (5 + inject_Z 3600)%Q))]))
         = odict_get k (_store Fixtures.full_cache).
Proof.
  apply (proj2 (set_evicts_only_the_oldest "k2" "v2" None 5
                  Fixtures.full_cache _
                  ltac:(vm_compute; repeat constructor; set_solver)
                  eq_refl)).
  vm_compute. discriminate.
Defined.

(** The server cache gives back what was put in: after [set], a [get] of
    the same key no later than the expiry returns the value and keeps the
    store, and a [get] of any other key answers as it did before, for the
    server cache never evicts.  Without a [ttl] the lifetime is 300. *)
Theorem server_cache_round_trip {V : Type} (key : string) (value : V)
    (ttl : option Z) (now now' : Q) (s : gmap string (V * Q)) :
  (now' <= now + inject_Z (default 300%Z ttl))%Q ->
  CacheService.get key now' (CacheService.set key value ttl now s)
    = (Some value, CacheService.set key value ttl now s)
  /\ forall other,
       other <> key ->
       fst (CacheService.get other now'
              (CacheService.set key value ttl now s))
       = fst (CacheService.get other now' s).
Proof.
  intros Hlive. unfold CacheService.get, CacheService.set. simpl. split.
  - rewrite lookup_insert_eq. apply Qltb_false in Hlive. rewrite Hlive.
    reflexivity.
  - intros other Hne. rewrite lookup_insert_ne by congruence.
    destruct (s !! other) as [[v e] |]; [| reflexivity].
    destruct (Qltb e now'); reflexivity.
Qed.

Lemma server_cache_round_trip_witness :
  CacheService.get "k" 7 Sample.server_cache
  = (Some "v", Sample.server_cache).
Proof.
  apply (proj1 (server_cache_round_trip "k" "v" (Some 10) 0 7 ∅
                  ltac:(vm_compute; discriminate))).
Defined.

End ClientCacheFacts.

(** ** The client's public methods *)

Module ClientMethodFacts.
Import Client ClientApi Text TextFacts CacheFacts.

Section Methods.
Variable json_of : Response -> option pyval.
Variable parse_float : string -> option Q.

(** A result fetched from the resolver is served from the cache afterwards.
    When caching is on and [resolve] returned a result for which it called
    the transport, the result is stored under the key of the request with an
    expiry of the store-time clock plus a lifetime, and until that expiry
    every [resolve] with the same identifier and options returns the same
    result flagged [cached], without any transport call and without
    changing the cache. *)
Theorem fetched_result_is_served_from_cache (self : LinkIDClient)
    (cache cache' : @TTLCache ResolutionResult) (link_id : string)
    (format language : option string) (version : option Z)
    (timestamp : option string) (metadata bypass_cache : bool)
    (session : Z -> transport) (now_get now_set : Q)
    (result : ResolutionResult) (trace : list event) :
  caching self = true ->
  resolve json_of parse_float self cache link_id format language version
    timestamp metadata bypass_cache session now_get now_set
    = (Done result, cache', trace) ->
  trace <> [] ->
  exists ttl,
    odict_get
      (_cache_key link_id
         (resolve_options format language version timestamp metadata))
      (_store cache')
    = Some (result, (now_set + inject_Z ttl)%Q)
    /\ forall session' now_get' now_set',
         (now_get' <= now_set + inject_Z ttl)%Q ->
         resolve json_of parse_float self cache' link_id format language
           version timestamp metadata false session' now_get' now_set'
         = (Done (set_cached result), cache', []).
Proof.
  intros Hcaching H Htrace. unfold resolve in H.
  destruct (_validate_link_id link_id) eqn:Hv; [discriminate |].
  set (key := _cache_key link_id
                (resolve_options format language version timestamp metadata))
    in *.
  destruct (if caching self && negb bypass_cache
            then Client.get key now_get cache else (None, cache))
    as [[hit |] cache1] eqn:Hlook.
  { injection H as _ _ <-. contradiction. }
  destruct (_send_request self session
              (resolver_url self ++ "/resolve/" ++ link_id)) as [tr r].
  destruct (sent_outcome r) as [response | e]; [| discriminate].
  destruct (interpret json_of parse_float self link_id response)
    as [res | e]; [| discriminate].
  rewrite Hcaching in H.
  set (ttl := _cache_ttl (default_ttl cache1)
                (header_get response "Cache-Control")) in *.
  destruct (Client.set key res (Some ttl) now_set cache1) as [cache2 |]
    eqn:Hset; [| discriminate].
  injection H as <- <- <-.
  assert (Hstored : odict_get key (_store cache2)
                    = Some (res, (now_set + inject_Z ttl)%Q)).
  { unfold Client.set in Hset.
    destruct (Z.geb (Z.of_nat (length (_store cache1))) (max_size cache1)).
    - destruct (_store cache1) as [| [k0 e0] rest]; [discriminate |].
      injection Hset as <-. simpl. apply odict_get_set_eq.
    - injection Hset as <-. simpl. apply odict_get_set_eq. }
  exists ttl. split; [exact Hstored |].
  intros session' now_get' now_set' Hlive.
  unfold resolve. rewrite Hv, Hcaching. simpl andb. cbv iota.
  fold key. unfold Client.get. rewrite Hstored.
  apply Qltb_false in Hlive. rewrite Hlive. reflexivity.
Qed.


Lemma mutate_cache (self : LinkIDClient)
    (cache cache' : @TTLCache ResolutionResult) (link_id : string)
    (session : Z -> transport) (out : outcome unit) (trace : list event) :
  mutate json_of self cache link_id session = (out, cache', trace) ->
  match out with
  | Done _ => cache' = if caching self then Client.clear cache else cache
  | Raise _ => cache' = cache
  end.
Proof.
  intros H. unfold mutate in H.
  destruct (_require_api_key self);
    [injection H as <- <- _; reflexivity |].
  destruct (_validate_link_id link_id);
    [injection H as <- <- _; reflexivity |].
  destruct (_send_request self session
              (resolver_url self ++ "/resolve/" ++ link_id)) as [tr r].
  destruct (sent_outcome r) as [response | e0];
    [| injection H as <- <- _; reflexivity].
  destruct (negb (ok response)); [injection H as <- <- _; reflexivity |].
  destruct (caching self); injection H as <- <- _; reflexivity.
Qed.

(** [update] and [withdraw] empty the whole cache exactly when they
    succeed with caching on; when they raise, or when caching is off, the
    cache is as it was. *)
Theorem mutation_clears_cache_on_success (self : LinkIDClient)
    (cache cache' : @TTLCache ResolutionResult) (link_id : string)
    (request : gmap string pyval) (session : Z -> transport)
    (out : outcome unit) (trace : list event) :
  update json_of self cache link_id request session = (out, cache', trace)
  \/ withdraw json_of self cache link_id (Some request) session
     = (out, cache', trace) ->
  match out with
  | Done _ => cache' = if caching self then Client.clear cache else cache
  | Raise _ => cache' = cache
  end.
Proof.
  intros H. apply (mutate_cache self cache cache' link_id session out trace).
  destruct H as [H | H]; exact H.
Qed.

(** Local checks come before the network.  Without an API key [register],
    [update] and [withdraw] raise the [AUTH_REQUIRED] error, whatever their
    other arguments; an identifier that fails [_validate_link_id] makes
    [resolve] raise that error, and [update] and [withdraw] too when a key
    is configured; a registration whose target fails the local check makes
    [register] raise that error.  In each case no transport call is made
    and the cache is untouched. *)
Theorem local_checks_precede_network (self : LinkIDClient)
    (cache : @TTLCache ResolutionResult) (link_id : string)
    (request : gmap string pyval) (session : Z -> transport) :
  (forall e,
     _require_api_key self = Some e ->
     register json_of self request session = (Raise e, [])
     /\ update json_of self cache link_id request session = (Raise e, cache, [])
     /\ withdraw json_of self cache link_id (Some request) session
        = (Raise e, cache, []))
  /\ (forall e format language version timestamp metadata bypass now1 now2,
        _validate_link_id link_id = Some e ->
        resolve json_of parse_float self cache link_id format language
          version timestamp metadata bypass session now1 now2
        = (Raise e, cache, [])
        /\ (_require_api_key self = None ->
            update json_of self cache link_id request session = (Raise e, cache, [])
            /\ withdraw json_of self cache link_id (Some request) session
               = (Raise e, cache, [])))
  /\ (forall e,
        _require_api_key self = None ->
        _validate_registration_request request = Some e ->
        register json_of self request session = (Raise e, [])).
Proof.
  split; [| split].
  - intros e He. unfold register, update, withdraw, mutate. rewrite He.
    split; [| split]; reflexivity.
  - intros e format language version timestamp metadata bypass now1 now2 He.
    split.
    + unfold resolve. rewrite He. reflexivity.
    + intros Hk. unfold update, withdraw, mutate. rewrite Hk, He.
      split; reflexivity.
  - intros e Hk He. unfold register. rewrite Hk, He. reflexivity.
Qed.

(** Error details are read at the top level of the body only.  For a 404
    or 410 answer whose JSON body has no [error], [message] or [tombstone]
    key of its own (as when they are nested under [detail]),
    [_handle_error] raises the typed error with the message [HTTP 404] or
    [HTTP 410], and for 410 with an empty tombstone. *)
Theorem handle_error_reads_top_level_only (response : Response)
    (link_id : string) (d : gmap string pyval) :
  json_of response = Some (PDict d) ->
  d !! "error" = None -> d !! "message" = None -> d !! "tombstone" = None ->
  link_id <> "" ->
  (status_code response = 404 ->
   _handle_error json_of response (Some link_id)
   = LinkIDNotFoundError link_id (PStr "HTTP 404"))
  /\ (status_code response = 410 ->
      _handle_error json_of response (Some link_id)
      = LinkIDWithdrawnError link_id (PStr "HTTP 410") (PDict ∅)).
Proof.
  intros Hj He Hm Ht Hl.
  assert (Hu : or_unknown (Some link_id) = link_id).
  { simpl. destruct (String.eqb_spec link_id ""); [contradiction |].
    reflexivity. }
  split; intros Hs; unfold _handle_error, http_text, dict_get;
    rewrite Hj, He, Hm, Ht, Hs, Hu; reflexivity.
Qed.

End Methods.

Lemma fetched_result_is_served_from_cache_witness :
  exists ttl,
    forall session' now_get' now_set',
      (now_get' <= 2 + inject_Z ttl)%Q ->
      resolve Fixtures.json_of Fixtures.parse_float Fixtures.client
        Fixtures.warm_cache Sample.X None None None None false false
        session' now_get' now_set'
      = (Done (RedirectResolution Sample.X "https://example.org/resource"
                 "resolver.linkid.org" true None),
         Fixtures.warm_cache, []).
Proof.
  destruct (fetched_result_is_served_from_cache Fixtures.json_of
              Fixtures.parse_float Fixtures.client Fixtures.empty_cache
              Fixtures.warm_cache Sample.X None None None None false false
              (Fixtures.answers Fixtures.redirect_response) 1 2
              (RedirectResolution Sample.X "https://example.org/resource"
                 "resolver.linkid.org" false None)
              [Request 1] eq_refl
              ltac:(vm_compute; reflexivity) ltac:(discriminate))
    as (ttl & _ & Hserve).
  exists ttl. exact Hserve.
Defined.


Lemma mutation_clears_cache_on_success_witness :
  Client.clear Fixtures.warm_cache
  = if caching Fixtures.client then Client.clear Fixtures.warm_cache
    else Fixtures.warm_cache.
Proof.
  apply (mutation_clears_cache_on_success Fixtures.json_of Fixtures.client
           Fixtures.warm_cache (Client.clear Fixtures.warm_cache)
           Sample.X ∅ (Fixtures.answers Fixtures.redirect_response)
           (Done tt) [Request 1]).
  left. vm_compute; reflexivity.
Defined.

Lemma local_checks_precede_network_witness :
  register Fixtures.json_of Fixtures.anonymous
    (<["targetUri" := PStr "https://example.org/resource"]> ∅) Sample.down
  = (Raise (LinkIDError (PStr "API key required for this operation")
                        (PStr "AUTH_REQUIRED")), []).
Proof.
  apply (proj1 (proj1 (local_checks_precede_network Fixtures.json_of
                         Fixtures.parse_float Fixtures.anonymous
                         Fixtures.empty_cache Sample.X
                         (<["targetUri" :=
                              PStr "https://example.org/resource"]> ∅)
                         Sample.down)
                  _ eq_refl)).
Defined.

Lemma handle_error_reads_top_level_only_witness :
  _handle_error Fixtures.json_of Fixtures.gone_response (Some Sample.X)
  = LinkIDWithdrawnError Sample.X (PStr "HTTP 410") (PDict ∅).
Proof.
  apply (proj2 (handle_error_reads_top_level_only Fixtures.json_of
                  Fixtures.gone_response Sample.X _ eq_refl
                  ltac:(vm_compute; reflexivity)
                  ltac:(vm_compute; reflexivity)
                  ltac:(vm_compute; reflexivity) ltac:(discriminate))).
  reflexivity.
Defined.

End ClientMethodFacts.

(** ** More on the retry loop *)

Module RetryMore.
Import Client ClientApi ClientFacts.

Lemma slept_app (tr1 tr2 : list event) :
  slept (tr1 ++ tr2) = slept tr1 + slept tr2.
Proof.
  induction tr1 as [| [a | z] tr1 IH]; simpl; [reflexivity | |];
    rewrite IH; lia.
Qed.

Lemma backoff_from_counts (cnt : nat) :
  forall a : nat,
    (1 <= a)%nat ->
    slept (backoff_from a cnt)
      = 2 ^ (Z.of_nat (a + cnt) - 1) - 2 ^ (Z.of_nat a - 1)
    /\ requests (backoff_from a cnt) = cnt.
Proof.
  induction cnt as [| c IH]; intros a Ha.
  - rewrite Nat.add_0_r. split; [simpl; lia | reflexivity].
  - destruct (IH (S a) ltac:(lia)) as [IHs IHr].
    change (backoff_from a (S c))
      with (Request (Z.of_nat a) :: Sleep (2 ^ (Z.of_nat a - 1))
              :: backoff_from (S a) c).
    simpl slept. simpl requests. rewrite IHs, IHr. split; [| reflexivity].
    replace (Z.of_nat (S a + c) - 1) with (Z.of_nat (a + S c) - 1) by lia.
    replace (Z.of_nat (S a) - 1) with (Z.succ (Z.of_nat a - 1)) by lia.
    rewrite Z.pow_succ_r by lia. lia.
Qed.

(** The cost of giving up.  When every allowed attempt fails with a
    [Timeout] or another [RequestException], [_send_request] has called the
    transport [retries] times and has slept [2 ^ (retries - 1) - 1] in all
    before it raises [NetworkError]. *)
Theorem exhausted_retries_cost (self : LinkIDClient)
    (session : Z -> transport) (url : string) :
  1 <= retries self ->
  (forall j, 1 <= j <= retries self -> failure (session j) <> None) ->
  requests (fst (_send_request self session url)) = Z.to_nat (retries self)
  /\ slept (fst (_send_request self session url))
     = 2 ^ (retries self - 1) - 1
  /\ exists message,
       snd (_send_request self session url) = NetworkError message.
Proof.
  intros Hn Hfail.
  destruct (send_request_upto self session url (Z.to_nat (retries self)))
    as [last' Hrun].
  { lia. }
  { lia. }
  { intros j Hj. apply Hfail. lia. }
  rewrite Hrun. clear Hrun.
  replace (Z.to_nat (retries self) - Z.to_nat (retries self))%nat
    with O by lia.
  change (seq (Z.to_nat (retries self)) 1)
    with [Z.to_nat (retries self)].
  simpl map. replace (Z.of_nat (Z.to_nat (retries self)))
    with (retries self) by lia.
  destruct (failure (session (retries self))) as [exc |] eqn:Hf;
    [| exfalso; apply (Hfail (retries self)); [lia | exact Hf]].
  rewrite (send_loop_failed _ _ _ _ _ _ exc Hf), Z.ltb_irrefl.
  simpl fst. simpl snd.
  destruct (backoff_from_counts (Z.to_nat (retries self) - 1) 1
              ltac:(lia)) as [Hs Hr].
  rewrite requests_app, slept_app, Hs, Hr. simpl requests. simpl slept.
  split; [lia |]. split; [| eexists; reflexivity].
  replace (Z.of_nat (1 + (Z.to_nat (retries self) - 1)) - 1)
    with (retries self - 1) by lia.
  change (Z.of_nat 1 - 1) with 0. rewrite Z.pow_0_r. lia.
Qed.

Lemma exhausted_retries_cost_witness :
  requests (fst (_send_request Sample.client3 Sample.down "u")) = 3%nat
  /\ slept (fst (_send_request Sample.client3 Sample.down "u")) = 3
  /\ exists message,
       snd (_send_request Sample.client3 Sample.down "u")
       = NetworkError message.
Proof.
  apply (exhausted_retries_cost Sample.client3 Sample.down "u").
  - vm_compute. discriminate.
  - intros j _. discriminate.
Defined.

End RetryMore.
